(** * OCR drug-test adder: a shallow embedding of [ocr_drug_test_adder.py]

    The development follows the pipeline of the script:
    [extract_text_from_image] (ordering and joining of the OCR fragments),
    [parse_fields] (correction table, primary regular expressions,
    fallbacks, validation) and [add_to_csv] (read, append, reorder, write).

    Characters are the code points below 256 of a Python [str]; on that
    range [\s], [\d], [str.strip], [re.IGNORECASE] against ASCII pattern
    letters, [str.upper] and [str.capitalize] of ASCII words are the
    functions written out below.  Above that range a [str] has further
    white space and digits, and [re.IGNORECASE] lets the letters i, s and
    k of a pattern also match U+0130, U+0131, U+017F and U+212A: a
    statement about the letters of a match therefore names, as a
    hypothesis, the ASCII range it speaks of. *)

From Stdlib Require Import Ascii String DecimalString ZArith Lia Bool Arith PeanoNat List.
From Stdlib Require Import Permutation Sorted.
Import ListNotations.

Open Scope list_scope.

(** ** Python strings *)

Definition text := list ascii.

Definition str (s : string) : text := list_ascii_of_string s.

Module Py.

Definition code (c : ascii) : nat := nat_of_ascii c.

Definition between (lo hi n : nat) : bool := (lo <=? n) && (n <=? hi).

(** [str.isspace] on one character: TAB..CR, FS..US, SPACE, NEL, NBSP. *)
Definition isspace (c : ascii) : bool :=
  let n := code c in
  between 9 13 n || between 28 32 n || (n =? 133) || (n =? 160).

Definition isdigit (c : ascii) : bool := between 48 57 (code c).

(** [str.isascii] on one character. *)
Definition isascii (c : ascii) : bool := code c <? 128.

Definition isupper (c : ascii) : bool := between 65 90 (code c).

Definition islower (c : ascii) : bool := between 97 122 (code c).

Definition lower_char (c : ascii) : ascii :=
  if isupper c then ascii_of_nat (code c + 32) else c.

Definition upper_char (c : ascii) : ascii :=
  if islower c then ascii_of_nat (code c - 32) else c.

Definition lower (s : text) : text := map lower_char s.

(** [str.upper] *)
Definition upper (s : text) : text := map upper_char s.

(** [str.capitalize]: first character upper case, the rest lower case. *)
Definition capitalize (s : text) : text :=
  match s with
  | [] => []
  | c :: s' => upper_char c :: lower s'
  end.

Fixpoint lstrip (s : text) : text :=
  match s with
  | c :: s' => if isspace c then lstrip s' else s
  | [] => []
  end.

Definition rstrip (s : text) : text := rev (lstrip (rev s)).

(** [str.strip()] *)
Definition strip (s : text) : text := rstrip (lstrip s).

Fixpoint starts_with (p s : text) : bool :=
  match p, s with
  | [], _ => true
  | a :: p', b :: s' => Ascii.eqb a b && starts_with p' s'
  | _ :: _, [] => false
  end.

(** [s.replace(old, new)] for a non-empty [old]: the occurrences are taken
    left to right and do not overlap; [skip] counts the characters of an
    occurrence still to be dropped. *)
Fixpoint replace_from (old new s : text) (skip : nat) : text :=
  match s with
  | [] => []
  | c :: s' =>
      match skip with
      | S n => replace_from old new s' n
      | O => if starts_with old s
             then new ++ replace_from old new s' (length old - 1)
             else c :: replace_from old new s' 0
      end
  end.

(** With an empty [old] Python puts [new] before every character and at
    the end. *)
Definition replace (old new s : text) : text :=
  match old with
  | [] => flat_map (fun c => new ++ [c]) s ++ new
  | _ :: _ => replace_from old new s 0
  end.

(** [sep.join(parts)] *)
Fixpoint join (sep : text) (parts : list text) : text :=
  match parts with
  | [] => []
  | [p] => p
  | p :: ps => p ++ sep ++ join sep ps
  end.

(** [s.split(sep)] for a one-character separator; [cur] holds the part
    being read, reversed. *)
Fixpoint split_from (sep : ascii) (s : text) (cur : text) : list text :=
  match s with
  | [] => [rev cur]
  | c :: s' => if Ascii.eqb c sep
               then rev cur :: split_from sep s' []
               else split_from sep s' (c :: cur)
  end.

Definition split (sep : ascii) (s : text) : list text := split_from sep s [].

End Py.

(** ** Regular expressions

    The fragment of [re] that the script's patterns use: literal text,
    alternation, concatenation, a quantified character set (greedy or
    lazy), capturing group 1, a lookahead and [$].  Matching is the
    backtracking search of [re]: alternatives left to right, a greedy
    quantifier longest first, a lazy one shortest first, and
    [re.search] takes the leftmost start at which the pattern matches. *)

Module Re.

Inductive cset_item : Type :=
| CChar (c : ascii)            (* a character of the set *)
| CRange (lo hi : ascii)       (* lo-hi *)
| CSpace                       (* \s *)
| CDigit                       (* \d *)
| CDot.                        (* .  (anything but a newline) *)

Definition cset := list cset_item.

Inductive regex : Type :=
| Str (p : string)
| Alt (r1 r2 : regex)
| Cat (r1 r2 : regex)
| Rep (cs : cset) (lo : nat) (hi : option nat) (greedy : bool)
| Group (r : regex)
| Ahead (r : regex)
| Eol.

Definition newline : ascii := ascii_of_nat 10.

Definition item_has (i : cset_item) (c : ascii) : bool :=
  match i with
  | CChar a => Ascii.eqb a c
  | CRange lo hi => Py.between (Py.code lo) (Py.code hi) (Py.code c)
  | CSpace => Py.isspace c
  | CDigit => Py.isdigit c
  | CDot => negb (Ascii.eqb c newline)
  end.

Definition cset_has (cs : cset) (c : ascii) : bool :=
  existsb (fun i => item_has i c) cs.

(** Under [re.IGNORECASE] a character is in a set when its lower-case or
    its upper-case form is. *)
Definition in_cset (ic : bool) (cs : cset) (c : ascii) : bool :=
  if ic then cset_has cs (Py.lower_char c) || cset_has cs (Py.upper_char c)
  else cset_has cs c.

Definition char_eq (ic : bool) (p c : ascii) : bool :=
  if ic then Ascii.eqb (Py.lower_char p) (Py.lower_char c) else Ascii.eqb p c.

(** The rest of [s] after the literal [p], when [s] starts with it. *)
Fixpoint eat (ic : bool) (p : text) (s : text) : option text :=
  match p, s with
  | [], _ => Some s
  | a :: p', c :: s' => if char_eq ic a c then eat ic p' s' else None
  | _ :: _, [] => None
  end.

Definition may_repeat (hi : option nat) : bool :=
  match hi with
  | Some O => false
  | _ => true
  end.

Definition one_less (hi : option nat) : option nat := option_map pred hi.

(** A quantified character set: [lo] more characters are required and
    at most [hi] are allowed. *)
Fixpoint rep {R : Type} (ic : bool) (cs : cset) (lo : nat) (hi : option nat)
    (greedy : bool) (k : text -> option R) (s : text) : option R :=
  match s with
  | c :: s' =>
      if may_repeat hi && in_cset ic cs c then
        if greedy then
          match rep ic cs (pred lo) (one_less hi) greedy k s' with
          | Some x => Some x
          | None => match lo with O => k s | S _ => None end
          end
        else
          match (match lo with O => k s | S _ => None end) with
          | Some x => Some x
          | None => rep ic cs (pred lo) (one_less hi) greedy k s'
          end
      else match lo with O => k s | S _ => None end
  | [] => match lo with O => k s | S _ => None end
  end.

(** [run ic r k s g]: match [r] at the start of [s] with group 1 holding
    [g], and hand the rest of the input and group 1 to [k]; [None] makes
    the matcher backtrack. *)
Fixpoint run (ic : bool) (r : regex) (R : Type)
    (k : text -> option text -> option R) (s : text) (g : option text)
    {struct r} : option R :=
  match r with
  | Str p =>
      match eat ic (str p) s with
      | Some s' => k s' g
      | None => None
      end
  | Alt r1 r2 =>
      match run ic r1 R k s g with
      | Some x => Some x
      | None => run ic r2 R k s g
      end
  | Cat r1 r2 => run ic r1 R (fun s' g' => run ic r2 R k s' g') s g
  | Rep cs lo hi greedy => rep ic cs lo hi greedy (fun s' => k s' g) s
  | Group r1 =>
      run ic r1 R
        (fun s' _ => k s' (Some (firstn (length s - length s') s))) s g
  | Ahead r1 =>
      match run ic r1 unit (fun _ _ => Some tt) s g with
      | Some _ => k s g
      | None => None
      end
  | Eol =>
      match s with
      | [] => k s g
      | [c] => if Ascii.eqb c newline then k s g else None
      | _ => None
      end
  end.

(** A match object: [group0] is [m.group()], [group1] is [m.group(1)]
    ([None] when the group took no part in the match). *)
Record Match : Type := mkMatch { group0 : text; group1 : option text }.

Definition match_here (ic : bool) (r : regex) (s : text) : option Match :=
  run ic r Match
    (fun s' g => Some (mkMatch (firstn (length s - length s') s) g)) s None.

(** [re.search(r, s)], or with [re.IGNORECASE] when [ic] is set. *)
Fixpoint search (ic : bool) (r : regex) (s : text) : option Match :=
  match match_here ic r s with
  | Some m => Some m
  | None =>
      match s with
      | [] => None
      | _ :: s' => search ic r s'
      end
  end.

Definition star (cs : cset) : regex := Rep cs 0 None true.
Definition plus (cs : cset) : regex := Rep cs 1 None true.
Definition lazy_plus (cs : cset) : regex := Rep cs 1 None false.
Definition times (cs : cset) (lo hi : nat) : regex := Rep cs lo (Some hi) true.

End Re.

(** ** Exceptions *)

(** The argument of a [KeyError]: a [dict] gives the key that is absent;
    pandas gives one sentence that names every requested column that is
    missing. *)
Inductive key_arg : Type :=
| Key (k : string)
| NotInIndex (requested missing : list string).

(** [OtherError] stands for an exception of any class that is none of
    the others nor a subclass of one ([PermissionError], [MemoryError],
    what the recognizer raises ...); pandas' [EmptyDataError] and
    [ParserError] are [ValueError]s. *)
Inductive exn : Type :=
| ValueError (msg : text)
| IndexError
| KeyError (arg : key_arg)
| AttributeError
| FileNotFoundError (msg : text)
| OtherError (name : string) (msg : text).

Inductive result (A : Type) : Type :=
| Ok (a : A)
| Raise (e : exn).

Arguments Ok {A} a.
Arguments Raise {A} e.

Definition bind {A B : Type} (c : result A) (f : A -> result B) : result B :=
  match c with
  | Ok a => f a
  | Raise e => Raise e
  end.

Notation "x <- c ;; k" := (bind c (fun x => k))
  (at level 61, c at next level, right associativity).

(** [try: body  except (ValueError, IndexError): handler] *)
Definition try_except {A : Type} (body : result A) (handler : result A)
  : result A :=
  match body with
  | Raise (ValueError _) => handler
  | Raise IndexError => handler
  | other => other
  end.

(** ** Numbers and dates *)

Module Date.

Definition digit_value (c : ascii) : Z := Z.of_nat (Py.code c - 48).

(** The digits of an [int] literal: at least one, with single
    underscores allowed between two digits. *)
Fixpoint digits_value (s : text) (acc : Z) (after_digit : bool) : option Z :=
  match s with
  | [] => if after_digit then Some acc else None
  | c :: s' =>
      if Py.isdigit c then digits_value s' (10 * acc + digit_value c) true
      else if Ascii.eqb c "_" && after_digit then digits_value s' acc false
      else None
  end.

(** [int(s)] *)
Definition int (s : text) : result Z :=
  let bad := Raise (ValueError (str "invalid literal for int() with base 10")) in
  match Py.strip s with
  | [] => bad
  | c :: s' =>
      if Ascii.eqb c "-" then
        match digits_value s' 0 false with Some n => Ok (- n)%Z | None => bad end
      else if Ascii.eqb c "+" then
        match digits_value s' 0 false with Some n => Ok n | None => bad end
      else
        match digits_value (c :: s') 0 false with Some n => Ok n | None => bad end
  end.

Definition decimal (n : Z) : text :=
  str (NilZero.string_of_uint (N.to_uint (Z.to_N (Z.abs n)))).

(** [f"{n:0{width}d}"]: the sign counts in the width. *)
Definition format_0d (width : nat) (n : Z) : text :=
  let ds := decimal n in
  if (n <? 0)%Z
  then "-"%char :: repeat "0"%char (width - 1 - length ds) ++ ds
  else repeat "0"%char (width - length ds) ++ ds.

Definition is_leap (y : Z) : bool :=
  ((y mod 4 =? 0) && (negb (y mod 100 =? 0) || (y mod 400 =? 0)))%Z.

Definition days_in_month (y m : Z) : Z :=
  if (m =? 2)%Z then (if is_leap y then 29 else 28)%Z
  else if ((m =? 4) || (m =? 6) || (m =? 9) || (m =? 11))%Z then 30%Z
  else 31%Z.

(** [datetime.date(y, m, d)] accepts exactly these. *)
Definition valid_date (y m d : Z) : bool :=
  ((1 <=? y) && (y <=? 9999) && (1 <=? m) && (m <=? 12)
   && (1 <=? d) && (d <=? days_in_month y m))%Z.

Definition two_digits (a b : ascii) : Z := (10 * digit_value a + digit_value b)%Z.

(** The ways [%m] can match at the start of [s], in the order in which
    [_strptime] tries them: [1[0-2]], [0[1-9]], [[1-9]]. *)
Definition month_alternatives (s : text) : list (Z * text) :=
  (match s with
   | a :: b :: r =>
       (if Ascii.eqb a "1" && Py.between 48 50 (Py.code b)
        then [(two_digits a b, r)] else [])
       ++ (if Ascii.eqb a "0" && Py.between 49 57 (Py.code b)
           then [(two_digits a b, r)] else [])
   | _ => []
   end)
  ++ (match s with
      | a :: r => if Py.between 49 57 (Py.code a) then [(digit_value a, r)] else []
      | [] => []
      end).

(** The same for [%d]: [3[0-1]], [[1-2]\d], [0[1-9]], [[1-9]], [ [1-9]]. *)
Definition day_alternatives (s : text) : list (Z * text) :=
  (match s with
   | a :: b :: r =>
       (if Ascii.eqb a "3" && Py.between 48 49 (Py.code b)
        then [(two_digits a b, r)] else [])
       ++ (if Py.between 49 50 (Py.code a) && Py.isdigit b
           then [(two_digits a b, r)] else [])
       ++ (if Ascii.eqb a "0" && Py.between 49 57 (Py.code b)
           then [(two_digits a b, r)] else [])
   | _ => []
   end)
  ++ (match s with
      | a :: r => if Py.between 49 57 (Py.code a) then [(digit_value a, r)] else []
      | [] => []
      end)
  ++ (match s with
      | a :: b :: r =>
          if Ascii.eqb a " " && Py.between 49 57 (Py.code b)
          then [(digit_value b, r)] else []
      | _ => []
      end).

(** The first month alternative after which ["-"] and a day follow. *)
Fixpoint month_then_day (ms : list (Z * text)) : option (Z * Z * text) :=
  match ms with
  | [] => None
  | (m, r) :: ms' =>
      match r with
      | dash :: r' =>
          if Ascii.eqb dash "-" then
            match day_alternatives r' with
            | (d, rest) :: _ => Some (m, d, rest)
            | [] => month_then_day ms'
            end
          else month_then_day ms'
      | [] => month_then_day ms'
      end
  end.

(** [datetime.strptime(value, '%Y-%m-%d')]: the format must match a
    prefix of [value], nothing may remain after it, and the date must
    exist; every failure is a [ValueError]. *)
Definition strptime_Ymd (value : text) : result (Z * Z * Z) :=
  let no_match := Raise (ValueError (str "time data does not match format")) in
  match value with
  | y1 :: y2 :: y3 :: y4 :: dash :: rest =>
      if forallb Py.isdigit [y1; y2; y3; y4] && Ascii.eqb dash "-" then
        match month_then_day (month_alternatives rest) with
        | Some (m, d, remains) =>
            match remains with
            | _ :: _ => Raise (ValueError (str "unconverted data remains"))
            | [] =>
                let y := (100 * two_digits y1 y2 + two_digits y3 y4)%Z in
                if valid_date y m d then Ok (y, m, d)
                else Raise (ValueError (str "day is out of range for month"))
            end
        | None => no_match
        end
      else no_match
  | _ => no_match
  end.

End Date.

(** ** Dictionaries

    A Python [dict] keeps its keys in insertion order; assigning to a key
    that is present keeps its place. *)

Definition value := option text.   (* [None] or a [str] *)

Definition dict := list (string * value).

Fixpoint lookup (k : string) (d : dict) : option value :=
  match d with
  | [] => None
  | (k', v) :: d' => if String.eqb k' k then Some v else lookup k d'
  end.

(** [d[k]] *)
Definition getitem (d : dict) (k : string) : result value :=
  match lookup k d with
  | Some v => Ok v
  | None => Raise (KeyError (Key k))
  end.

(** [d[k] = v] *)
Fixpoint setitem (k : string) (v : value) (d : dict) : dict :=
  match d with
  | [] => [(k, v)]
  | (k', v') :: d' =>
      if String.eqb k' k then (k, v) :: d' else (k', v') :: setitem k v d'
  end.

(** Truth value of [None] or a string: [not v] is [negb (truthy v)]. *)
Definition truthy (v : value) : bool :=
  match v with
  | Some (_ :: _) => true
  | _ => false
  end.

(** ** [parse_fields] *)

Import Re.

Declare Scope regex_scope.
Delimit Scope regex_scope with re.
Bind Scope regex_scope with regex.
Notation "r1 <.> r2" := (Cat r1 r2) (at level 45, right associativity) : regex_scope.
Notation "r1 <|> r2" := (Alt r1 r2) (at level 55, right associativity) : regex_scope.

Definition initial_fields : dict :=
  [("EmployeeID", None); ("Name", None); ("Department", None);
   ("TestDate", None); ("TestType", None); ("Result", None);
   ("Notes", None)]%string.

Definition corrections : list (text * text) :=
  [(str "EmPloxe TUl", str "EmployeeID");
   (str "91 91", str "911911");
   (str "Nam e [", str "Name");
   (str "Go kon", str "Brifon");
   (str "Peloarz", str "Peter");
   (str "TT", str "IT");
   (str "414n) 025", str "9/14/2025");
   (str "Test Tz/c7", str "TestType");
   (str "Bloos", str "Blood");
   (str "Koroj", str "Result");
   (str "Kegaon +ot", str "Negative");
   (str "No ko", str "Notes");
   (str "Ronv om +est", str "Random test")].

(** [for old, new in corrections.items(): text = text.replace(old, new)] *)
Definition apply_corrections (t : text) : text :=
  fold_left (fun t '(old, new) => Py.replace old new t) corrections t.

Definition colon_space : cset := [CChar ":"; CSpace].
Definition letters : cset := [CRange "A" "Z"; CRange "a" "z"].
Definition letters_space : cset := [CRange "A" "Z"; CRange "a" "z"; CSpace].
Definition digit : cset := [CDigit].
Definition nl : string := String newline EmptyString.

(** [\d{1,2}/\d{1,2}/\d{4}] *)
Definition date_shape : regex :=
  (times digit 1 2 <.> Str "/" <.> times digit 1 2 <.> Str "/" <.> times digit 4 4)%re.

Definition patterns : list (string * regex) :=
  [("EmployeeID"%string,
      Str "EmployeeID" <.> star colon_space <.> Group (times digit 6 6));
   ("Name"%string,
      Str "Name" <.> star colon_space <.> Group (plus letters_space));
   ("Department"%string,
      (Str "Department" <|> Str "IT") <.> star colon_space
        <.> Group (plus letters_space));
   ("TestDate"%string,
      (Str "TestDate" <|> Str "9/14/2025") <.> star colon_space
        <.> Group date_shape);
   ("TestType"%string,
      (Str "TestType" <|> Str "Blood") <.> star colon_space
        <.> Group (plus letters));
   ("Result"%string,
      (Str "Result" <|> Str "Negative") <.> star colon_space
        <.> Group (plus letters));
   ("Notes"%string,
      (Str "Notes" <|> Str "Random test") <.> star colon_space
        <.> Group (lazy_plus [CDot]) <.> Ahead (Str nl <|> Eol))]%re.

(** [match.group(1).strip()]: a group that took no part is [None], which
    has no [strip]. *)
Definition group1_strip (m : Match) : result text :=
  match group1 m with
  | Some g => Ok (Py.strip g)
  | None => Raise AttributeError
  end.

(** [month, day, year = map(int, value.split('/'))] *)
Definition unpack_date (parts : list text) : result (Z * Z * Z) :=
  match parts with
  | [a; b; c] =>
      month <- Date.int a ;; day <- Date.int b ;; year <- Date.int c ;;
      Ok (month, day, year)
  | _ => Raise (ValueError (str "wrong number of values to unpack"))
  end.

(** The [try] block of the [TestDate] branch. *)
Definition normalize_date (v : text) : result value :=
  try_except
    (mdy <- unpack_date (Py.split "/" v) ;;
     let '(month, day, year) := mdy in
     let v' := Date.format_0d 4 year ++ str "-" ++ Date.format_0d 2 month
               ++ str "-" ++ Date.format_0d 2 day in
     _ <- Date.strptime_Ymd v' ;;
     Ok (Some v'))
    (Ok None).

(** One turn of the loop over [patterns.items()]. *)
Definition primary_step (t : text) (kp : string * regex) (fields : dict)
  : result dict :=
  let '(key, pattern) := kp in
  match search true pattern t with
  | Some m =>
      v <- group1_strip m ;;
      v <- (if String.eqb key "TestDate" then normalize_date v else Ok (Some v)) ;;
      Ok (setitem key v fields)
  | None => Ok fields
  end.

Fixpoint primary_loop (t : text) (ps : list (string * regex)) (fields : dict)
  : result dict :=
  match ps with
  | [] => Ok fields
  | kp :: ps' => fields <- primary_step t kp fields ;; primary_loop t ps' fields
  end.

(** The fallbacks: [if not fields[key]: m = re.search(...); if m: fields[key] = ...] *)
Definition fallback_EmployeeID (t : text) (fields : dict) : result dict :=
  v <- getitem fields "EmployeeID" ;;
  if negb (truthy v) then
    match search false (times digit 6 6) t with
    | Some m => Ok (setitem "EmployeeID" (Some (group0 m)) fields)
    | None => Ok fields
    end
  else Ok fields.

Definition fallback_Name (t : text) (fields : dict) : result dict :=
  v <- getitem fields "Name" ;;
  if negb (truthy v) then
    match search true (Group (Str "Peter" <.> star [CSpace] <.> plus letters)) t with
    | Some m => Ok (setitem "Name" (Some (group0 m)) fields)
    | None => Ok fields
    end
  else Ok fields.

Definition fallback_Department (t : text) (fields : dict) : result dict :=
  v <- getitem fields "Department" ;;
  if negb (truthy v) then
    match search true (Group (Str "IT" <|> Str "Dept")) t with
    | Some m => Ok (setitem "Department" (Some (Py.upper (group0 m))) fields)
    | None => Ok fields
    end
  else Ok fields.

Definition fallback_TestDate (t : text) (fields : dict) : result dict :=
  v <- getitem fields "TestDate" ;;
  if negb (truthy v) then
    match search false (Group date_shape) t with
    | Some m => Ok (setitem "TestDate" (Some (group0 m)) fields)
    | None => Ok fields
    end
  else Ok fields.

Definition test_types : regex :=
  Group (Str "Blood" <|> Str "Urine" <|> Str "Hair" <|> Str "Saliva").

Definition results : regex :=
  Group (Str "Negative" <|> Str "Positive" <|> Str "Pending").

Definition fallback_TestType (t : text) (fields : dict) : result dict :=
  v <- getitem fields "TestType" ;;
  if negb (truthy v) then
    match search true test_types t with
    | Some m => Ok (setitem "TestType" (Some (Py.capitalize (group0 m))) fields)
    | None => Ok fields
    end
  else Ok fields.

Definition fallback_Result (t : text) (fields : dict) : result dict :=
  v <- getitem fields "Result" ;;
  if negb (truthy v) then
    match search true results t with
    | Some m => Ok (setitem "Result" (Some (Py.capitalize (group0 m))) fields)
    | None => Ok fields
    end
  else Ok fields.

Definition fallback_Notes (t : text) (fields : dict) : result dict :=
  v <- getitem fields "Notes" ;;
  if negb (truthy v) then
    match search true (Str "Notes" <.> star [CSpace] <.> Group (plus [CDot])) t with
    | Some m => v' <- group1_strip m ;; Ok (setitem "Notes" (Some v') fields)
    | None => Ok fields
    end
  else Ok fields.

Definition required : list string := ["Name"; "TestDate"; "TestType"]%string.

(** [k for k, v in fields.items() if k in required and not v] *)
Definition missing (fields : dict) : list string :=
  map fst
    (filter (fun kv => existsb (String.eqb (fst kv)) required
                       && negb (truthy (snd kv))) fields).

Definition incomplete (fields : dict) : exn :=
  ValueError (str "Incomplete data: Missing "
              ++ Py.join (str ", ") (map str (missing fields)) ++ str ".").

(** The final check and [return fields]. *)
Definition validate (fields : dict) : result dict :=
  n <- getitem fields "Name" ;;
  d <- getitem fields "TestDate" ;;
  ty <- getitem fields "TestType" ;;
  if negb (forallb truthy [n; d; ty]) then Raise (incomplete fields)
  else Ok fields.

(** The dictionary after the corrections, the primary loop and the
    fallbacks, as it stands when the final check is reached. *)
Definition extract_fields (t : text) : result dict :=
  let t := apply_corrections t in
  fields <- primary_loop t patterns initial_fields ;;
  fields <- fallback_EmployeeID t fields ;;
  fields <- fallback_Name t fields ;;
  fields <- fallback_Department t fields ;;
  fields <- fallback_TestDate t fields ;;
  fields <- fallback_TestType t fields ;;
  fields <- fallback_Result t fields ;;
  fallback_Notes t fields.

Definition parse_fields (t : text) : result dict :=
  fields <- extract_fields t ;;
  validate fields.

(** ** [extract_text_from_image]

    The recognizer is outside the program: its answer, the list [result]
    of [(bounding box, text, confidence)] items, is the input here.  A
    bounding box is four corner points in pixels, top-left first; the
    confidence is never read and is left out. *)

Module Ocr.

Definition point := (Z * Z)%type.   (* [x, y] *)

Record fragment : Type := mkFragment {
  top_left : point;
  top_right : point;
  bottom_right : point;
  bottom_left : point;
  fragment_text : text
}.

(** [lambda x: x[0][0][1]] *)
Definition sort_key (f : fragment) : Z := snd (top_left f).

(** [list.sort(key=...)] is a stable ascending sort; it is modelled by
    insertion from the right, where an item goes before the first one
    whose key is not smaller. *)
Fixpoint insert (x : fragment) (l : list fragment) : list fragment :=
  match l with
  | [] => [x]
  | y :: l' =>
      if (sort_key x <=? sort_key y)%Z then x :: y :: l' else y :: insert x l'
  end.

Fixpoint sort (l : list fragment) : list fragment :=
  match l with
  | [] => []
  | x :: l' => insert x (sort l')
  end.

(** From the sort to the return of [extract_text_from_image]. *)
Definition reconstruct (result : list fragment) : text :=
  let result := sort result in
  let text_segments := map (fun item => (fragment_text item, top_left item)) result in
  Py.join (str " ") (map fst text_segments).

End Ocr.

(** ** [add_to_csv] and the window

    A data frame is its column names and its rows, every row aligned
    with the columns; a cell is [None] (pandas' NaN) or the text that
    [to_csv] writes for it. *)

Definition cell := value.

Record DataFrame : Type := mkFrame {
  columns : list string;
  rows : list (list cell)
}.

Definition column_order : list string :=
  ["EmployeeID"; "Name"; "Department"; "TestDate"; "TestType"; "Result"; "Notes"]%string.

(** What the program does to the outside: the two accesses to
    [DrugTestingOrganizer.csv] (a [WriteCsv] is the call of [to_csv],
    whether or not it succeeds), the insertions into the text area and
    the message boxes. *)
Inductive event : Type :=
| ReadCsv
| WriteCsv (df : DataFrame)
| Insert (line : text)
| InsertFields (fields : dict)
| InsertRow (row : DataFrame)
| ShowInfo (title message : text)
| ShowError (title message : text).

(** What the file holds: the CSV text that [to_csv] writes for a frame,
    or anything on which [pd.read_csv] raises (no byte at all, text that
    is no table, a file that may not be read). *)
Inductive file : Type :=
| Csv (df : DataFrame)
| Unreadable (e : exn).

(** [write_fault] is [Some (e, remains)] when [to_csv] cannot write the
    file: it then raises [e] and leaves [remains] behind (the file as it
    was when it could not be opened, a truncated one when the write
    broke off). *)
Record world : Type := mkWorld {
  csv_file : option file;          (* [None]: the file does not exist *)
  write_fault : option (exn * option file);
  trace : list event               (* latest first *)
}.

Definition emit (e : event) (w : world) : world :=
  mkWorld (csv_file w) (write_fault w) (e :: trace w).

Definition is_storage (e : event) : bool :=
  match e with
  | ReadCsv | WriteCsv _ => true
  | _ => false
  end.

(** The cell of [row] under column [c]; NaN when there is no such column. *)
Fixpoint cell_at (c : string) (cols : list string) (row : list cell) : cell :=
  match cols, row with
  | c' :: cols', x :: row' => if String.eqb c' c then x else cell_at c cols' row'
  | _, _ => None
  end.

Definition reindex (cols target : list string) (row : list cell) : list cell :=
  map (fun c => cell_at c cols row) target.

Definition has_column (cols : list string) (c : string) : bool :=
  existsb (String.eqb c) cols.

(** [pd.DataFrame([fields])] *)
Definition frame_of (fields : dict) : DataFrame :=
  mkFrame (map fst fields) [map snd fields].

(** [pd.concat([df, new_row], ignore_index=True)]: the columns of [df],
    then those only [new_row] has; missing cells are NaN. *)
Definition concat (df new_row : DataFrame) : DataFrame :=
  let cols := columns df
              ++ filter (fun c => negb (has_column (columns df) c)) (columns new_row) in
  mkFrame cols
    (map (reindex (columns df) cols) (rows df)
     ++ map (reindex (columns new_row) cols) (rows new_row)).

(** [df[column_order]]: one [KeyError] for all the columns that are
    missing. *)
Definition select (target : list string) (df : DataFrame) : result DataFrame :=
  match filter (fun c => negb (has_column (columns df) c)) target with
  | [] => Ok (mkFrame target (map (reindex (columns df) target) (rows df)))
  | missing => Raise (KeyError (NotInIndex target missing))
  end.

Definition no_such_file : text :=
  str "[Errno 2] No such file or directory: 'DrugTestingOrganizer.csv'".

Section Store.

(** [reread df] is what [pd.read_csv] gives for the text that [to_csv]
    wrote for [df].  pandas splits that text into lines and fields and
    infers the type of every column again, so rows and cells can come
    back in another form than they were written in, and the call can
    raise; nothing is taken for granted about it except where a
    statement says so. *)
Variable reread : DataFrame -> result DataFrame.

(** [pd.read_csv('DrugTestingOrganizer.csv')] *)
Definition read_csv (w : world) : result DataFrame * world :=
  let w := emit ReadCsv w in
  match csv_file w with
  | Some (Csv f) => (reread f, w)
  | Some (Unreadable e) => (Raise e, w)
  | None => (Raise (FileNotFoundError no_such_file), w)
  end.

(** [df.to_csv('DrugTestingOrganizer.csv', index=False)] *)
Definition to_csv (df : DataFrame) (w : world) : result unit * world :=
  let w := emit (WriteCsv df) w in
  match write_fault w with
  | None => (Ok tt, mkWorld (Some (Csv df)) None (trace w))
  | Some (e, remains) => (Raise e, mkWorld remains (write_fault w) (trace w))
  end.

Definition add_to_csv (fields : dict) (w : world) : result DataFrame * world :=
  let '(r, w) := read_csv w in
  match (match r with
         | Raise (FileNotFoundError _) => Ok (mkFrame column_order [])
         | other => other
         end) with
  | Raise e => (Raise e, w)
  | Ok df =>
      let new_row := frame_of fields in
      let df := concat df new_row in
      match select column_order df with
      | Raise e => (Raise e, w)
      | Ok df =>
          match to_csv df w with
          | (Raise e, w) => (Raise e, w)
          | (Ok _, w) => (select column_order new_row, w)
          end
      end
  end.

Definition quoted (names : list string) : text :=
  str "[" ++ Py.join (str ", ") (map (fun c => str "'" ++ str c ++ str "'") names)
  ++ str "]".

(** The sentence of pandas' [KeyError]; when no requested column exists
    it shows the whole index, here as on a console wide enough for one
    line. *)
Definition not_in_index (requested missing : list string) : text :=
  if length missing =? length requested
  then str "None of [Index(" ++ quoted requested
       ++ str ", dtype='object')] are in the [columns]"
  else quoted missing ++ str " not in index".

Definition double_quote : ascii := ascii_of_nat 34.

(** [str(e)]; for a [KeyError] it is the [repr] of the argument. *)
Definition exn_str (e : exn) : text :=
  match e with
  | ValueError msg => msg
  | IndexError => str "list index out of range"
  | KeyError (Key k) => str "'" ++ str k ++ str "'"
  | KeyError (NotInIndex requested missing) =>
      double_quote :: not_in_index requested missing ++ [double_quote]
  | AttributeError => str "'NoneType' object has no attribute 'strip'"
  | FileNotFoundError msg => msg
  | OtherError _ msg => msg
  end.

(** The [except Exception as e] branch of [select_image]. *)
Definition report (e : exn) (w : world) : world :=
  let w := emit (Insert (str nl ++ str "Error: " ++ exn_str e ++ str nl
                         ++ str "Tip: Ensure the sticky note is clear and fields are labeled correctly."
                         ++ str nl)) w in
  emit (ShowError (str "Error") (str "Failed to process image: " ++ exn_str e)) w.

(** The [try] block of [select_image] from the point where the
    recognizer has answered with [result]. *)
Definition process (result : list Ocr.fragment) (w : world) : world :=
  let t := Ocr.reconstruct result in
  let w := emit (Insert (str nl ++ str "Extracted Text:" ++ str nl ++ t ++ str nl)) w in
  match parse_fields t with
  | Raise e => report e w
  | Ok fields =>
      let w := emit (InsertFields fields) w in
      match add_to_csv fields w with
      | (Raise e, w) => report e w
      | (Ok row, w) =>
          let w := emit (InsertRow row) w in
          emit (ShowInfo (str "Success")
                  (str "Data successfully added to DrugTestingOrganizer.csv!")) w
      end
  end.


End Store.

(** The row of a record in the canonical column order. *)
Definition canonical_row (fields : dict) : list cell :=
  map (fun c => match lookup c fields with Some v => v | None => None end)
    column_order.

(** The data rows of the store; none when the file does not exist or is
    no table. *)
Definition data_rows (w : world) : list (list cell) :=
  match csv_file w with
  | Some (Csv f) => rows f
  | _ => []
  end.


(** ** The stages of [parse_fields] as a list

    The loop over the primary patterns followed by the seven fallbacks,
    in the order in which the function runs them. *)

Definition stages (t : text) : list (dict -> result dict) :=
  map (primary_step t) patterns
  ++ [fallback_EmployeeID t; fallback_Name t; fallback_Department t;
      fallback_TestDate t; fallback_TestType t; fallback_Result t;
      fallback_Notes t].

Fixpoint run_stages (ss : list (dict -> result dict)) (fields : dict)
  : result dict :=
  match ss with
  | [] => Ok fields
  | s :: ss' => fields <- s fields ;; run_stages ss' fields
  end.

(** The value under [k], [None] also when the key is absent. *)
Definition field (k : string) (fields : dict) : value :=
  match lookup k fields with
  | Some v => v
  | None => None
  end.

(** What a stage does to the one field it is about, as a function of
    the field's value before. *)
Definition primary_action (t : text) (kp : string * regex) (old : value) : value :=
  match search true (snd kp) t with
  | Some m =>
      match (v <- group1_strip m ;;
             if String.eqb (fst kp) "TestDate" then normalize_date v else Ok (Some v)) with
      | Ok v => v
      | Raise _ => old
      end
  | None => old
  end.

Definition fallback_action (found : option value) (old : value) : value :=
  if negb (truthy old) then
    match found with
    | Some v => v
    | None => old
    end
  else old.

Definition found_EmployeeID (t : text) : option value :=
  option_map (fun m => Some (group0 m)) (search false (times digit 6 6) t).

Definition found_Name (t : text) : option value :=
  option_map (fun m => Some (group0 m))
    (search true (Group (Str "Peter" <.> star [CSpace] <.> plus letters)) t).

Definition found_Department (t : text) : option value :=
  option_map (fun m => Some (Py.upper (group0 m)))
    (search true (Group (Str "IT" <|> Str "Dept")) t).

Definition found_TestDate (t : text) : option value :=
  option_map (fun m => Some (group0 m)) (search false (Group date_shape) t).

Definition found_TestType (t : text) : option value :=
  option_map (fun m => Some (Py.capitalize (group0 m))) (search true test_types t).

Definition found_Result (t : text) : option value :=
  option_map (fun m => Some (Py.capitalize (group0 m))) (search true results t).

Definition found_Notes (t : text) : option value :=
  match search true (Str "Notes" <.> star [CSpace] <.> Group (plus [CDot])) t with
  | Some m => match group1 m with
              | Some g => Some (Some (Py.strip g))
              | None => None
              end
  | None => None
  end.

Definition actions (t : text) : list (string * (value -> value)) :=
  map (fun kp => (fst kp, primary_action t kp)) patterns
  ++ [("EmployeeID"%string, fallback_action (found_EmployeeID t));
      ("Name"%string, fallback_action (found_Name t));
      ("Department"%string, fallback_action (found_Department t));
      ("TestDate"%string, fallback_action (found_TestDate t));
      ("TestType"%string, fallback_action (found_TestType t));
      ("Result"%string, fallback_action (found_Result t));
      ("Notes"%string, fallback_action (found_Notes t))].

Definition update (kf : string * (value -> value)) (fields : dict) : dict :=
  setitem (fst kf) (snd kf (field (fst kf) fields)) fields.

Definition apply_actions (acts : list (string * (value -> value)))
    (fields : dict) : dict :=
  fold_left (fun d kf => update kf d) acts fields.

(** The effect of a list of actions on the single field [k]. *)
Definition act_on (k : string) (acts : list (string * (value -> value)))
    (v : value) : value :=
  fold_left (fun v kf => if String.eqb (fst kf) k then snd kf v else v) acts v.

(** A stage [s] does to the dictionary what the action [kf] says. *)
Definition acts_as (s : dict -> result dict) (kf : string * (value -> value))
  : Prop :=
  In (fst kf) column_order /\
  forall fields, map fst fields = column_order -> s fields = Ok (update kf fields).

(** The pattern has group 1 on every way through it. *)
Fixpoint binds (r : regex) : bool :=
  match r with
  | Group _ => true
  | Cat r1 r2 => binds r1 || binds r2
  | Alt r1 r2 => binds r1 && binds r2
  | _ => false
  end.

Definition is_suffix (s' s : text) : Prop := exists p, s = p ++ s'.

Definition is_substring (g s : text) : Prop := exists p q, s = p ++ g ++ q.

(** Six digits at the start of [s]. *)
Definition six_digits (s : text) : bool :=
  (6 <=? length s) && forallb Py.isdigit (firstn 6 s).

(** [none_before n p t]: [p] holds of no suffix of [t] that starts
    before position [n]. *)
Definition none_before (n : nat) (p : text -> bool) (t : text) : bool :=
  forallb (fun j => negb (p (skipn j t))) (seq 0 n).

(** ** Notions used in the statements *)

(** A captured group is a prefix of some suffix of the text. *)
Definition captured (s : text) (g : option text) : Prop :=
  exists s0 n, is_suffix s0 s /\ g = Some (firstn n s0).

(** Only a [ValueError] can come out. *)
Definition value_error_only {A : Type} (r : result A) : Prop :=
  match r with
  | Ok _ | Raise (ValueError _) => True
  | Raise _ => False
  end.

(** The required fields that are empty, in the order of the message. *)
Definition falsy_required (fields : dict) : list string :=
  filter (fun k => negb (truthy (field k fields))) required.

Definition incomplete_message (names : list string) : text :=
  str "Incomplete data: Missing " ++ Py.join (str ", ") (map str names) ++ str ".".

(** The primary pattern of a field. *)
Definition pattern_of (key : string) : regex :=
  match find (fun kp => String.eqb (fst kp) key) patterns with
  | Some kp => snd kp
  | None => Eol
  end.

Definition matches_here (ic : bool) (r : regex) (s : text) : bool :=
  match match_here ic r s with
  | Some _ => true
  | None => false
  end.

(** The value of a field when [extract_fields] is done: the primary
    pattern first, the fallback when that left the field empty. *)
Definition final_value (t : text) (key : string) (found : option value) : value :=
  fallback_action found (primary_action t (key, pattern_of key) None).

Definition test_type_words : list text := map str ["Blood"; "Urine"; "Hair"; "Saliva"]%string.

Definition result_words : list text := map str ["Negative"; "Positive"; "Pending"]%string.

(** Ascending order of the keys, and the items with one key. *)
Definition key_le (a b : Ocr.fragment) : Prop := (Ocr.sort_key a <= Ocr.sort_key b)%Z.

Definition with_key (y : Z) (f : Ocr.fragment) : bool := (Ocr.sort_key f =? y)%Z.

(** The record has every canonical column. *)
Definition complete (fields : dict) : bool :=
  forallb (has_column (map fst fields)) column_order.

(** Two records, keys in different orders. *)
Definition bob : dict :=
  [("Name", Some (str "Bob")); ("TestType", Some (str "Hair"));
   ("TestDate", Some (str "2024-01-02")); ("EmployeeID", None);
   ("Department", None); ("Result", None); ("Notes", None)]%string.


Definition sample : text :=
  str "Name: Peter Brifon Department: IT TestDate: 9/14/2025 TestType: Blood Result: Negative Notes: Random test".


(** ** Further notions: dates, digits, the store and the window *)

(** [old in t] *)
Definition occurs (old t : text) : bool :=
  existsb (fun j => Py.starts_with old (skipn j t)) (seq 0 (S (length t))).

(** Six digits in a row somewhere in [t]. *)
Definition has_six_digits (t : text) : bool :=
  existsb (fun j => six_digits (skipn j t)) (seq 0 (S (length t))).

(** The number that a string of digits writes. *)
Definition number (s : text) : Z :=
  fold_left (fun acc c => (10 * acc + Date.digit_value c)%Z) s 0%Z.

(** [f"{y:04d}-{m:02d}-{d:02d}"] *)
Definition iso (y m d : Z) : text :=
  Date.format_0d 4 y ++ str "-" ++ Date.format_0d 2 m ++ str "-"
  ++ Date.format_0d 2 d.

(** One or two digits, one or two digits, four digits. *)
Definition date_parts (d1 d2 d3 : text) : bool :=
  forallb Py.isdigit (d1 ++ d2 ++ d3)
  && (1 <=? length d1) && (length d1 <=? 2)
  && (1 <=? length d2) && (length d2 <=? 2)
  && (length d3 =? 4).

(** "YYYY-MM-DD" for a date of the calendar. *)
Definition is_iso_date (s : text) : bool :=
  match s with
  | [y1; y2; y3; y4; h1; m1; m2; h2; d1; d2] =>
      forallb Py.isdigit [y1; y2; y3; y4; m1; m2; d1; d2]
      && Ascii.eqb h1 "-" && Ascii.eqb h2 "-"
      && Date.valid_date (number [y1; y2; y3; y4]) (number [m1; m2]) (number [d1; d2])
  | _ => false
  end.

(** The checks behind the date branch, for one year and for one month
    and day: what the format writes and what [strptime] reads back. *)
Definition year_ok (y : Z) : bool :=
  match Date.format_0d 4 y with
  | [c1; c2; c3; c4] =>
      forallb Py.isdigit [c1; c2; c3; c4] && (number [c1; c2; c3; c4] =? y)%Z
  | _ => false
  end.

Definition in_month_day_range (m d : Z) : bool :=
  ((1 <=? m) && (m <=? 12) && (1 <=? d) && (d <=? 31))%Z.

Definition month_day_ok (m d : Z) : bool :=
  match Date.format_0d 2 m, Date.format_0d 2 d with
  | [a; b], [c; e] =>
      forallb Py.isdigit [a; b; c; e]
      && (number [a; b] =? m)%Z && (number [c; e] =? d)%Z
      && match Date.month_then_day (Date.month_alternatives ([a; b] ++ str "-" ++ [c; e])) with
         | Some (m', d', []) => in_month_day_range m d && (m' =? m)%Z && (d' =? d)%Z
         | _ => negb (in_month_day_range m d)
         end
  | _, _ => false
  end.

(** "M/D/YYYY" as written. *)
Definition raw_date (d1 d2 d3 : text) : text :=
  d1 ++ str "/" ++ d2 ++ str "/" ++ d3.

(** A date-shaped piece somewhere in [t]. *)
Definition has_date (t : text) : Prop :=
  exists d1 d2 d3, date_parts d1 d2 d3 = true /\ is_substring (raw_date d1 d2 d3) t.

(** An ASCII letter. *)
Definition is_letter (c : ascii) : bool := Py.isupper c || Py.islower c.

Definition letter_or_space (c : ascii) : bool := is_letter c || Py.isspace c.

Definition not_newline (c : ascii) : bool := negb (Ascii.eqb c newline).

(** What [df] holds after the [try] of [add_to_csv]: the table that
    [read_csv] returned, an empty one when it raised
    [FileNotFoundError]; or the exception that leaves the function. *)
Definition loaded (reread : DataFrame -> result DataFrame) (w : world)
  : result DataFrame :=
  match csv_file w with
  | None => Ok (mkFrame column_order [])
  | Some (Unreadable (FileNotFoundError _)) => Ok (mkFrame column_order [])
  | Some (Unreadable e) => Raise e
  | Some (Csv f) =>
      match reread f with
      | Raise (FileNotFoundError _) => Ok (mkFrame column_order [])
      | other => other
      end
  end.


(** The rows of [df] cut to the canonical columns, then the row of the
    record: what [add_to_csv] hands to [to_csv]. *)
Definition appended (df : DataFrame) (row : list cell) : DataFrame :=
  mkFrame column_order (map (reindex (columns df) column_order) (rows df) ++ [row]).





(** ** Dictionaries: lemmas *)

Lemma lookup_setitem_same k v d : lookup k (setitem k v d) = Some v.
Proof.
  induction d as [|[k' v'] d IH]; simpl.
  - now rewrite String.eqb_refl.
  - destruct (String.eqb k' k) eqn:E; simpl.
    + now rewrite String.eqb_refl.
    + now rewrite E.
Qed.

Lemma lookup_setitem_other k k' v d :
  String.eqb k' k = false -> lookup k (setitem k' v d) = lookup k d.
Proof.
  intros Hne. induction d as [|[k0 v0] d IH]; simpl.
  - now rewrite Hne.
  - destruct (String.eqb k0 k') eqn:E; simpl.
    + apply String.eqb_eq in E. subst k0. now rewrite Hne.
    + now rewrite IH.
Qed.

Lemma keys_setitem k v d :
  In k (map fst d) -> map fst (setitem k v d) = map fst d.
Proof.
  induction d as [|[k0 v0] d IH]; simpl; [tauto|].
  intros [->|Hin].
  - now rewrite String.eqb_refl.
  - destruct (String.eqb k0 k) eqn:E; simpl.
    + apply String.eqb_eq in E. now subst.
    + now rewrite IH.
Qed.

Lemma lookup_in_keys k d : In k (map fst d) -> exists v, lookup k d = Some v.
Proof.
  induction d as [|[k0 v0] d IH]; simpl; [tauto|].
  intros [->|Hin].
  - rewrite String.eqb_refl. eauto.
  - destruct (String.eqb k0 k); eauto.
Qed.

Lemma field_update k kf d :
  field k (update kf d)
  = if String.eqb (fst kf) k then snd kf (field k d) else field k d.
Proof.
  unfold update, field. destruct (String.eqb (fst kf) k) eqn:E.
  - apply String.eqb_eq in E. subst k. now rewrite lookup_setitem_same.
  - now rewrite lookup_setitem_other.
Qed.

Lemma field_apply_actions k acts d :
  field k (apply_actions acts d) = act_on k acts (field k d).
Proof.
  revert d. induction acts as [|kf acts IH]; intros d; simpl; [reflexivity|].
  unfold apply_actions in *. simpl. rewrite IH, field_update.
  reflexivity.
Qed.

Lemma keys_update kf d :
  In (fst kf) (map fst d) -> map fst (update kf d) = map fst d.
Proof. apply keys_setitem. Qed.

Lemma getitem_field d k :
  In k (map fst d) -> getitem d k = Ok (field k d).
Proof.
  intros Hin. destruct (lookup_in_keys _ _ Hin) as [v Hv].
  unfold getitem, field. now rewrite Hv.
Qed.

Lemma setitem_field_same k d :
  In k (map fst d) -> setitem k (field k d) d = d.
Proof.
  unfold field. induction d as [|[k0 v0] d IH]; simpl; [tauto|].
  destruct (String.eqb k0 k) eqn:E.
  - apply String.eqb_eq in E. now subst.
  - intros [->|Hin]; [now rewrite String.eqb_refl in E|].
    now rewrite IH.
Qed.

(** ** The matcher: what reaches the continuation *)


Lemma is_suffix_refl s : is_suffix s s.
Proof. now exists []. Qed.

Lemma is_suffix_trans a b c : is_suffix a b -> is_suffix b c -> is_suffix a c.
Proof.
  intros [p ->] [q ->]. exists (q ++ p). now rewrite app_assoc.
Qed.

Lemma is_suffix_cons c s' s : is_suffix s' s -> is_suffix s' (c :: s).
Proof. intros [p ->]. now exists (c :: p). Qed.

Lemma captured_suffix s1 s g : is_suffix s1 s -> captured s1 g -> captured s g.
Proof.
  intros H (s0 & n & H0 & ->). exists s0, n. split; [|reflexivity].
  eapply is_suffix_trans; eauto.
Qed.

Lemma firstn_is_substring n s0 s : is_suffix s0 s -> is_substring (firstn n s0) s.
Proof.
  intros [p ->]. exists p, (skipn n s0). now rewrite firstn_skipn.
Qed.

Lemma eat_suffix ic p s s' : eat ic p s = Some s' -> is_suffix s' s.
Proof.
  revert s. induction p as [|a p IH]; intros s; simpl.
  - intros [= ->]. apply is_suffix_refl.
  - destruct s as [|c s]; [discriminate|].
    destruct (char_eq ic a c); [|discriminate].
    intros H. apply is_suffix_cons. now apply IH.
Qed.

Lemma rep_inv {R} ic cs gr (k : text -> option R) s :
  forall lo hi x, rep ic cs lo hi gr k s = Some x ->
  exists s', k s' = Some x /\ is_suffix s' s.
Proof.
  induction s as [|c s IH]; intros lo hi x; simpl.
  - destruct lo; [|discriminate]. intros H. exists []. split; [exact H|apply is_suffix_refl].
  - assert (Hstop : match lo with O => k (c :: s) | S _ => None end = Some x ->
                    exists s', k s' = Some x /\ is_suffix s' (c :: s)).
    { destruct lo; [|discriminate]. intros H. eexists. split; [exact H|apply is_suffix_refl]. }
    assert (Hmore : rep ic cs (pred lo) (one_less hi) gr k s = Some x ->
                    exists s', k s' = Some x /\ is_suffix s' (c :: s)).
    { intros H. destruct (IH _ _ _ H) as (s' & Hk & Hs).
      exists s'. split; [exact Hk|now apply is_suffix_cons]. }
    destruct (may_repeat hi && in_cset ic cs c); [|exact Hstop].
    destruct gr.
    + destruct (rep ic cs (pred lo) (one_less hi) true k s) eqn:E.
      * intros [= ->]. now apply Hmore.
      * exact Hstop.
    + destruct (match lo with O => k (c :: s) | S _ => None end) eqn:E.
      * intros [= ->]. now apply Hstop.
      * exact Hmore.
Qed.

Lemma run_inv ic r :
  forall R (k : text -> option text -> option R) s g x,
  run ic r R k s g = Some x ->
  exists s' g', k s' g' = Some x /\ is_suffix s' s
                /\ (g' = g \/ captured s g')
                /\ (binds r = true -> captured s g').
Proof.
  induction r as [p|r1 IH1 r2 IH2|r1 IH1 r2 IH2|cs lo hi gr|r1 IH1|r1 IH1|];
    intros R k s g x; simpl.
  - destruct (eat ic (str p) s) as [s'|] eqn:E; [|discriminate].
    intros H. exists s', g. repeat split; auto; try discriminate.
    eapply eat_suffix; eauto.
  - destruct (run ic r1 R k s g) eqn:E.
    + intros [= ->]. destruct (IH1 _ _ _ _ _ E) as (s' & g' & Hk & Hs & Hg & Hb).
      exists s', g'. repeat split; auto.
      intros Hbb. apply andb_prop in Hbb. tauto.
    + intros H. destruct (IH2 _ _ _ _ _ H) as (s' & g' & Hk & Hs & Hg & Hb).
      exists s', g'. repeat split; auto.
      intros Hbb. apply andb_prop in Hbb. tauto.
  - intros H. destruct (IH1 _ _ _ _ _ H) as (s1 & g1 & Hk1 & Hs1 & Hg1 & Hb1).
    destruct (IH2 _ _ _ _ _ Hk1) as (s2 & g2 & Hk2 & Hs2 & Hg2 & Hb2).
    exists s2, g2. split; [exact Hk2|]. split; [eapply is_suffix_trans; eauto|].
    split.
    + destruct Hg2 as [->|Hc]; [exact Hg1|].
      right. eapply captured_suffix; eauto.
    + intros Hbb. apply orb_prop in Hbb.
      destruct (binds r2) eqn:E2.
      * eapply captured_suffix; eauto.
      * destruct Hbb as [Hbb|Hbb]; [|discriminate].
        destruct Hg2 as [->|Hc]; [auto|].
        eapply captured_suffix; eauto.
  - intros H. destruct (rep_inv _ _ _ _ _ _ _ _ H) as (s' & Hk & Hs).
    exists s', g. repeat split; auto; discriminate.
  - intros H. destruct (IH1 _ _ _ _ _ H) as (s' & g' & Hk & Hs & _ & _).
    assert (Hc : captured s (Some (firstn (length s - length s') s))).
    { exists s, (length s - length s'). split; [apply is_suffix_refl|reflexivity]. }
    eexists _, _. split; [exact Hk|]. repeat split; auto.
  - destruct (run ic r1 unit (fun _ _ => Some tt) s g); [|discriminate].
    intros H. exists s, g. repeat split; auto using is_suffix_refl; discriminate.
  - assert (Hk : k s g = Some x ->
                 exists s' g', k s' g' = Some x /\ is_suffix s' s
                   /\ (g' = g \/ captured s g') /\ (false = true -> captured s g')).
    { intros H. exists s, g. repeat split; auto using is_suffix_refl; discriminate. }
    destruct s as [|c [|c' s]]; try discriminate; [exact Hk|].
    destruct (Ascii.eqb c newline); [exact Hk|discriminate].
Qed.

(** A match of a pattern that [binds] has a group 1, a piece of the text;
    [group0] is the part of the text the match covers. *)
Lemma match_here_inv ic r s m :
  match_here ic r s = Some m ->
  (exists s', is_suffix s' s /\ group0 m = firstn (length s - length s') s)
  /\ (binds r = true -> exists g, group1 m = Some g /\ is_substring g s).
Proof.
  unfold match_here. intros H.
  destruct (run_inv _ _ _ _ _ _ _ H) as (s' & g' & Hk & Hs & Hg & Hb).
  injection Hk as <-. simpl. split; [eauto|].
  intros Hbb. destruct (Hb Hbb) as (s0 & n & Hs0 & ->).
  eexists. split; [reflexivity|]. now apply firstn_is_substring.
Qed.

Lemma search_inv ic r s m :
  search ic r s = Some m ->
  exists s0, is_suffix s0 s /\ match_here ic r s0 = Some m.
Proof.
  induction s as [|c s IH]; simpl.
  - destruct (match_here ic r []) eqn:E; [|discriminate].
    intros [= ->]. exists []. split; [apply is_suffix_refl|exact E].
  - destruct (match_here ic r (c :: s)) eqn:E.
    + intros [= ->]. exists (c :: s). split; [apply is_suffix_refl|exact E].
    + intros H. destruct (IH H) as (s0 & Hs & Hm).
      exists s0. split; [now apply is_suffix_cons|exact Hm].
Qed.

Lemma is_substring_suffix g s0 s : is_suffix s0 s -> is_substring g s0 -> is_substring g s.
Proof.
  intros [p ->] (a & b & ->). exists (p ++ a), b. now rewrite <- app_assoc.
Qed.

Lemma search_group1 ic r s m :
  binds r = true -> search ic r s = Some m ->
  exists g, group1 m = Some g /\ is_substring g s.
Proof.
  intros Hb H. destruct (search_inv _ _ _ _ H) as (s0 & Hs & Hm).
  destruct (match_here_inv _ _ _ _ Hm) as [_ Hg].
  destruct (Hg Hb) as (g & Hg1 & Hsub).
  exists g. split; [exact Hg1|]. eapply is_substring_suffix; eauto.
Qed.

(** [re.search] returns the match at the first position that has one. *)
Lemma search_skip ic r pre s :
  (forall j, j < length pre -> match_here ic r (skipn j (pre ++ s)) = None) ->
  search ic r (pre ++ s) = search ic r s.
Proof.
  induction pre as [|c pre IH]; intros H; [reflexivity|].
  simpl. pose proof (H 0 ltac:(simpl; lia)) as H0. simpl in H0. rewrite H0.
  apply IH. intros j Hj. apply (H (S j)). simpl. lia.
Qed.

(** ** The date branch raises nothing *)


Lemma int_value_error_only s : value_error_only (Date.int s).
Proof.
  unfold Date.int. destruct (Py.strip s) as [|c s']; [exact I|].
  destruct (Ascii.eqb c "-"); [destruct (Date.digits_value s' 0 false); exact I|].
  destruct (Ascii.eqb c "+"); [destruct (Date.digits_value s' 0 false); exact I|].
  destruct (Date.digits_value (c :: s') 0 false); exact I.
Qed.

Lemma unpack_date_value_error_only parts : value_error_only (unpack_date parts).
Proof.
  unfold unpack_date.
  destruct parts as [|a [|b [|c [|d parts]]]]; try exact I.
  pose proof (int_value_error_only a) as Ha.
  pose proof (int_value_error_only b) as Hb.
  pose proof (int_value_error_only c) as Hc.
  destruct (Date.int a) as [x|[]]; simpl in *; try tauto.
  destruct (Date.int b) as [y|[]]; simpl in *; try tauto.
  destruct (Date.int c) as [z|[]]; simpl in *; tauto.
Qed.

Lemma strptime_value_error_only v : value_error_only (Date.strptime_Ymd v).
Proof.
  unfold Date.strptime_Ymd.
  destruct v as [|y1 [|y2 [|y3 [|y4 [|dash rest]]]]]; try exact I.
  destruct (forallb Py.isdigit [y1; y2; y3; y4] && Ascii.eqb dash "-"); [|exact I].
  destruct (Date.month_then_day (Date.month_alternatives rest)) as [[[m d] [|c r]]|];
    try exact I.
  destruct (Date.valid_date _ m d); exact I.
Qed.

Lemma normalize_date_ok v : exists v', normalize_date v = Ok v'.
Proof.
  unfold normalize_date.
  pose proof (unpack_date_value_error_only (Py.split "/" v)) as Hu.
  destruct (unpack_date (Py.split "/" v)) as [[[month day] year]|e]; simpl in *.
  - match goal with |- context [Date.strptime_Ymd ?x] =>
      pose proof (strptime_value_error_only x) as Hs;
      destruct (Date.strptime_Ymd x) as [d|e] end; simpl in *.
    + eauto.
    + destruct e; try tauto; eauto.
  - destruct e; try tauto; eauto.
Qed.

(** ** Every stage is its action *)

Lemma patterns_bind : Forall (fun kp => binds (snd kp) = true) patterns.
Proof. repeat constructor. Qed.

Lemma primary_step_acts t kp :
  In kp patterns -> acts_as (primary_step t kp) (fst kp, primary_action t kp).
Proof.
  intros Hin. split.
  - simpl. unfold patterns in Hin. simpl in Hin.
    repeat (destruct Hin as [<-|Hin]; [simpl; tauto|]). contradiction.
  - intros fields Hkeys.
    assert (Hb : binds (snd kp) = true).
    { pose proof patterns_bind as H. rewrite Forall_forall in H. now apply H. }
    assert (Hk : In (fst kp) (map fst fields)).
    { rewrite Hkeys. unfold patterns in Hin. simpl in Hin.
      repeat (destruct Hin as [<-|Hin]; [simpl; tauto|]). contradiction. }
    destruct kp as [key pattern]. unfold primary_step, update, primary_action.
    simpl in *. destruct (search true pattern t) as [m|] eqn:E.
    + destruct (search_group1 _ _ _ _ Hb E) as (g & Hg & _).
      unfold group1_strip. rewrite Hg. simpl.
      destruct (String.eqb key "TestDate").
      * destruct (normalize_date_ok (Py.strip g)) as [v' ->]. reflexivity.
      * reflexivity.
    + now rewrite setitem_field_same.
Qed.

Lemma fallback_acts key found (s : dict -> result dict) :
  In key column_order ->
  (forall fields, s fields =
     (v <- getitem fields key ;;
      if negb (truthy v) then
        match found with
        | Some v' => Ok (setitem key v' fields)
        | None => Ok fields
        end
      else Ok fields)) ->
  acts_as s (key, fallback_action found).
Proof.
  intros Hin Hs. split; [exact Hin|].
  intros fields Hkeys. rewrite Hs.
  assert (Hk : In key (map fst fields)) by now rewrite Hkeys.
  rewrite (getitem_field _ _ Hk). unfold update, fallback_action. simpl.
  destruct (negb (truthy (field key fields))).
  - destruct found; [reflexivity|]. now rewrite setitem_field_same.
  - now rewrite setitem_field_same.
Qed.

Lemma fallback_Notes_eq t fields :
  fallback_Notes t fields =
    (v <- getitem fields "Notes" ;;
     if negb (truthy v) then
       match found_Notes t with
       | Some v' => Ok (setitem "Notes" v' fields)
       | None => Ok fields
       end
     else Ok fields).
Proof.
  unfold fallback_Notes, found_Notes.
  destruct (getitem fields "Notes") as [v|e]; [simpl|reflexivity].
  destruct (negb (truthy v)); [|reflexivity].
  destruct (search true _ t) as [m|] eqn:E; [|reflexivity].
  assert (Hb : binds (Str "Notes" <.> star [CSpace] <.> Group (plus [CDot])) = true)
    by reflexivity.
  destruct (search_group1 _ _ _ _ Hb E) as (g & Hg & _).
  unfold group1_strip. now rewrite Hg.
Qed.

Lemma stages_act t : Forall2 acts_as (stages t) (actions t).
Proof.
  unfold stages, actions. apply Forall2_app.
  - assert (H : forall ps, incl ps patterns ->
                  Forall2 acts_as (map (primary_step t) ps)
                    (map (fun kp => (fst kp, primary_action t kp)) ps)).
    { induction ps as [|kp ps IH]; intros Hi; simpl; constructor.
      - apply primary_step_acts. apply Hi. now left.
      - apply IH. intros x Hx. apply Hi. now right. }
    apply H, incl_refl.
  - assert (Hsimple : forall key pattern ic (get : Match -> text) s,
              In key column_order ->
              (forall fields, s fields =
                 (v <- getitem fields key ;;
                  if negb (truthy v) then
                    match search ic pattern t with
                    | Some m => Ok (setitem key (Some (get m)) fields)
                    | None => Ok fields
                    end
                  else Ok fields)) ->
              acts_as s (key, fallback_action
                                (option_map (fun m => Some (get m)) (search ic pattern t)))).
    { intros key pattern ic get s Hin Hs. apply fallback_acts; [exact Hin|].
      intros fields. rewrite Hs. destruct (getitem fields key); [simpl|reflexivity].
      destruct (negb (truthy _)); [|reflexivity].
      destruct (search ic pattern t); reflexivity. }
    repeat apply Forall2_cons; try apply Forall2_nil.
    + apply Hsimple; [simpl; tauto|reflexivity].
    + apply Hsimple; [simpl; tauto|reflexivity].
    + apply (Hsimple _ _ _ (fun m => Py.upper (group0 m))); [simpl; tauto|reflexivity].
    + apply Hsimple; [simpl; tauto|reflexivity].
    + apply (Hsimple _ _ _ (fun m => Py.capitalize (group0 m))); [simpl; tauto|reflexivity].
    + apply (Hsimple _ _ _ (fun m => Py.capitalize (group0 m))); [simpl; tauto|reflexivity].
    + apply fallback_acts; [simpl; tauto|]. intros fields. apply fallback_Notes_eq.
Qed.

Lemma run_stages_actions ss acts :
  Forall2 acts_as ss acts ->
  forall fields, map fst fields = column_order ->
  run_stages ss fields = Ok (apply_actions acts fields)
  /\ map fst (apply_actions acts fields) = column_order.
Proof.
  induction 1 as [|s kf ss acts [Hin Hs] _ IH]; intros fields Hkeys; simpl.
  - auto.
  - rewrite (Hs _ Hkeys). simpl.
    assert (Hk : map fst (update kf fields) = column_order).
    { rewrite keys_update; [exact Hkeys|]. now rewrite Hkeys. }
    destruct (IH _ Hk) as [-> Hk']. auto.
Qed.

Lemma run_stages_app ss1 ss2 fields :
  run_stages (ss1 ++ ss2) fields
  = (f <- run_stages ss1 fields ;; run_stages ss2 f).
Proof.
  revert fields. induction ss1 as [|s ss1 IH]; intros fields; simpl; [reflexivity|].
  destruct (s fields); simpl; auto.
Qed.

Lemma primary_loop_stages t ps fields :
  primary_loop t ps fields = run_stages (map (primary_step t) ps) fields.
Proof.
  revert fields. induction ps as [|kp ps IH]; intros fields; simpl; [reflexivity|].
  destruct (primary_step t kp fields); simpl; auto.
Qed.

(** [extract_fields] runs the stages in their order on the corrected text. *)
Lemma extract_fields_stages t :
  extract_fields t = run_stages (stages (apply_corrections t)) initial_fields.
Proof.
  unfold extract_fields, stages. rewrite run_stages_app, primary_loop_stages.
  destruct (run_stages _ initial_fields) as [f|e]; simpl; [|reflexivity].
  repeat match goal with
         | |- context [bind (?s ?x) _] =>
             match s with
             | fallback_EmployeeID _ => destruct (s x); simpl; [|reflexivity]
             | fallback_Name _ => destruct (s x); simpl; [|reflexivity]
             | fallback_Department _ => destruct (s x); simpl; [|reflexivity]
             | fallback_TestDate _ => destruct (s x); simpl; [|reflexivity]
             | fallback_TestType _ => destruct (s x); simpl; [|reflexivity]
             | fallback_Result _ => destruct (s x); simpl; [|reflexivity]
             end
         end.
  destruct (fallback_Notes _ _); reflexivity.
Qed.

Lemma extract_fields_actions t :
  extract_fields t = Ok (apply_actions (actions (apply_corrections t)) initial_fields)
  /\ map fst (apply_actions (actions (apply_corrections t)) initial_fields)
     = column_order.
Proof.
  rewrite extract_fields_stages.
  apply run_stages_actions; [apply stages_act|reflexivity].
Qed.

(** ** Validation *)

(** [sep.join]: the first part, then the separator and a part for every
    further one. *)
Lemma join_spaced (sep p : text) (ps : list text) :
  Py.join sep (p :: ps) = p ++ flat_map (fun q => sep ++ q) ps.
Proof.
  revert p. induction ps as [|q ps IH]; intros p.
  - cbn. now rewrite app_nil_r.
  - change (Py.join sep (p :: q :: ps)) with (p ++ sep ++ Py.join sep (q :: ps)).
    rewrite IH. cbn [flat_map]. now rewrite <- app_assoc.
Qed.



Lemma missing_spec fields :
  map fst fields = column_order -> missing fields = falsy_required fields.
Proof.
  intros H.
  destruct fields as [|[k1 v1] [|[k2 v2] [|[k3 v3] [|[k4 v4] [|[k5 v5]
    [|[k6 v6] [|[k7 v7] [|]]]]]]]]; try discriminate.
  injection H as -> -> -> -> -> -> ->.
  unfold missing, falsy_required, field. simpl.
  destruct (truthy v2), (truthy v4), (truthy v5); reflexivity.
Qed.

Lemma validate_spec fields :
  map fst fields = column_order ->
  validate fields =
    match falsy_required fields with
    | [] => Ok fields
    | names => Raise (ValueError (incomplete_message names))
    end.
Proof.
  intros H. unfold validate, incomplete. rewrite (missing_spec _ H).
  rewrite !getitem_field by (rewrite H; simpl; tauto).
  unfold falsy_required, incomplete_message. simpl.
  destruct (truthy (field "Name" fields)), (truthy (field "TestDate" fields)),
    (truthy (field "TestType" fields)); reflexivity.
Qed.

Lemma falsy_required_nil fields :
  falsy_required fields = [] <->
  truthy (field "Name" fields) = true
  /\ truthy (field "TestDate" fields) = true
  /\ truthy (field "TestType" fields) = true.
Proof.
  unfold falsy_required. simpl.
  destruct (truthy (field "Name" fields)), (truthy (field "TestDate" fields)),
    (truthy (field "TestType" fields)); simpl; split; intros H;
    try discriminate; try tauto; destruct H as (? & ? & ?); discriminate.
Qed.

(** C8: for every input, [parse_fields] either returns a record whose
    Name, TestDate and TestType are all non-empty, or raises the
    "Incomplete data" [ValueError] that names missing required fields; no
    other exception (none from the date branch, none from reading a group
    of a match, no [KeyError]) leaves the function. *)
Theorem parse_fields_total (t : text) :
  (exists fields,
      parse_fields t = Ok fields
      /\ map fst fields = column_order
      /\ truthy (field "Name" fields) = true
      /\ truthy (field "TestDate" fields) = true
      /\ truthy (field "TestType" fields) = true)
  \/ (exists names,
        names <> [] /\ incl names required
        /\ parse_fields t = Raise (ValueError (incomplete_message names))).
Proof.
  unfold parse_fields.
  destruct (extract_fields_actions t) as [-> Hkeys]. cbn [bind].
  rewrite (validate_spec _ Hkeys).
  set (fields := apply_actions _ _) in *.
  destruct (falsy_required fields) as [|k names] eqn:E.
  - left. exists fields. apply falsy_required_nil in E. tauto.
  - right. exists (k :: names). split; [discriminate|]. split; [|reflexivity].
    rewrite <- E. intros x Hx. unfold falsy_required in Hx.
    apply filter_In in Hx. tauto.
Qed.

(** ** The window: a failed parse leaves the store alone *)

Lemma process_parse_error reread result w e :
  parse_fields (Ocr.reconstruct result) = Raise e ->
  csv_file (process reread result w) = csv_file w
  /\ exists new,
       trace (process reread result w) = new ++ trace w
       /\ forallb (fun ev => negb (is_storage ev)) new = true
       /\ In (ShowError (str "Error") (str "Failed to process image: " ++ exn_str e)) new.
Proof.
  intros H. unfold process. rewrite H. unfold report, emit. simpl.
  split; [reflexivity|].
  eexists [_; _; _]. split; [reflexivity|]. split; [reflexivity|].
  simpl. tauto.
Qed.

(** C3: when one of Name, TestDate, TestType is empty after all the
    extraction stages, [parse_fields] raises the error whose message lists
    exactly the empty required fields, separated by a comma and a space;
    the window then never reads or writes the store, whose file stays as
    it was.  For the text "Department: IT" the message names Name,
    TestDate and TestType. *)
Theorem missing_required_fails :
  (forall (t : text) (fields : dict),
      extract_fields t = Ok fields ->
      existsb (fun k => negb (truthy (field k fields))) required = true ->
      parse_fields t = Raise (ValueError (incomplete_message (falsy_required fields)))
      /\ (forall k, In k (falsy_required fields)
                    <-> In k required /\ truthy (field k fields) = false)
      /\ (exists name names,
            falsy_required fields = name :: names
            /\ incomplete_message (falsy_required fields)
               = str "Incomplete data: Missing " ++ str name
                 ++ flat_map (fun k => str ", " ++ str k) names ++ str ".")
      /\ forall reread result w,
           Ocr.reconstruct result = t ->
           csv_file (process reread result w) = csv_file w
           /\ exists new,
                trace (process reread result w) = new ++ trace w
                /\ forallb (fun ev => negb (is_storage ev)) new = true
                /\ In (ShowError (str "Error")
                         (str "Failed to process image: "
                          ++ incomplete_message (falsy_required fields))) new)
  /\ parse_fields (str "Department: IT")
     = Raise (ValueError (str "Incomplete data: Missing Name, TestDate, TestType.")).
Proof.
  split; [|vm_compute; reflexivity].
  intros t fields Hx Hempty.
  assert (Hkeys : map fst fields = column_order).
  { pose proof (extract_fields_actions t) as [H1 H2].
    remember (apply_actions (actions (apply_corrections t)) initial_fields) as d eqn:Ed.
    clear Ed. rewrite Hx in H1. now injection H1 as ->. }
  assert (Hparse : parse_fields t
                   = Raise (ValueError (incomplete_message (falsy_required fields)))).
  { unfold parse_fields. rewrite Hx. cbn [bind]. rewrite (validate_spec _ Hkeys).
    destruct (falsy_required fields) eqn:E; [|reflexivity].
    apply falsy_required_nil in E. destruct E as (E1 & E2 & E3).
    simpl in Hempty. rewrite E1, E2, E3 in Hempty. discriminate. }
  split; [exact Hparse|]. split; [|split].
  - intros k. unfold falsy_required. rewrite filter_In.
    destruct (truthy (field k fields)); simpl; intuition congruence.
  - destruct (falsy_required fields) as [|name names] eqn:E.
    + apply falsy_required_nil in E. destruct E as (E1 & E2 & E3).
      simpl in Hempty. rewrite E1, E2, E3 in Hempty. discriminate.
    + exists name, names. split; [reflexivity|].
      unfold incomplete_message. cbn [map]. rewrite join_spaced, <- app_assoc.
      do 2 f_equal. f_equal. clear. induction names as [|k names IH]; [reflexivity|].
      cbn [map flat_map]. now rewrite IH, <- app_assoc.
  - intros reread result w <-.
    apply (process_parse_error reread result w _ Hparse).
Qed.

(** The text "Department: IT", recognized as one fragment, in front of a
    store that holds one row. *)
Lemma missing_required_fails_witness :
  let result := [Ocr.mkFragment (0, 0)%Z (10, 0)%Z (10, 5)%Z (0, 5)%Z (str "Department: IT")] in
  let w := mkWorld (Some (Csv (mkFrame column_order [[None; Some (str "Ann"); None;
                      Some (str "2024-01-02"); Some (str "Hair"); None; None]])))
              None [] in
  csv_file (process (fun df => Ok df) result w) = csv_file w.
Proof.
  intros result w.
  destruct (extract_fields (str "Department: IT")) as [fields|] eqn:E;
    [|vm_compute in E; discriminate].
  refine (proj1 (proj2 (proj2 (proj2 (proj1 missing_required_fails
                                        (str "Department: IT") fields E _)))
                  (fun df => Ok df) result w _)).
  - vm_compute in E. injection E as <-. vm_compute. reflexivity.
  - vm_compute. reflexivity.
Defined.

(** ** Stage order *)

Lemma act_on_other k acts v :
  Forall (fun kf => String.eqb (fst kf) k = false) acts -> act_on k acts v = v.
Proof.
  unfold act_on. intros H. revert v.
  induction H as [|kf acts Hk _ IH]; intros v; simpl; [reflexivity|].
  now rewrite Hk, IH.
Qed.

Lemma Forall_skipn {A} (P : A -> Prop) n l : Forall P l -> Forall P (skipn n l).
Proof.
  intros H. revert n. induction H; intros [|n]; simpl; auto.
Qed.

Lemma act_on_kept_gen (p1 p2 p3 p4 p5 p6 p7 : value -> value)
    (f1 f2 f3 f4 f5 f6 f7 : option value) (n : nat) (k : string) :
  let acts :=
    [("EmployeeID", p1); ("Name", p2); ("Department", p3); ("TestDate", p4);
     ("TestType", p5); ("Result", p6); ("Notes", p7);
     ("EmployeeID", fallback_action f1); ("Name", fallback_action f2);
     ("Department", fallback_action f3); ("TestDate", fallback_action f4);
     ("TestType", fallback_action f5); ("Result", fallback_action f6);
     ("Notes", fallback_action f7)]%string in
  let v := act_on k (firstn n acts) (field k initial_fields) in
  truthy v = true -> act_on k (skipn n acts) v = v.
Proof.
  assert (Hfb : forall found v, truthy v = true -> fallback_action found v = v).
  { intros found v H. unfold fallback_action. now rewrite H. }
  intros acts.
  destruct (existsb (fun a => String.eqb a k) column_order) eqn:E.
  - apply existsb_exists in E. destruct E as (a & Hin & Heq).
    apply String.eqb_eq in Heq. subst a. subst acts. simpl in Hin.
    repeat (destruct Hin as [<-|Hin];
      [ do 15 (destruct n as [|n];
          [ cbv -[fallback_action truthy];
            solve [ intros H; try discriminate H; rewrite ?Hfb by exact H;
                    reflexivity ]
          | ]);
        cbv -[fallback_action truthy]; reflexivity
      | ]).
    contradiction.
  - intros v _. apply act_on_other. apply Forall_skipn.
    cbn [existsb column_order] in E.
    repeat (apply orb_false_elim in E; destruct E as [? E]).
    subst acts. repeat constructor; cbn [fst]; assumption.
Qed.

Lemma act_on_kept t n k :
  let v := act_on k (firstn n (actions t)) (field k initial_fields) in
  truthy v = true -> act_on k (skipn n (actions t)) v = v.
Proof.
  exact (act_on_kept_gen
           (primary_action t (nth 0 patterns (""%string, Eol)))
           (primary_action t (nth 1 patterns (""%string, Eol)))
           (primary_action t (nth 2 patterns (""%string, Eol)))
           (primary_action t (nth 3 patterns (""%string, Eol)))
           (primary_action t (nth 4 patterns (""%string, Eol)))
           (primary_action t (nth 5 patterns (""%string, Eol)))
           (primary_action t (nth 6 patterns (""%string, Eol)))
           (found_EmployeeID t) (found_Name t) (found_Department t)
           (found_TestDate t) (found_TestType t) (found_Result t)
           (found_Notes t) n k).
Qed.

(** C6: [parse_fields] runs its stages in the order primary patterns
    (label or corrected sentinel), then label-free fallbacks; cut that
    sequence anywhere: a field that holds a non-empty value after the
    earlier stages holds the same value after all the later ones. *)
Theorem set_field_is_kept (t : text) (pre post : list (dict -> result dict))
    (mid : dict) (k : string) :
  stages (apply_corrections t) = pre ++ post ->
  run_stages pre initial_fields = Ok mid ->
  truthy (field k mid) = true ->
  exists final,
    run_stages post mid = Ok final
    /\ extract_fields t = Ok final
    /\ field k final = field k mid.
Proof.
  intros Hsplit Hpre Htruthy.
  pose proof (stages_act (apply_corrections t)) as Hact.
  rewrite Hsplit in Hact.
  apply Forall2_app_inv_l in Hact. destruct Hact as (a1 & a2 & H1 & H2 & Ha).
  destruct (run_stages_actions _ _ H1 initial_fields eq_refl) as [E1 K1].
  rewrite Hpre in E1. injection E1 as ->.
  destruct (run_stages_actions _ _ H2 _ K1) as [E2 K2].
  exists (apply_actions a2 (apply_actions a1 initial_fields)).
  split; [exact E2|]. split.
  - rewrite extract_fields_stages, Hsplit, run_stages_app, Hpre. exact E2.
  - rewrite field_apply_actions.
    rewrite field_apply_actions in Htruthy |- *.
    assert (F1 : a1 = firstn (length a1) (actions (apply_corrections t))).
    { rewrite Ha, firstn_app, firstn_all, Nat.sub_diag. simpl. now rewrite app_nil_r. }
    assert (F2 : a2 = skipn (length a1) (actions (apply_corrections t))).
    { rewrite Ha, skipn_app, skipn_all, Nat.sub_diag. reflexivity. }
    remember (length a1) as n eqn:Hn. clear Hn.
    pose proof (act_on_kept (apply_corrections t) n k) as Hkept.
    cbv zeta in Hkept. rewrite <- F1, <- F2 in Hkept.
    apply Hkept. exact Htruthy.
Qed.

(** Cut after the primary patterns and the EmployeeID fallback, on a text
    whose Name label matched: Name is still "Bob" at the end. *)
Lemma set_field_is_kept_witness :
  let t := str "Name: Bob 1/2/2024 URINE" in
  exists final,
    extract_fields t = Ok final /\ field "Name" final = Some (str "Bob").
Proof.
  intros t.
  destruct (run_stages (firstn 8 (stages (apply_corrections t))) initial_fields)
    as [mid|] eqn:E; [|vm_compute in E; discriminate].
  destruct (set_field_is_kept t (firstn 8 (stages (apply_corrections t)))
              (skipn 8 (stages (apply_corrections t))) mid "Name")
    as (final & _ & Hx & Hf).
  - symmetry. apply firstn_skipn.
  - exact E.
  - vm_compute in E. injection E as <-. vm_compute. reflexivity.
  - exists final. split; [exact Hx|]. rewrite Hf.
    vm_compute in E. injection E as <-. vm_compute. reflexivity.
Defined.

(** ** Characters *)

Ltac each_char c := destruct c as [[] [] [] [] [] [] [] []].

Lemma digit_in_digit ic c : Py.isdigit c = true -> in_cset ic digit c = true.
Proof. destruct ic; each_char c; vm_compute; intros H; solve [reflexivity | discriminate H]. Qed.

Lemma in_digit_digit c : in_cset false digit c = Py.isdigit c.
Proof. unfold in_cset, digit, cset_has. simpl. apply orb_false_r. Qed.

Lemma digit_not_colon_space c :
  Py.isdigit c = true -> in_cset true colon_space c = false.
Proof. each_char c; vm_compute; intros H; solve [reflexivity | discriminate H]. Qed.

Lemma digit_not_space c : Py.isdigit c = true -> Py.isspace c = false.
Proof. each_char c; vm_compute; intros H; solve [reflexivity | discriminate H]. Qed.

Lemma colon_space_in c :
  Ascii.eqb c ":" || Py.isspace c = true -> in_cset true colon_space c = true.
Proof. each_char c; vm_compute; intros H; solve [reflexivity | discriminate H]. Qed.

Lemma letter_not_space c : in_cset true letters c = true -> Py.isspace c = false.
Proof. each_char c; vm_compute; intros H; solve [reflexivity | discriminate H]. Qed.

Lemma upper_of_lower c : Py.upper_char (Py.lower_char c) = Py.upper_char c.
Proof. each_char c; vm_compute; reflexivity. Qed.

(** ** [strip] on a text without white space *)

Lemma lstrip_id s :
  forallb (fun c => negb (Py.isspace c)) s = true -> Py.lstrip s = s.
Proof.
  destruct s as [|c s]; simpl; [reflexivity|].
  destruct (Py.isspace c); [discriminate|reflexivity].
Qed.

Lemma forallb_rev {A} (p : A -> bool) l : forallb p (rev l) = forallb p l.
Proof.
  induction l as [|a l IH]; simpl; [reflexivity|].
  rewrite forallb_app, IH. simpl. rewrite andb_true_r. apply andb_comm.
Qed.

Lemma strip_id s :
  forallb (fun c => negb (Py.isspace c)) s = true -> Py.strip s = s.
Proof.
  intros H. unfold Py.strip, Py.rstrip. rewrite (lstrip_id s H).
  rewrite lstrip_id by now rewrite forallb_rev. apply rev_involutive.
Qed.

Lemma forallb_impl {A} (p q : A -> bool) l :
  (forall a, p a = true -> q a = true) -> forallb p l = true -> forallb q l = true.
Proof.
  intros Hpq. induction l as [|a l IH]; simpl; [reflexivity|].
  intros H. apply andb_prop in H. destruct H as [Ha Hl].
  now rewrite (Hpq _ Ha), IH.
Qed.

Lemma forallb_firstn {A} (p : A -> bool) n l :
  forallb p l = true -> forallb p (firstn n l) = true.
Proof.
  revert n. induction l as [|a l IH]; intros [|n]; simpl; auto.
  intros H. apply andb_prop in H. destruct H as [-> Hl]. now apply IH.
Qed.

(** ** Quantifiers and literals *)

Lemma rep_consumes {R} ic cs gr (k : text -> option R) s :
  forall lo hi x, rep ic cs lo hi gr k s = Some x ->
  exists w s', s = w ++ s' /\ forallb (in_cset ic cs) w = true
               /\ lo <= length w /\ k s' = Some x.
Proof.
  induction s as [|c s IH]; intros lo hi x; simpl.
  - destruct lo; [|discriminate]. intros H. exists [], []. auto.
  - assert (Hstop : match lo with O => k (c :: s) | S _ => None end = Some x ->
                    exists w s', c :: s = w ++ s' /\ forallb (in_cset ic cs) w = true
                                 /\ lo <= length w /\ k s' = Some x).
    { destruct lo; [|discriminate]. intros H. exists [], (c :: s). auto. }
    destruct (may_repeat hi && in_cset ic cs c) eqn:Hc; [|exact Hstop].
    apply andb_prop in Hc. destruct Hc as [_ Hc].
    assert (Hmore : rep ic cs (pred lo) (one_less hi) gr k s = Some x ->
                    exists w s', c :: s = w ++ s' /\ forallb (in_cset ic cs) w = true
                                 /\ lo <= length w /\ k s' = Some x).
    { intros H. destruct (IH _ _ _ H) as (w & s' & -> & Hw & Hlo & Hk).
      exists (c :: w), s'. simpl. rewrite Hc, Hw. repeat split; auto. lia. }
    destruct gr.
    + destruct (rep ic cs (pred lo) (one_less hi) true k s) eqn:E.
      * intros [= ->]. now apply Hmore.
      * exact Hstop.
    + destruct (match lo with O => k (c :: s) | S _ => None end) eqn:E.
      * intros [= ->]. now apply Hstop.
      * exact Hmore.
Qed.

(** [cs{n}] takes exactly the next [n] characters. *)
Lemma rep_exact {R} ic cs (k : text -> option R) n :
  forall s,
  rep ic cs n (Some n) true k s
  = if (n <=? length s) && forallb (in_cset ic cs) (firstn n s)
    then k (skipn n s) else None.
Proof.
  induction n as [|n IH]; intros s.
  - destruct s; reflexivity.
  - destruct s as [|c s]; [reflexivity|].
    cbn [rep may_repeat andb pred one_less option_map firstn skipn forallb length].
    change (S n <=? S (length s)) with (n <=? length s).
    destruct (in_cset ic cs c); cbn [andb].
    + rewrite IH. destruct ((n <=? length s) && forallb (in_cset ic cs) (firstn n s));
        [destruct (k (skipn n s))|]; reflexivity.
    + now rewrite andb_false_r.
Qed.

(** A greedy [cs*] in front of a character outside [cs]. *)
Lemma rep_star_all {R} ic cs (k : text -> option R) sep rest x :
  forallb (in_cset ic cs) sep = true ->
  match rest with c :: _ => in_cset ic cs c = false | [] => True end ->
  k rest = Some x ->
  rep ic cs 0 None true k (sep ++ rest) = Some x.
Proof.
  intros Hsep Hrest Hk. induction sep as [|a sep IH]; simpl.
  - destruct rest as [|c rest]; simpl; [exact Hk|]. now rewrite Hrest.
  - simpl in Hsep. apply andb_prop in Hsep. destruct Hsep as [-> Hsep].
    simpl. now rewrite IH.
Qed.

Lemma eat_ci p : forall w rest,
  map Py.lower_char w = map Py.lower_char p -> eat true p (w ++ rest) = Some rest.
Proof.
  induction p as [|a p IH]; intros [|c w] rest; simpl; try discriminate.
  - reflexivity.
  - intros [= Hc Hw]. unfold char_eq. rewrite Hc, Ascii.eqb_refl. now apply IH.
Qed.

Lemma eat_inv p : forall s s',
  eat true p s = Some s' ->
  exists w, s = w ++ s' /\ map Py.lower_char w = map Py.lower_char p.
Proof.
  induction p as [|a p IH]; intros s s'; simpl.
  - intros [= ->]. now exists [].
  - destruct s as [|c s]; [discriminate|].
    unfold char_eq. destruct (Ascii.eqb_spec (Py.lower_char a) (Py.lower_char c));
      [|discriminate].
    intros H. destruct (IH _ _ H) as (w & -> & Hw).
    exists (c :: w). simpl. split; congruence.
Qed.

Lemma capitalize_ci w p :
  map Py.lower_char w = map Py.lower_char p -> Py.capitalize w = Py.capitalize p.
Proof.
  destruct w as [|c w], p as [|a p]; simpl; try discriminate; [reflexivity|].
  intros [= Hc Hw]. unfold Py.lower. rewrite Hw.
  now rewrite <- (upper_of_lower c), Hc, upper_of_lower.
Qed.

Lemma firstn_consumed (w s' : text) :
  firstn (length (w ++ s') - length s') (w ++ s') = w.
Proof.
  rewrite length_app, Nat.add_sub, firstn_app, Nat.sub_diag, firstn_all.
  simpl. apply app_nil_r.
Qed.

(** ** The final value of every field *)

Lemma final_field_gen (p1 p2 p3 p4 p5 p6 p7 : value -> value)
    (f1 f2 f3 f4 f5 f6 f7 : option value) :
  let acts :=
    [("EmployeeID", p1); ("Name", p2); ("Department", p3); ("TestDate", p4);
     ("TestType", p5); ("Result", p6); ("Notes", p7);
     ("EmployeeID", fallback_action f1); ("Name", fallback_action f2);
     ("Department", fallback_action f3); ("TestDate", fallback_action f4);
     ("TestType", fallback_action f5); ("Result", fallback_action f6);
     ("Notes", fallback_action f7)]%string in
  act_on "EmployeeID" acts None = fallback_action f1 (p1 None)
  /\ act_on "Name" acts None = fallback_action f2 (p2 None)
  /\ act_on "Department" acts None = fallback_action f3 (p3 None)
  /\ act_on "TestDate" acts None = fallback_action f4 (p4 None)
  /\ act_on "TestType" acts None = fallback_action f5 (p5 None)
  /\ act_on "Result" acts None = fallback_action f6 (p6 None)
  /\ act_on "Notes" acts None = fallback_action f7 (p7 None).
Proof. cbv -[fallback_action]. repeat split. Qed.

(** [extract_fields] succeeds, and every field ends as its [final_value]. *)
Lemma extract_fields_final t :
  let t' := apply_corrections t in
  exists fields,
    extract_fields t = Ok fields
    /\ map fst fields = column_order
    /\ field "EmployeeID" fields = final_value t' "EmployeeID" (found_EmployeeID t')
    /\ field "Name" fields = final_value t' "Name" (found_Name t')
    /\ field "Department" fields = final_value t' "Department" (found_Department t')
    /\ field "TestDate" fields = final_value t' "TestDate" (found_TestDate t')
    /\ field "TestType" fields = final_value t' "TestType" (found_TestType t')
    /\ field "Result" fields = final_value t' "Result" (found_Result t')
    /\ field "Notes" fields = final_value t' "Notes" (found_Notes t').
Proof.
  intros t'. destruct (extract_fields_actions t) as [Hx Hk]. fold t' in Hx, Hk.
  eexists. split; [exact Hx|]. split; [exact Hk|].
  rewrite !field_apply_actions.
  exact (final_field_gen
           (primary_action t' ("EmployeeID"%string, pattern_of "EmployeeID"))
           (primary_action t' ("Name"%string, pattern_of "Name"))
           (primary_action t' ("Department"%string, pattern_of "Department"))
           (primary_action t' ("TestDate"%string, pattern_of "TestDate"))
           (primary_action t' ("TestType"%string, pattern_of "TestType"))
           (primary_action t' ("Result"%string, pattern_of "Result"))
           (primary_action t' ("Notes"%string, pattern_of "Notes"))
           (found_EmployeeID t') (found_Name t') (found_Department t')
           (found_TestDate t') (found_TestType t') (found_Result t')
           (found_Notes t')).
Qed.

Lemma parse_fields_extract t fields :
  parse_fields t = Ok fields -> extract_fields t = Ok fields.
Proof.
  unfold parse_fields. destruct (extract_fields t) as [f|e]; [|discriminate].
  cbn [bind]. unfold validate.
  destruct (getitem f "Name"); [|discriminate]. cbn [bind].
  destruct (getitem f "TestDate"); [|discriminate]. cbn [bind].
  destruct (getitem f "TestType"); [|discriminate]. cbn [bind].
  destruct (negb _); [discriminate|]. intros [= ->]. reflexivity.
Qed.

Lemma six_digits_here (d post : text) :
  forallb Py.isdigit d = true -> 6 <= length d ->
  match_here false (times digit 6 6) (d ++ post)
  = Some (mkMatch (firstn 6 d) None).
Proof.
  intros Hd Hlen. unfold match_here, times. cbn [run]. rewrite rep_exact.
  assert (Hf : firstn 6 (d ++ post) = firstn 6 d).
  { rewrite firstn_app. replace (6 - length d) with 0 by lia.
    simpl. apply app_nil_r. }
  rewrite Hf.
  assert (H6 : (6 <=? length (d ++ post)) = true).
  { apply Nat.leb_le. rewrite length_app. lia. }
  rewrite H6. cbn [andb].
  rewrite (forallb_impl Py.isdigit (in_cset false digit)).
  - f_equal. f_equal. rewrite length_skipn.
    replace (length (d ++ post) - (length (d ++ post) - 6)) with 6.
    + exact Hf.
    + apply Nat.leb_le in H6. lia.
  - intros a Ha. now apply digit_in_digit.
  - now apply forallb_firstn.
Qed.


Lemma forallb_eq {A} (p q : A -> bool) l :
  (forall a, p a = q a) -> forallb p l = forallb q l.
Proof.
  intros H. induction l as [|a l IH]; simpl; [reflexivity|]. now rewrite H, IH.
Qed.

Lemma six_digits_none s :
  six_digits s = false -> match_here false (times digit 6 6) s = None.
Proof.
  unfold six_digits, match_here, times. cbn [run]. rewrite rep_exact. intros H.
  rewrite (forallb_eq _ Py.isdigit) by apply in_digit_digit.
  now rewrite H.
Qed.

Lemma none_before_spec n p t :
  none_before n p t = true -> forall j, j < n -> p (skipn j t) = false.
Proof.
  unfold none_before. rewrite forallb_forall. intros H j Hj.
  apply negb_true_iff. apply H. apply in_seq. lia.
Qed.

(** The fallback pattern finds the first six digits of the first run of
    six digits or more. *)
Lemma search_six_digits pre d post :
  forallb Py.isdigit d = true -> 6 <= length d ->
  none_before (length pre) six_digits (pre ++ d ++ post) = true ->
  search false (times digit 6 6) (pre ++ d ++ post)
  = Some (mkMatch (firstn 6 d) None).
Proof.
  intros Hd Hlen Hnone. rewrite search_skip.
  - destruct (d ++ post) eqn:E; unfold search; fold search;
      rewrite <- E, six_digits_here; auto.
  - intros j Hj. apply six_digits_none.
    now apply (none_before_spec _ _ _ Hnone).
Qed.

Lemma primary_EmployeeID_here lab sep d post :
  map Py.lower_char lab = map Py.lower_char (str "EmployeeID") ->
  forallb (fun c => Ascii.eqb c ":" || Py.isspace c) sep = true ->
  forallb Py.isdigit d = true -> 6 <= length d ->
  exists g0,
    match_here true (pattern_of "EmployeeID") (lab ++ sep ++ d ++ post)
    = Some (mkMatch g0 (Some (firstn 6 d))).
Proof.
  intros Hlab Hsep Hd Hlen.
  assert (Hf : firstn 6 (d ++ post) = firstn 6 d).
  { rewrite firstn_app. replace (6 - length d) with 0 by lia.
    simpl. apply app_nil_r. }
  assert (H6 : (6 <=? length (d ++ post)) = true).
  { apply Nat.leb_le. rewrite length_app. lia. }
  eexists. unfold match_here.
  change (pattern_of "EmployeeID")
    with (Str "EmployeeID" <.> star colon_space <.> Group (times digit 6 6))%re.
  cbn [run star times]. rewrite (eat_ci _ _ _ Hlab).
  apply rep_star_all.
  - revert Hsep. apply forallb_impl. apply colon_space_in.
  - destruct d as [|c d]; [simpl in Hlen; lia|]. simpl in Hd |- *.
    apply andb_prop in Hd. destruct Hd as [Hc _]. now apply digit_not_colon_space.
  - rewrite rep_exact, H6, Hf. cbn [andb].
    rewrite (forallb_impl Py.isdigit (in_cset true digit)).
    + rewrite length_skipn.
      replace (length (d ++ post) - (length (d ++ post) - 6)) with 6
        by (apply Nat.leb_le in H6; lia).
      rewrite Hf. reflexivity.
    + intros a Ha. now apply digit_in_digit.
    + now apply forallb_firstn.
Qed.

Lemma search_first ic r pre s m :
  none_before (length pre) (matches_here ic r) (pre ++ s) = true ->
  match_here ic r s = Some m ->
  search ic r (pre ++ s) = Some m.
Proof.
  intros Hnone Hm. rewrite search_skip.
  - destruct s; simpl; now rewrite Hm.
  - intros j Hj. pose proof (none_before_spec _ _ _ Hnone j Hj) as H.
    unfold matches_here in H.
    destruct (match_here ic r (skipn j (pre ++ s))); [discriminate|reflexivity].
Qed.

(** C9: neither EmployeeID pattern has a boundary around its [\d{6}].
    When the first place at which the labelled pattern matches is followed
    by a run of more than six digits, or, without a labelled match, when
    the first run of six digits or more in the text is longer than six,
    EmployeeID is the first six digits of that run, not empty. *)
Theorem employee_id_first_six :
  (forall (t pre lab sep d post : text),
      apply_corrections t = pre ++ lab ++ sep ++ d ++ post ->
      map Py.lower_char lab = str "employeeid" ->
      forallb (fun c => Ascii.eqb c ":" || Py.isspace c) sep = true ->
      forallb Py.isdigit d = true ->
      6 < length d ->
      none_before (length pre) (matches_here true (pattern_of "EmployeeID"))
        (apply_corrections t) = true ->
      exists fields,
        extract_fields t = Ok fields
        /\ field "EmployeeID" fields = Some (firstn 6 d)
        /\ forall record, parse_fields t = Ok record -> record = fields)
  /\ (forall (t pre d post : text),
      apply_corrections t = pre ++ d ++ post ->
      search true (pattern_of "EmployeeID") (apply_corrections t) = None ->
      forallb Py.isdigit d = true ->
      6 < length d ->
      none_before (length pre) six_digits (apply_corrections t) = true ->
      exists fields,
        extract_fields t = Ok fields
        /\ field "EmployeeID" fields = Some (firstn 6 d)
        /\ forall record, parse_fields t = Ok record -> record = fields).
Proof.
  assert (Hsame : forall t fields record,
             extract_fields t = Ok fields -> parse_fields t = Ok record ->
             record = fields).
  { intros t fields record Hx Hp. apply parse_fields_extract in Hp. congruence. }
  split.
  - intros t pre lab sep d post Ht Hlab Hsep Hd Hlen Hnone.
    destruct (extract_fields_final t) as (fields & Hx & _ & He & _).
    exists fields. split; [exact Hx|]. split; [|intros record; now apply Hsame].
    rewrite He.
    destruct (primary_EmployeeID_here lab sep d post Hlab Hsep Hd) as [g0 Hm]; [lia|].
    rewrite Ht in Hnone |- *.
    unfold final_value, primary_action. cbn [fst snd].
    rewrite (search_first _ _ _ _ _ Hnone Hm).
    unfold group1_strip. cbn [group1 bind String.eqb Ascii.eqb Bool.eqb].
    rewrite strip_id.
    + unfold fallback_action.
      destruct (firstn 6 d) eqn:E; [|reflexivity].
      destruct d as [|? [|? [|? [|? [|? [|? d]]]]]]; simpl in Hlen; try lia; discriminate.
    + apply forallb_firstn. revert Hd. apply forallb_impl.
      intros a Ha. now rewrite digit_not_space.
  - intros t pre d post Ht Hprim Hd Hlen Hnone.
    destruct (extract_fields_final t) as (fields & Hx & _ & He & _).
    exists fields. split; [exact Hx|]. split; [|intros record; now apply Hsame].
    rewrite He.
    unfold final_value, primary_action. cbn [fst snd]. rewrite Hprim.
    unfold found_EmployeeID. rewrite Ht in Hnone |- *.
    rewrite (search_six_digits pre d post Hd ltac:(lia) Hnone). reflexivity.
Qed.


Lemma test_types_here s m :
  match_here true test_types s = Some m ->
  In (Py.capitalize (group0 m)) test_type_words.
Proof.
  unfold match_here, test_types. cbn [run].
  repeat match goal with
         | |- context [eat true (str ?w) s] =>
             let E := fresh "E" in
             destruct (eat true (str w) s) as [s'|] eqn:E;
             [ intros [= <-]; destruct (eat_inv _ _ _ E) as (x & -> & Hx);
               cbn [group0]; rewrite firstn_consumed, (capitalize_ci _ _ Hx);
               vm_compute; tauto
             | ]
         end.
  discriminate.
Qed.

Lemma results_here s m :
  match_here true results s = Some m ->
  In (Py.capitalize (group0 m)) result_words.
Proof.
  unfold match_here, results. cbn [run].
  repeat match goal with
         | |- context [eat true (str ?w) s] =>
             let E := fresh "E" in
             destruct (eat true (str w) s) as [s'|] eqn:E;
             [ intros [= <-]; destruct (eat_inv _ _ _ E) as (x & -> & Hx);
               cbn [group0]; rewrite firstn_consumed, (capitalize_ci _ _ Hx);
               vm_compute; tauto
             | ]
         end.
  discriminate.
Qed.

(** The group of [label[:\s]*([A-Za-z]+)] is a non-empty run of letters. *)
Lemma word_group_here label s m :
  match_here true (label <.> star colon_space <.> Group (plus letters)) s = Some m ->
  exists g, group1 m = Some g /\ g <> []
            /\ forallb (in_cset true letters) g = true.
Proof.
  unfold match_here, star, plus. cbn [run]. intros H.
  apply run_inv in H. destruct H as (s1 & g1 & H & _).
  apply rep_consumes in H. destruct H as (w1 & s2 & _ & _ & _ & H).
  apply rep_consumes in H. destruct H as (w & s3 & -> & Hw & Hlen & H).
  injection H as <-. exists w. cbn [group1]. rewrite firstn_consumed.
  repeat split; auto. destruct w; [simpl in Hlen; lia|discriminate].
Qed.

Lemma primary_word t key label fields_value :
  pattern_of key = (label <.> star colon_space <.> Group (plus letters))%re ->
  String.eqb key "TestDate" = false ->
  forall m, search true (pattern_of key) t = Some m ->
  fields_value = final_value t key ->
  exists g, group1 m = Some g /\ is_substring g t
            /\ forall found, fields_value found = Some g.
Proof.
  intros Hp Hk m Hm ->.
  destruct (search_inv _ _ _ _ Hm) as (s0 & Hs0 & Hh).
  pose proof Hh as Hh'. rewrite Hp in Hh'.
  destruct (word_group_here _ _ _ Hh') as (g & Hg & Hne & Hl).
  exists g. split; [exact Hg|]. split.
  - assert (Hb : binds (pattern_of key) = true)
      by (rewrite Hp; cbn [binds star plus]; apply orb_true_r).
    destruct (search_group1 _ _ _ _ Hb Hm) as (g' & Hg' & Hsub). congruence.
  - intros found. unfold final_value, primary_action. cbn [fst snd]. rewrite Hm.
    unfold group1_strip. rewrite Hg, Hk. cbn [bind].
    rewrite strip_id.
    + unfold fallback_action. destruct g; [contradiction|reflexivity].
    + revert Hl. apply forallb_impl. intros a Ha. now rewrite letter_not_space.
Qed.


Lemma search_group0 ic r s m :
  search ic r s = Some m -> is_substring (group0 m) s.
Proof.
  intros H. destruct (search_inv _ _ _ _ H) as (s0 & Hs & Hm).
  destruct (match_here_inv _ _ _ _ Hm) as [(s' & _ & ->) _].
  now apply firstn_is_substring.
Qed.

Lemma fallback_match t (words : list text) (vocabulary : regex) found :
  (forall s m, match_here true vocabulary s = Some m ->
               In (Py.capitalize (group0 m)) words) ->
  found = option_map (fun m => Some (Py.capitalize (group0 m)))
            (search true vocabulary t) ->
  forall key, search true (pattern_of key) t = None ->
  match search true vocabulary t with
  | Some m => final_value t key found = Some (Py.capitalize (group0 m))
              /\ is_substring (group0 m) t
              /\ (forallb Py.isascii (group0 m) = true ->
                  In (Py.capitalize (group0 m)) words)
  | None => final_value t key found = None
  end.
Proof.
  intros Hwords -> key Hnone.
  unfold final_value, primary_action. cbn [fst snd]. rewrite Hnone.
  destruct (search true vocabulary t) as [m|] eqn:E; [|reflexivity].
  split; [reflexivity|]. split; [now apply search_group0 in E|].
  intros _. destruct (search_inv _ _ _ _ E) as (s0 & _ & Hh). eapply Hwords; eauto.
Qed.

(** C10: a TestType or Result that the vocabulary fallback finds is
    stored as [capitalize()] of the piece of the text that matched,
    whatever the case it has there ("URINE" gives "Urine"); when that
    piece is ASCII the value is thus the vocabulary word as the pattern
    spells it.  One that the labelled pattern finds is the group as it
    stands in the text ("TestType: URINE" gives "URINE").  The same word
    is thus stored in one case or the other depending on the stage. *)
Theorem vocabulary_casing :
  (forall (t : text) (fields : dict),
      extract_fields t = Ok fields ->
      let t' := apply_corrections t in
      (search true (pattern_of "TestType") t' = None ->
       match search true test_types t' with
       | Some m => field "TestType" fields = Some (Py.capitalize (group0 m))
                   /\ is_substring (group0 m) t'
                   /\ (forallb Py.isascii (group0 m) = true ->
                       In (Py.capitalize (group0 m)) test_type_words)
       | None => field "TestType" fields = None
       end)
      /\ (search true (pattern_of "Result") t' = None ->
          match search true results t' with
          | Some m => field "Result" fields = Some (Py.capitalize (group0 m))
                      /\ is_substring (group0 m) t'
                      /\ (forallb Py.isascii (group0 m) = true ->
                          In (Py.capitalize (group0 m)) result_words)
          | None => field "Result" fields = None
          end)
      /\ (forall m, search true (pattern_of "TestType") t' = Some m ->
            exists g, group1 m = Some g /\ is_substring g t'
                      /\ field "TestType" fields = Some g)
      /\ (forall m, search true (pattern_of "Result") t' = Some m ->
            exists g, group1 m = Some g /\ is_substring g t'
                      /\ field "Result" fields = Some g))
  /\ (exists fields, extract_fields (str "URINE") = Ok fields
                     /\ field "TestType" fields = Some (str "Urine"))
  /\ (exists fields, parse_fields (str "Name: Bob 1/2/2024 URINE") = Ok fields
                     /\ field "TestType" fields = Some (str "Urine"))
  /\ (exists fields, parse_fields (str "Name: Bob 1/2/2024 TestType: URINE") = Ok fields
                     /\ field "TestType" fields = Some (str "URINE")).
Proof.
  split; [|repeat split; eexists; split; vm_compute; reflexivity].
  intros t fields Hx t'.
  destruct (extract_fields_final t) as (f & Hf & _ & _ & _ & _ & _ & Hty & Hres & _).
  rewrite Hx in Hf. injection Hf as <-. fold t' in Hty, Hres.
  rewrite Hty, Hres. repeat split.
  - intros Hnone.
    exact (fallback_match t' test_type_words test_types _ test_types_here eq_refl
             "TestType"%string Hnone).
  - intros Hnone.
    exact (fallback_match t' result_words results _ results_here eq_refl
             "Result"%string Hnone).
  - intros m Hm.
    destruct (primary_word t' "TestType" (Str "TestType" <|> Str "Blood")
                (final_value t' "TestType") eq_refl eq_refl m Hm eq_refl)
      as (g & Hg & Hsub & Hv).
    exists g. auto.
  - intros m Hm.
    destruct (primary_word t' "Result" (Str "Result" <|> Str "Negative")
                (final_value t' "Result") eq_refl eq_refl m Hm eq_refl)
      as (g & Hg & Hsub & Hv).
    exists g. auto.
Qed.

(** ** The order of the fragments *)



Lemma insert_perm x l : Permutation (x :: l) (Ocr.insert x l).
Proof.
  induction l as [|y l IH]; simpl; [constructor; constructor|].
  destruct (Ocr.sort_key x <=? Ocr.sort_key y)%Z; [reflexivity|].
  rewrite perm_swap. now constructor.
Qed.

Lemma sort_perm l : Permutation l (Ocr.sort l).
Proof.
  induction l as [|x l IH]; simpl; [constructor|].
  rewrite <- insert_perm. now constructor.
Qed.

Lemma insert_sorted x l :
  StronglySorted key_le l -> StronglySorted key_le (Ocr.insert x l).
Proof.
  induction 1 as [|y l Hl IH Hy]; simpl.
  - repeat constructor.
  - destruct (Z.leb_spec (Ocr.sort_key x) (Ocr.sort_key y)) as [Hxy|Hxy].
    + constructor; [now constructor|]. constructor; [exact Hxy|].
      revert Hy. apply Forall_impl. intros z Hz. unfold key_le in *. lia.
    + constructor; [exact IH|].
      apply (Permutation_Forall (insert_perm x l)).
      constructor; [unfold key_le; lia|exact Hy].
Qed.

Lemma sort_sorted l : StronglySorted key_le (Ocr.sort l).
Proof.
  induction l as [|x l IH]; simpl; [constructor|]. now apply insert_sorted.
Qed.

Lemma insert_stable y x l :
  filter (with_key y) (Ocr.insert x l) = filter (with_key y) (x :: l).
Proof.
  induction l as [|z l IH]; [reflexivity|]. cbn [Ocr.insert].
  destruct (Z.leb_spec (Ocr.sort_key x) (Ocr.sort_key z)) as [Hxz|Hxz]; [reflexivity|].
  cbn [filter] in *. rewrite IH. unfold with_key.
  destruct (Z.eqb_spec (Ocr.sort_key x) y), (Z.eqb_spec (Ocr.sort_key z) y);
    try reflexivity. lia.
Qed.

Lemma sort_stable y l : filter (with_key y) (Ocr.sort l) = filter (with_key y) l.
Proof.
  induction l as [|x l IH]; [reflexivity|]. cbn [Ocr.sort].
  rewrite insert_stable. cbn [filter]. now rewrite IH.
Qed.

Lemma insert_le x y l :
  (Ocr.sort_key x <= Ocr.sort_key y)%Z -> Ocr.insert x (y :: l) = x :: y :: l.
Proof. intros H. cbn [Ocr.insert]. apply Z.leb_le in H. now rewrite H. Qed.

Lemma insert_gt x y l :
  (Ocr.sort_key y < Ocr.sort_key x)%Z -> Ocr.insert x (y :: l) = y :: Ocr.insert x l.
Proof. intros H. cbn [Ocr.insert]. apply Z.leb_gt in H. now rewrite H. Qed.

(** C7: the fragments are put in ascending order of the y of the
    top-left corner by a stable sort (the items with any one y keep the
    order they came in), and the text is the texts in that order with
    one space between neighbours: nothing for no fragment, the first
    text and then a space and a text for every further fragment.  Items
    whose top-left y are 50, 10, 30 come out in the order 10, 30, 50. *)
Theorem reconstruct_order (result : list Ocr.fragment) :
  let y := fun f : Ocr.fragment => snd (Ocr.top_left f) in
  (exists ordered,
      Permutation result ordered
      /\ StronglySorted (fun a b => (y a <= y b)%Z) ordered
      /\ (forall v, filter (fun f => (y f =? v)%Z) ordered
                    = filter (fun f => (y f =? v)%Z) result)
      /\ Ocr.reconstruct result
         = match ordered with
           | [] => []
           | first :: others =>
               Ocr.fragment_text first
               ++ flat_map (fun f => " "%char :: Ocr.fragment_text f) others
           end)
  /\ (forall f50 f10 f30,
        y f50 = 50%Z -> y f10 = 10%Z -> y f30 = 30%Z ->
        Ocr.reconstruct [f50; f10; f30]
        = Ocr.fragment_text f10 ++ " "%char :: Ocr.fragment_text f30
          ++ " "%char :: Ocr.fragment_text f50).
Proof.
  intros y. split.
  - exists (Ocr.sort result).
    split; [apply sort_perm|]. split; [apply sort_sorted|].
    split; [intros v; apply sort_stable|].
    unfold Ocr.reconstruct. rewrite map_map. cbn [fst].
    destruct (Ocr.sort result) as [|first others]; [reflexivity|].
    cbn [map]. rewrite join_spaced. f_equal.
    induction others as [|f others IH]; [reflexivity|].
    cbn [map flat_map]. now rewrite IH.
  - intros f50 f10 f30 H50 H10 H30.
    assert (Hs : Ocr.sort [f50; f10; f30] = [f10; f30; f50]).
    { change (Ocr.sort [f50; f10; f30])
        with (Ocr.insert f50 (Ocr.insert f10 [f30])).
      rewrite (insert_le f10 f30), (insert_gt f50 f10), (insert_gt f50 f30);
        [reflexivity|unfold Ocr.sort_key; fold (y f50); fold (y f10); fold (y f30); lia..]. }
    unfold Ocr.reconstruct. rewrite Hs. reflexivity.
Qed.

(** ** Data frames *)


Lemma cell_at_map c cols (F : string -> cell) :
  In c cols -> cell_at c cols (map F cols) = F c.
Proof.
  induction cols as [|c' cols IH]; simpl; [tauto|].
  destruct (String.eqb_spec c' c) as [->|Hne]; [reflexivity|].
  intros [H|H]; [contradiction|auto].
Qed.

Lemma cell_at_fields c fields :
  cell_at c (map fst fields) (map snd fields) = field c fields.
Proof.
  unfold field. induction fields as [|[k v] fields IH]; simpl; [reflexivity|].
  destruct (String.eqb k c); [reflexivity|exact IH].
Qed.

Lemma reindex_fields fields :
  reindex (map fst fields) column_order (map snd fields) = canonical_row fields.
Proof.
  unfold reindex, canonical_row. apply map_ext. intros c. apply cell_at_fields.
Qed.

Lemma reindex_through cols0 cols target row :
  incl target cols ->
  reindex cols target (reindex cols0 cols row) = reindex cols0 target row.
Proof.
  intros Hincl. unfold reindex. apply map_ext_in. intros c Hc.
  apply cell_at_map. now apply Hincl.
Qed.


Lemma has_column_in cols c : has_column cols c = true <-> In c cols.
Proof.
  unfold has_column. rewrite existsb_exists. split.
  - intros (x & Hx & E). apply String.eqb_eq in E. now subst.
  - intros H. exists c. split; [exact H|apply String.eqb_refl].
Qed.

Lemma select_ok target df :
  incl target (columns df) ->
  select target df
  = Ok (mkFrame target (map (reindex (columns df) target) (rows df))).
Proof.
  intros Hincl. unfold select.
  assert (H : filter (fun c => negb (has_column (columns df) c)) target = []).
  { induction target as [|c target IH]; [reflexivity|]. simpl.
    rewrite (proj2 (has_column_in _ _) (Hincl c (or_introl eq_refl))). simpl.
    apply IH. intros x Hx. apply Hincl. now right. }
  now rewrite H.
Qed.

Lemma complete_incl fields : complete fields = true -> incl column_order (map fst fields).
Proof.
  unfold complete. rewrite forallb_forall. intros H c Hc.
  apply has_column_in. now apply H.
Qed.




(** ** [add_to_csv] *)

Lemma complete_has fields c :
  complete fields = true -> In c column_order -> In c (map fst fields).
Proof. intros H Hc. now apply (complete_incl fields H). Qed.

Lemma concat_columns_incl df fields :
  complete fields = true ->
  incl column_order (columns (concat df (frame_of fields))).
Proof.
  intros Hc c Hin. cbn [concat columns frame_of]. apply in_or_app.
  destruct (has_column (columns df) c) eqn:E.
  - left. now apply has_column_in.
  - right. apply filter_In. split; [now apply complete_has|]. now rewrite E.
Qed.

Lemma select_concat df fields :
  incl column_order (columns (concat df (frame_of fields))) ->
  select column_order (concat df (frame_of fields))
  = Ok (appended df (canonical_row fields)).
Proof.
  intros Hincl. rewrite select_ok by exact Hincl. unfold appended.
  cbn [concat frame_of columns rows map] in *. rewrite map_app, map_map. cbn [map].
  rewrite reindex_through by exact Hincl. rewrite reindex_fields.
  f_equal. f_equal. f_equal. apply map_ext. intros r.
  now apply reindex_through.
Qed.

(** The function in terms of what the [try] leaves in [df]. *)
Lemma add_to_csv_loaded reread fields w :
  add_to_csv reread fields w
  = match loaded reread w with
    | Raise e => (Raise e, emit ReadCsv w)
    | Ok df =>
        match select column_order (concat df (frame_of fields)) with
        | Raise e => (Raise e, emit ReadCsv w)
        | Ok df' =>
            match to_csv df' (emit ReadCsv w) with
            | (Raise e, w') => (Raise e, w')
            | (Ok _, w') => (select column_order (frame_of fields), w')
            end
        end
    end.
Proof.
  unfold add_to_csv, read_csv, loaded. cbn [emit csv_file].
  destruct (csv_file w) as [[f|e]|]; [|destruct e; reflexivity|reflexivity].
  destruct (reread f) as [df|e]; [reflexivity|destruct e; reflexivity].
Qed.

Lemma select_new_row fields :
  complete fields = true ->
  select column_order (frame_of fields) = Ok (mkFrame column_order [canonical_row fields]).
Proof.
  intros Hc. rewrite select_ok by (apply complete_incl; exact Hc).
  cbn [frame_of columns rows map]. now rewrite reindex_fields.
Qed.

(** A record with the seven keys: the three ways out. *)
Lemma add_to_csv_complete reread fields w :
  complete fields = true ->
  add_to_csv reread fields w
  = match loaded reread w with
    | Raise e => (Raise e, emit ReadCsv w)
    | Ok df =>
        let stored := appended df (canonical_row fields) in
        match write_fault w with
        | None => (Ok (mkFrame column_order [canonical_row fields]),
                   mkWorld (Some (Csv stored)) None (WriteCsv stored :: ReadCsv :: trace w))
        | Some (e, remains) =>
            (Raise e,
             mkWorld remains (write_fault w) (WriteCsv stored :: ReadCsv :: trace w))
        end
    end.
Proof.
  intros Hc. rewrite add_to_csv_loaded.
  destruct (loaded reread w) as [df|e]; [|reflexivity].
  rewrite select_concat by (apply concat_columns_incl; exact Hc).
  rewrite (select_new_row _ Hc). unfold to_csv. cbn [emit write_fault trace].
  destruct (write_fault w) as [[e remains]|]; reflexivity.
Qed.

(** ** N calls *)









(** ** The sample text and the date fallback *)

(** C1: on the sample text the record has TestDate "2025-09-14", TestType
    "Blood", Result "Negative" and Notes "Random test", but the Name and
    Department groups [[A-Za-z\s]+] run on to the next colon: Name is
    "Peter Brifon Department" and Department is "IT TestDate". *)
Theorem sample_record :
  parse_fields sample
  = Ok [("EmployeeID", None);
        ("Name", Some (str "Peter Brifon Department"));
        ("Department", Some (str "IT TestDate"));
        ("TestDate", Some (str "2025-09-14"));
        ("TestType", Some (str "Blood"));
        ("Result", Some (str "Negative"));
        ("Notes", Some (str "Random test"))]%string.
Proof. vm_compute. reflexivity. Qed.

(** C2: the date 13/45/2025 is not a calendar date; the [try] block
    clears it without raising, but the fallback then finds the same
    characters again and stores them as they are, so the final TestDate
    is "13/45/2025" and not empty. *)
Theorem invalid_date_comes_back :
  normalize_date (str "13/45/2025") = Ok None
  /\ parse_fields (str "Name: Bob TestType: Blood TestDate: 13/45/2025")
     = Ok [("EmployeeID", None);
           ("Name", Some (str "Bob TestType"));
           ("Department", None);
           ("TestDate", Some (str "13/45/2025"));
           ("TestType", Some (str "Blood"));
           ("Result", None);
           ("Notes", None)]%string.
Proof. split; vm_compute; reflexivity. Qed.

(** C5: a date that only the fallback finds is returned as it was
    written, "9/14/2025", not as "2025-09-14". *)
Theorem fallback_date_is_raw :
  parse_fields (str "Name Bob Blood 9/14/2025")
  = Ok [("EmployeeID", None);
        ("Name", Some (str "Bob Blood"));
        ("Department", None);
        ("TestDate", Some (str "9/14/2025"));
        ("TestType", Some (str "Blood"));
        ("Result", None);
        ("Notes", None)]%string.
Proof. vm_compute. reflexivity. Qed.

(** ** Instances *)

(** Seven digits after the label, and seven digits with no label. *)
Lemma employee_id_first_six_witness :
  (exists fields, extract_fields (str "EmployeeID: 1234567 Name: Bob") = Ok fields
                  /\ field "EmployeeID" fields = Some (str "123456"))
  /\ (exists fields, extract_fields (str "Badge 7654321") = Ok fields
                     /\ field "EmployeeID" fields = Some (str "765432")).
Proof.
  split.
  - destruct (proj1 employee_id_first_six (str "EmployeeID: 1234567 Name: Bob")
                [] (str "EmployeeID") (str ": ") (str "1234567") (str " Name: Bob"))
      as (fields & Hx & He & _); try reflexivity; [simpl; lia|].
    exists fields. split; [exact Hx|exact He].
  - destruct (proj2 employee_id_first_six (str "Badge 7654321")
                (str "Badge ") (str "7654321") [])
      as (fields & Hx & He & _); try reflexivity; [simpl; lia|].
    exists fields. split; [exact Hx|exact He].
Defined.

Lemma vocabulary_casing_witness :
  exists fields,
    extract_fields (str "hair sample, result: POSITIVE") = Ok fields
    /\ field "TestType" fields = Some (str "Hair")
    /\ In (str "Hair") test_type_words
    /\ field "Result" fields = Some (str "POSITIVE").
Proof.
  destruct (extract_fields (str "hair sample, result: POSITIVE")) as [fields|] eqn:E;
    [|vm_compute in E; discriminate].
  destruct (proj1 vocabulary_casing (str "hair sample, result: POSITIVE") fields E)
    as (Hty & _ & _ & Hres).
  exists fields. split; [reflexivity|].
  specialize (Hty ltac:(vm_compute; reflexivity)).
  destruct (search true test_types (apply_corrections (str "hair sample, result: POSITIVE")))
    as [m|] eqn:Em; [|vm_compute in Em; discriminate].
  destruct Hty as (-> & _ & Hword).
  vm_compute in Em. injection Em as <-.
  split; [reflexivity|]. split; [exact (Hword eq_refl)|].
  destruct (search true (pattern_of "Result")
              (apply_corrections (str "hair sample, result: POSITIVE")))
    as [m|] eqn:Em; [|vm_compute in Em; discriminate].
  destruct (Hres m eq_refl) as (g & Hg & _ & ->).
  vm_compute in Em. injection Em as <-. injection Hg as <-. reflexivity.
Defined.

Lemma reconstruct_order_witness :
  let f50 := Ocr.mkFragment (5, 50)%Z (40, 50)%Z (40, 60)%Z (5, 60)%Z (str "Blood") in
  let f10 := Ocr.mkFragment (5, 10)%Z (40, 10)%Z (40, 20)%Z (5, 20)%Z (str "Name:") in
  let f30 := Ocr.mkFragment (5, 30)%Z (40, 30)%Z (40, 40)%Z (5, 40)%Z (str "Bob") in
  Ocr.reconstruct [f50; f10; f30] = str "Name: Bob Blood".
Proof.
  intros f50 f10 f30.
  destruct (reconstruct_order [f50; f10; f30]) as [_ H].
  rewrite (H f50 f10 f30 eq_refl eq_refl eq_refl). reflexivity.
Defined.

(** * Further properties *)

(** ** The correction table on a text it does not apply to *)

Lemma replace_from_absent old new s :
  (forall j, j <= length s -> Py.starts_with old (skipn j s) = false) ->
  Py.replace_from old new s 0 = s.
Proof.
  induction s as [|c s IH]; intros H; [reflexivity|].
  pose proof (H 0 (Nat.le_0_l _)) as H0. cbn [skipn] in H0.
  cbn [Py.replace_from]. rewrite H0. f_equal.
  apply IH. intros j Hj. apply (H (S j)). simpl. lia.
Qed.

Lemma occurs_false old t :
  occurs old t = false ->
  forall j, j <= length t -> Py.starts_with old (skipn j t) = false.
Proof.
  unfold occurs. intros H j Hj.
  destruct (Py.starts_with old (skipn j t)) eqn:E; [|reflexivity].
  rewrite <- H. symmetry. apply existsb_exists. exists j. split; [|exact E].
  apply in_seq. lia.
Qed.

Lemma replace_absent old new t :
  old <> [] -> occurs old t = false -> Py.replace old new t = t.
Proof.
  intros Hne H. destruct old as [|a old]; [contradiction|].
  unfold Py.replace. apply replace_from_absent. now apply occurs_false.
Qed.

(** X1: a text in which none of the thirteen misread strings occurs
    leaves the correction step as it entered it. *)
Theorem corrections_leave_clean_text (t : text) :
  forallb (fun on => negb (occurs (fst on) t)) corrections = true ->
  apply_corrections t = t.
Proof.
  unfold apply_corrections.
  assert (Hne : Forall (fun on : text * text => fst on <> []) corrections)
    by (repeat constructor; discriminate).
  induction Hne as [|[old new] cs Hold _ IH]; intros H; [reflexivity|].
  cbn [forallb fst] in H. apply andb_prop in H. destruct H as [H1 H2].
  cbn [fold_left]. rewrite replace_absent; auto.
  now apply negb_true_iff.
Qed.

Lemma corrections_leave_clean_text_witness :
  apply_corrections (str "Name: Ann TestDate: 1/2/2024 TestType: Hair")
  = str "Name: Ann TestDate: 1/2/2024 TestType: Hair".
Proof. apply corrections_leave_clean_text. vm_compute. reflexivity. Defined.

(** ** [re.search] fails only when no position matches *)

Lemma search_none ic r s :
  search ic r s = None ->
  forall j, j <= length s -> match_here ic r (skipn j s) = None.
Proof.
  induction s as [|c s IH]; simpl.
  - destruct (match_here ic r []) eqn:E; [discriminate|].
    intros _ [|j] Hj; [exact E|lia].
  - destruct (match_here ic r (c :: s)) eqn:E; [discriminate|].
    intros H [|j] Hj; [exact E|]. apply IH; [exact H|lia].
Qed.

Lemma search_finds ic r s j m :
  j <= length s -> match_here ic r (skipn j s) = Some m ->
  exists m', search ic r s = Some m'.
Proof.
  intros Hj Hm. destruct (search ic r s) as [m'|] eqn:E; [eauto|].
  rewrite (search_none _ _ _ E j Hj) in Hm. discriminate.
Qed.

Lemma search_of_suffix ic r s0 s m :
  is_suffix s0 s -> match_here ic r s0 = Some m ->
  exists m', search ic r s = Some m'.
Proof.
  intros [p ->] Hm. apply (search_finds ic r (p ++ s0) (length p) m).
  - rewrite length_app. lia.
  - now rewrite skipn_app, skipn_all, Nat.sub_diag.
Qed.

(** ** EmployeeID is six digits of the text, or nothing *)

Lemma in_digit_ignorecase c : in_cset true digit c = Py.isdigit c.
Proof. each_char c; vm_compute; reflexivity. Qed.

Lemma firstn_six (s : text) :
  6 <= length s -> firstn (length s - length (skipn 6 s)) s = firstn 6 s.
Proof. intros H. rewrite length_skipn. f_equal. lia. Qed.

Lemma six_digits_match s :
  match_here false (times digit 6 6) s
  = if six_digits s then Some (mkMatch (firstn 6 s) None) else None.
Proof.
  unfold match_here, times, six_digits. cbn [run]. rewrite rep_exact.
  rewrite (forallb_eq _ Py.isdigit) by apply in_digit_digit.
  destruct (6 <=? length s) eqn:E; [|reflexivity]. cbn [andb].
  destruct (forallb Py.isdigit (firstn 6 s)); [|reflexivity].
  rewrite firstn_six by now apply Nat.leb_le. reflexivity.
Qed.

Lemma six_digits_substring g t :
  is_substring g t -> length g = 6 -> forallb Py.isdigit g = true ->
  has_six_digits t = true.
Proof.
  intros (p & q & ->) Hlen Hd. unfold has_six_digits.
  apply existsb_exists. exists (length p). split.
  - apply in_seq. rewrite length_app. lia.
  - rewrite skipn_app, skipn_all, Nat.sub_diag. cbn [skipn app].
    unfold six_digits. rewrite firstn_app, Hlen, Nat.sub_diag.
    rewrite firstn_all2 by lia. cbn [firstn]. rewrite app_nil_r, Hd.
    rewrite length_app, Hlen. reflexivity.
Qed.

Lemma firstn_six_digits s :
  six_digits s = true ->
  length (firstn 6 s) = 6 /\ forallb Py.isdigit (firstn 6 s) = true.
Proof.
  unfold six_digits. intros H. apply andb_prop in H. destruct H as [H1 H2].
  apply Nat.leb_le in H1. split; [|exact H2]. rewrite length_firstn. lia.
Qed.

Lemma primary_EmployeeID_group s m :
  match_here true (pattern_of "EmployeeID") s = Some m ->
  exists g, group1 m = Some g /\ length g = 6 /\ forallb Py.isdigit g = true.
Proof.
  unfold match_here.
  change (pattern_of "EmployeeID")
    with (Str "EmployeeID" <.> star colon_space <.> Group (times digit 6 6))%re.
  cbn [run star times].
  destruct (eat true (str "EmployeeID") s) as [s1|]; [|discriminate].
  intros H. apply rep_consumes in H. destruct H as (w & s2 & _ & _ & _ & H).
  rewrite rep_exact in H.
  rewrite (forallb_eq _ Py.isdigit) in H by apply in_digit_ignorecase.
  fold (six_digits s2) in H. destruct (six_digits s2) eqn:E; [|discriminate].
  injection H as <-. cbn [group1]. eexists. split; [reflexivity|].
  destruct (firstn_six_digits _ E) as [H1 H2].
  rewrite firstn_six; [auto|].
  unfold six_digits in E. apply andb_prop in E. now apply Nat.leb_le.
Qed.

Lemma employee_id_value (t : text) (fields : dict) :
  extract_fields t = Ok fields ->
  if has_six_digits (apply_corrections t)
  then exists d, field "EmployeeID" fields = Some d
                 /\ length d = 6 /\ forallb Py.isdigit d = true
                 /\ is_substring d (apply_corrections t)
  else field "EmployeeID" fields = None.
Proof.
  intros Hx. destruct (extract_fields_final t) as (f & Hf & _ & He & _).
  rewrite Hx in Hf. injection Hf as <-. rewrite He. clear He Hx.
  set (t' := apply_corrections t).
  unfold final_value, primary_action. cbn [fst snd].
  destruct (search true (pattern_of "EmployeeID") t') as [m|] eqn:Ep.
  - destruct (search_inv _ _ _ _ Ep) as (s0 & Hs0 & Hh).
    destruct (primary_EmployeeID_group _ _ Hh) as (g & Hg & Hlen & Hd).
    assert (Hsub : is_substring g t').
    { assert (Hb : binds (pattern_of "EmployeeID") = true) by reflexivity.
      destruct (search_group1 _ _ _ _ Hb Ep) as (g' & Hg' & Hsub). congruence. }
    rewrite (six_digits_substring g t' Hsub Hlen Hd).
    unfold group1_strip. rewrite Hg. cbn [bind String.eqb Ascii.eqb Bool.eqb].
    rewrite strip_id
      by (revert Hd; apply forallb_impl; intros a Ha; now rewrite digit_not_space).
    exists g. unfold fallback_action.
    destruct g; [discriminate|]. cbn [truthy negb]. auto.
  - unfold found_EmployeeID, fallback_action. cbn [truthy negb].
    destruct (search false (times digit 6 6) t') as [m|] eqn:Ef.
    + destruct (search_inv _ _ _ _ Ef) as (s0 & Hs0 & Hh).
      rewrite six_digits_match in Hh.
      destruct (six_digits s0) eqn:E6; [|discriminate]. injection Hh as <-.
      destruct (firstn_six_digits _ E6) as [Hlen Hd].
      assert (Hsub : is_substring (firstn 6 s0) t') by now apply firstn_is_substring.
      rewrite (six_digits_substring _ t' Hsub Hlen Hd).
      cbn [option_map group0]. eauto.
    + destruct (has_six_digits t') eqn:E6; [|reflexivity].
      unfold has_six_digits in E6. apply existsb_exists in E6.
      destruct E6 as (j & Hj & E6). apply in_seq in Hj.
      pose proof (search_none _ _ _ Ef j ltac:(lia)) as Hn.
      rewrite six_digits_match, E6 in Hn. discriminate.
Qed.

(** X4: EmployeeID is never anything but six digits that stand together in
    the corrected text, and it is empty exactly when the text has no six
    digits in a row. *)
Theorem employee_id_is_six_digits (t : text) :
  exists fields,
    extract_fields t = Ok fields
    /\ if has_six_digits (apply_corrections t)
       then exists d, field "EmployeeID" fields = Some d
                      /\ length d = 6 /\ forallb Py.isdigit d = true
                      /\ is_substring d (apply_corrections t)
       else field "EmployeeID" fields = None.
Proof.
  destruct (extract_fields_final t) as (f & Hf & _).
  exists f. split; [exact Hf|]. now apply employee_id_value.
Qed.

(** ** The date branch *)

Lemma split_from_part sep d rest cur :
  forallb (fun c => negb (Ascii.eqb c sep)) d = true ->
  Py.split_from sep (d ++ rest) cur = Py.split_from sep rest (rev d ++ cur).
Proof.
  revert cur. induction d as [|c d IH]; intros cur H; [reflexivity|].
  cbn [forallb] in H. apply andb_prop in H. destruct H as [Hc Hd].
  apply negb_true_iff in Hc. cbn [app Py.split_from]. rewrite Hc, IH by exact Hd.
  cbn [rev]. now rewrite <- app_assoc.
Qed.

Lemma digit_not_slash c : Py.isdigit c = true -> negb (Ascii.eqb c "/") = true.
Proof. each_char c; vm_compute; intros H; solve [reflexivity | discriminate H]. Qed.

Lemma split_date d1 d2 d3 :
  forallb Py.isdigit (d1 ++ d2 ++ d3) = true ->
  Py.split "/" (d1 ++ str "/" ++ d2 ++ str "/" ++ d3) = [d1; d2; d3].
Proof.
  rewrite !forallb_app. intros H. apply andb_prop in H. destruct H as [H1 H].
  apply andb_prop in H. destruct H as [H2 H3].
  assert (Hs : forall d, forallb Py.isdigit d = true ->
                 forallb (fun c => negb (Ascii.eqb c "/")) d = true).
  { intros d. apply forallb_impl. apply digit_not_slash. }
  unfold Py.split. rewrite split_from_part by auto.
  cbn [str list_ascii_of_string app Py.split_from Ascii.eqb Bool.eqb].
  rewrite app_nil_r, rev_involutive. f_equal.
  rewrite split_from_part by auto.
  cbn [app Py.split_from Ascii.eqb Bool.eqb].
  rewrite app_nil_r, rev_involutive. f_equal.
  rewrite <- (app_nil_r d3) at 1. rewrite split_from_part by auto.
  cbn [Py.split_from]. now rewrite app_nil_r, rev_involutive.
Qed.

Lemma digits_value_number s : forall acc after,
  forallb Py.isdigit s = true -> (s <> [] \/ after = true) ->
  Date.digits_value s acc after
  = Some (fold_left (fun acc c => (10 * acc + Date.digit_value c)%Z) s acc).
Proof.
  induction s as [|c s IH]; intros acc after Hd Hne.
  - destruct Hne as [Hne| ->]; [contradiction|reflexivity].
  - cbn [forallb] in Hd. apply andb_prop in Hd. destruct Hd as [Hc Hd].
    cbn [Date.digits_value fold_left]. rewrite Hc. apply IH; auto.
Qed.

Lemma digit_no_sign c :
  Py.isdigit c = true -> Ascii.eqb c "-" = false /\ Ascii.eqb c "+" = false.
Proof. each_char c; vm_compute; intros H; solve [auto | discriminate H]. Qed.

(** [int] of a non-empty string of digits. *)
Lemma int_digits s :
  s <> [] -> forallb Py.isdigit s = true -> Date.int s = Ok (number s).
Proof.
  intros Hne Hd. unfold Date.int.
  rewrite strip_id
    by (revert Hd; apply forallb_impl; intros a Ha; now rewrite digit_not_space).
  destruct s as [|c s]; [contradiction|].
  pose proof Hd as Hd'. cbn [forallb] in Hd'. apply andb_prop in Hd'.
  destruct Hd' as [Hc _]. destruct (digit_no_sign c Hc) as [-> ->].
  now rewrite digits_value_number by auto.
Qed.

Lemma digit_value_range c :
  Py.isdigit c = true -> (0 <= Date.digit_value c <= 9)%Z.
Proof. each_char c; vm_compute; intros H; solve [split; discriminate | discriminate H]. Qed.

Lemma number_range s :
  forallb Py.isdigit s = true ->
  (length s <= 2 -> (0 <= number s < 100)%Z)
  /\ (length s = 4 -> (0 <= number s < 10000)%Z).
Proof.
  intros Hd.
  assert (Hr : forall c, In c s -> (0 <= Date.digit_value c <= 9)%Z).
  { intros c Hc. apply digit_value_range. rewrite forallb_forall in Hd. auto. }
  destruct s as [|a [|b [|c [|d [|e s]]]]]; unfold number; cbn [fold_left length];
    split; intros Hl; try (simpl in Hl; lia).
  - pose proof (Hr a ltac:(simpl; auto)). lia.
  - pose proof (Hr a ltac:(simpl; auto)). pose proof (Hr b ltac:(simpl; auto)). lia.
  - pose proof (Hr a ltac:(simpl; auto)). pose proof (Hr b ltac:(simpl; auto)).
    pose proof (Hr c ltac:(simpl; auto)). pose proof (Hr d ltac:(simpl; auto)). lia.
Qed.

Lemma below_checked (p : Z -> bool) (n : Z) :
  forallb (fun k => p (Z.of_nat k)) (seq 0 (Z.to_nat n)) = true ->
  forall z, (0 <= z < n)%Z -> p z = true.
Proof.
  intros H z Hz. rewrite forallb_forall in H.
  rewrite <- (Z2Nat.id z) by lia. apply H. apply in_seq. lia.
Qed.

Lemma years_ok y : (0 <= y < 10000)%Z -> year_ok y = true.
Proof. apply (below_checked year_ok 10000%Z). vm_compute. reflexivity. Qed.

Lemma months_days_ok m d :
  (0 <= m < 100)%Z -> (0 <= d < 100)%Z -> month_day_ok m d = true.
Proof.
  intros Hm Hd.
  apply (below_checked (fun d => month_day_ok m d) 100%Z); [|exact Hd].
  apply (below_checked
           (fun m => forallb (fun k => month_day_ok m (Z.of_nat k))
                       (seq 0 (Z.to_nat 100))) 100%Z);
    [|exact Hm].
  vm_compute. reflexivity.
Qed.

Lemma date_parts_inv d1 d2 d3 :
  date_parts d1 d2 d3 = true ->
  forallb Py.isdigit d1 = true /\ forallb Py.isdigit d2 = true
  /\ forallb Py.isdigit d3 = true
  /\ 1 <= length d1 <= 2 /\ 1 <= length d2 <= 2 /\ length d3 = 4.
Proof.
  unfold date_parts. rewrite !forallb_app, !andb_true_iff, !Nat.leb_le, Nat.eqb_eq.
  tauto.
Qed.

(** What [strptime] makes of a formatted date. *)
Lemma strptime_iso y m d :
  (0 <= y < 10000)%Z -> (0 <= m < 100)%Z -> (0 <= d < 100)%Z ->
  (if Date.valid_date y m d
   then Date.strptime_Ymd (iso y m d) = Ok (y, m, d) /\ is_iso_date (iso y m d) = true
   else exists msg, Date.strptime_Ymd (iso y m d) = Raise (ValueError msg)).
Proof.
  intros Hy Hm Hd. pose proof (years_ok y Hy) as Y.
  pose proof (months_days_ok m d Hm Hd) as MD.
  unfold iso. unfold year_ok in Y. unfold month_day_ok in MD.
  destruct (Date.format_0d 4 y) as [|c1 [|c2 [|c3 [|c4 [|]]]]]; try discriminate.
  destruct (Date.format_0d 2 m) as [|a [|b [|]]]; try discriminate.
  destruct (Date.format_0d 2 d) as [|c [|e [|]]]; try discriminate.
  apply andb_prop in Y. destruct Y as [Yd Yn]. apply Z.eqb_eq in Yn.
  rewrite !andb_true_iff in MD. destruct MD as [[[MDd Mn] Dn] MD].
  apply Z.eqb_eq in Mn. apply Z.eqb_eq in Dn.
  assert (Hyear : (100 * Date.two_digits c1 c2 + Date.two_digits c3 c4)%Z = y).
  { rewrite <- Yn. unfold number, Date.two_digits. cbn [fold_left]. lia. }
  assert (Hrange : Date.valid_date y m d = true -> in_month_day_range m d = true).
  { unfold Date.valid_date, in_month_day_range, Date.days_in_month.
    rewrite !andb_true_iff, !Z.leb_le.
    destruct (m =? 2)%Z; [destruct (Date.is_leap y)|destruct (_ || _)]; lia. }
  unfold Date.strptime_Ymd, is_iso_date.
  cbn [app str list_ascii_of_string] in MD |- *.
  rewrite Yd. cbn [andb Ascii.eqb Bool.eqb].
  destruct (Date.month_then_day _) as [[[m' d'] [|r rs]]|].
  - destruct (in_month_day_range m d) eqn:R; [|cbn in MD; discriminate].
    cbn [andb] in MD. apply andb_prop in MD. destruct MD as [Em Ed].
    apply Z.eqb_eq in Em. apply Z.eqb_eq in Ed. subst m' d'. rewrite Hyear.
    destruct (Date.valid_date y m d) eqn:V; [|eauto].
    split; [reflexivity|].
    cbn [forallb] in Yd, MDd |- *.
    rewrite !andb_true_iff in Yd, MDd.
    destruct Yd as (-> & -> & -> & -> & _). destruct MDd as (-> & -> & -> & -> & _).
    cbn [andb]. now rewrite Yn, Mn, Dn.
  - destruct (Date.valid_date y m d) eqn:V; [|eauto].
    rewrite (Hrange eq_refl) in MD. discriminate.
  - destruct (Date.valid_date y m d) eqn:V; [|eauto].
    rewrite (Hrange eq_refl) in MD. discriminate.
Qed.

Lemma normalize_date_parts (d1 d2 d3 : text) :
  date_parts d1 d2 d3 = true ->
  let y := number d3 in
  let m := number d1 in
  let d := number d2 in
  normalize_date (d1 ++ str "/" ++ d2 ++ str "/" ++ d3)
  = Ok (if Date.valid_date y m d then Some (iso y m d) else None)
  /\ (Date.valid_date y m d = true -> is_iso_date (iso y m d) = true).
Proof.
  intros Hp y m d. destruct (date_parts_inv _ _ _ Hp) as (H1 & H2 & H3 & L1 & L2 & L3).
  assert (Hy : (0 <= y < 10000)%Z) by (apply (number_range d3 H3); exact L3).
  assert (Hm : (0 <= m < 100)%Z) by (apply (number_range d1 H1); lia).
  assert (Hd : (0 <= d < 100)%Z) by (apply (number_range d2 H2); lia).
  pose proof (strptime_iso y m d Hy Hm Hd) as S.
  split.
  - unfold normalize_date. rewrite split_date
      by (rewrite !forallb_app, H1, H2, H3; reflexivity).
    unfold unpack_date.
    rewrite !int_digits by (auto; intros ->; simpl in *; lia).
    cbn [bind]. fold y m d. fold (iso y m d).
    destruct (Date.valid_date y m d).
    + destruct S as [-> _]. reflexivity.
    + destruct S as [msg ->]. reflexivity.
  - intros V. rewrite V in S. tauto.
Qed.

(** X2: on a value "M/D/YYYY" (one or two digits, one or two digits, four
    digits) the [try] block never raises: it gives the date written
    [YYYY-MM-DD], with month and day padded to two digits, when that day
    exists in the calendar (year 1 or later), and [None] otherwise. *)
Theorem date_branch (d1 d2 d3 : text) :
  date_parts d1 d2 d3 = true ->
  let y := number d3 in
  let m := number d1 in
  let d := number d2 in
  normalize_date (d1 ++ str "/" ++ d2 ++ str "/" ++ d3)
  = Ok (if Date.valid_date y m d then Some (iso y m d) else None)
  /\ (Date.valid_date y m d = true -> is_iso_date (iso y m d) = true).
Proof. exact (normalize_date_parts d1 d2 d3). Qed.

Lemma date_branch_witness :
  normalize_date (str "2/29/2024") = Ok (Some (str "2024-02-29"))
  /\ normalize_date (str "2/29/2023") = Ok None.
Proof.
  split.
  - exact (proj1 (date_branch (str "2") (str "29") (str "2024") eq_refl)).
  - exact (proj1 (date_branch (str "2") (str "29") (str "2023") eq_refl)).
Defined.

(** ** Bounded quantifiers *)

Lemma rep_bounded {R} ic cs gr (k : text -> option R) s :
  forall lo hi x, rep ic cs lo hi gr k s = Some x ->
  exists w s', s = w ++ s' /\ forallb (in_cset ic cs) w = true
               /\ lo <= length w /\ (forall h, hi = Some h -> length w <= h)
               /\ k s' = Some x.
Proof.
  induction s as [|c s IH]; intros lo hi x; simpl.
  - destruct lo; [|discriminate]. intros H. exists [], [].
    repeat split; auto. intros h _. simpl. lia.
  - assert (Hstop : match lo with O => k (c :: s) | S _ => None end = Some x ->
                    exists w s', c :: s = w ++ s' /\ forallb (in_cset ic cs) w = true
                                 /\ lo <= length w
                                 /\ (forall h, hi = Some h -> length w <= h)
                                 /\ k s' = Some x).
    { destruct lo; [|discriminate]. intros H. exists [], (c :: s).
      repeat split; auto. intros h _. simpl. lia. }
    destruct (may_repeat hi && in_cset ic cs c) eqn:Hc; [|exact Hstop].
    apply andb_prop in Hc. destruct Hc as [Hm Hc].
    assert (Hmore : rep ic cs (pred lo) (one_less hi) gr k s = Some x ->
                    exists w s', c :: s = w ++ s' /\ forallb (in_cset ic cs) w = true
                                 /\ lo <= length w
                                 /\ (forall h, hi = Some h -> length w <= h)
                                 /\ k s' = Some x).
    { intros H. destruct (IH _ _ _ H) as (w & s' & -> & Hw & Hlo & Hhi & Hk).
      exists (c :: w), s'. simpl. rewrite Hc, Hw. repeat split; auto; [lia|].
      intros h ->. destruct h as [|h]; [discriminate|].
      specialize (Hhi h eq_refl). lia. }
    destruct gr.
    + destruct (rep ic cs (pred lo) (one_less hi) true k s) eqn:E.
      * intros [= ->]. now apply Hmore.
      * exact Hstop.
    + destruct (match lo with O => k (c :: s) | S _ => None end) eqn:E.
      * intros [= ->]. now apply Hstop.
      * exact Hmore.
Qed.

(** A greedy quantifier takes a whole run that ends before a character
    outside the set. *)
Lemma rep_greedy_run {R} ic cs (k : text -> option R) w rest x :
  forall lo hi,
  forallb (in_cset ic cs) w = true ->
  lo <= length w -> (forall h, hi = Some h -> length w <= h) ->
  match rest with c :: _ => in_cset ic cs c = false | [] => True end ->
  k rest = Some x ->
  rep ic cs lo hi true k (w ++ rest) = Some x.
Proof.
  induction w as [|a w IH]; intros lo hi Hw Hlo Hhi Hrest Hk.
  - simpl in Hlo. assert (lo = 0) by lia. subst lo.
    destruct rest as [|c rest]; simpl; [exact Hk|].
    now rewrite Hrest, andb_false_r.
  - cbn [forallb] in Hw. apply andb_prop in Hw. destruct Hw as [Ha Hw].
    cbn [app rep]. rewrite Ha.
    assert (Hm : may_repeat hi = true).
    { destruct hi as [[|h]|]; try reflexivity.
      specialize (Hhi 0 eq_refl). simpl in Hhi. lia. }
    rewrite Hm. cbn [andb].
    rewrite (IH (pred lo) (one_less hi)); auto.
    + simpl in Hlo. lia.
    + intros h Hh. destruct hi as [h0|]; [|discriminate]. cbn in Hh.
      injection Hh as <-. specialize (Hhi h0 eq_refl). simpl in Hhi. lia.
Qed.

Lemma in_digit_any ic c : in_cset ic digit c = Py.isdigit c.
Proof. destruct ic; [apply in_digit_ignorecase|apply in_digit_digit]. Qed.

Lemma eat_slash ic s s' : eat ic (str "/") s = Some s' -> s = "/"%char :: s'.
Proof.
  cbn [str list_ascii_of_string eat]. destruct s as [|c s]; [discriminate|].
  destruct (char_eq ic "/" c) eqn:E; [|discriminate]. intros [= ->]. f_equal.
  revert E. destruct ic; each_char c; vm_compute; intros H;
    solve [reflexivity | discriminate H].
Qed.

Lemma eat_slash_here ic s : eat ic (str "/") ("/"%char :: s) = Some s.
Proof. destruct ic; reflexivity. Qed.

(** ** The date pattern and the date-shaped pieces of the text *)

Lemma date_shape_run ic R (k : text -> option text -> option R) s g x :
  run ic date_shape R k s g = Some x ->
  exists d1 d2 d3 s',
    s = raw_date d1 d2 d3 ++ s' /\ date_parts d1 d2 d3 = true /\ k s' g = Some x.
Proof.
  unfold date_shape, times. cbn [run]. intros H.
  apply rep_bounded in H. destruct H as (d1 & s1 & -> & D1 & L1 & U1 & H).
  destruct (eat ic (str "/") s1) as [s1'|] eqn:E1; [|discriminate].
  apply eat_slash in E1. subst s1.
  apply rep_bounded in H. destruct H as (d2 & s2 & -> & D2 & L2 & U2 & H).
  destruct (eat ic (str "/") s2) as [s2'|] eqn:E2; [|discriminate].
  apply eat_slash in E2. subst s2.
  rewrite rep_exact in H.
  destruct ((4 <=? length s2') && forallb (in_cset ic digit) (firstn 4 s2')) eqn:C;
    [|discriminate].
  apply andb_prop in C. destruct C as [C1 C2]. apply Nat.leb_le in C1.
  exists d1, d2, (firstn 4 s2'), (skipn 4 s2'). split; [|split; [|exact H]].
  - unfold raw_date. cbn [str list_ascii_of_string].
    rewrite <- !app_assoc. cbn [app]. now rewrite firstn_skipn.
  - unfold date_parts. rewrite !forallb_app.
    rewrite (forallb_eq _ _ _ (in_digit_any ic)) in D1.
    rewrite (forallb_eq _ _ _ (in_digit_any ic)) in D2.
    rewrite (forallb_eq _ _ _ (in_digit_any ic)) in C2.
    rewrite D1, D2, C2. specialize (U1 2 eq_refl). specialize (U2 2 eq_refl).
    rewrite length_firstn, Nat.min_l by lia. cbn [andb].
    rewrite !andb_true_iff, !Nat.leb_le, Nat.eqb_eq. lia.
Qed.

Lemma date_shape_match ic R (k : text -> option text -> option R) d1 d2 d3 post g x :
  date_parts d1 d2 d3 = true ->
  k post g = Some x ->
  run ic date_shape R k (raw_date d1 d2 d3 ++ post) g = Some x.
Proof.
  intros Hp Hk. destruct (date_parts_inv _ _ _ Hp) as (H1 & H2 & H3 & L1 & L2 & L3).
  assert (Hin : forall d, forallb Py.isdigit d = true ->
                  forallb (in_cset ic digit) d = true).
  { intros d Hd. now rewrite (forallb_eq _ _ _ (in_digit_any ic)). }
  assert (Hslash : in_cset ic digit "/" = false) by (destruct ic; reflexivity).
  unfold date_shape, times, raw_date. cbn [run str list_ascii_of_string].
  rewrite <- !app_assoc. cbn [app].
  apply rep_greedy_run; auto; try lia; [intros h [= <-]; lia|].
  rewrite eat_slash_here.
  apply rep_greedy_run; auto; try lia; [intros h [= <-]; lia|].
  rewrite eat_slash_here, rep_exact.
  rewrite firstn_app, L3, Nat.sub_diag, firstn_all2 by lia.
  cbn [firstn]. rewrite app_nil_r, (Hin d3 H3), length_app, L3. cbn [Nat.leb andb].
  rewrite skipn_app, skipn_all2, L3, Nat.sub_diag by lia. exact Hk.
Qed.

(** The match of [(\d{1,2}/\d{1,2}/\d{4})] at a date-shaped piece, and
    what any match of it covers. *)
Lemma date_group_here ic d1 d2 d3 post :
  date_parts d1 d2 d3 = true ->
  match_here ic (Group date_shape) (raw_date d1 d2 d3 ++ post)
  = Some (mkMatch (raw_date d1 d2 d3) (Some (raw_date d1 d2 d3))).
Proof.
  intros Hp. unfold match_here. cbn [run].
  erewrite date_shape_match; [reflexivity|exact Hp|].
  now rewrite !firstn_consumed.
Qed.

Lemma date_group_inv ic s m :
  match_here ic (Group date_shape) s = Some m ->
  exists d1 d2 d3, date_parts d1 d2 d3 = true
                   /\ group0 m = raw_date d1 d2 d3
                   /\ is_substring (raw_date d1 d2 d3) s.
Proof.
  unfold match_here. cbn [run]. intros H.
  apply date_shape_run in H. destruct H as (d1 & d2 & d3 & s' & -> & Hp & H).
  rewrite !firstn_consumed in H. injection H as <-.
  exists d1, d2, d3. repeat split; auto. exists [], s'. reflexivity.
Qed.

Lemma has_date_found t :
  has_date t -> exists m, search false (Group date_shape) t = Some m.
Proof.
  intros (d1 & d2 & d3 & Hp & p & q & ->).
  apply (search_of_suffix false _ (raw_date d1 d2 d3 ++ q) _
           (mkMatch (raw_date d1 d2 d3) (Some (raw_date d1 d2 d3)))).
  - now exists p.
  - now apply date_group_here.
Qed.

Lemma found_date_shape t m :
  search false (Group date_shape) t = Some m ->
  exists d1 d2 d3, date_parts d1 d2 d3 = true
                   /\ group0 m = raw_date d1 d2 d3
                   /\ is_substring (raw_date d1 d2 d3) t.
Proof.
  intros H. destruct (search_inv _ _ _ _ H) as (s0 & Hs & Hm).
  destruct (date_group_inv _ _ _ Hm) as (d1 & d2 & d3 & Hp & Hg & Hsub).
  exists d1, d2, d3. repeat split; auto. eapply is_substring_suffix; eauto.
Qed.

(** After the label and the separators of a primary pattern. *)
Lemma labelled_run label inner R (k : text -> option text -> option R) s x :
  run true (label <.> star colon_space <.> inner) R k s None = Some x ->
  exists s2 g, is_suffix s2 s /\ run true inner R k s2 g = Some x.
Proof.
  unfold star. cbn [run]. intros H.
  apply run_inv in H. destruct H as (s1 & g1 & H & Hs1 & _).
  apply rep_consumes in H. destruct H as (w & s2 & -> & _ & _ & H).
  exists s2, g1. split; [|exact H].
  eapply is_suffix_trans; [|exact Hs1]. now exists w.
Qed.

(** The group of the labelled date pattern. *)
Lemma primary_date_group t m :
  search true (pattern_of "TestDate") t = Some m ->
  exists d1 d2 d3, date_parts d1 d2 d3 = true
                   /\ group1 m = Some (raw_date d1 d2 d3)
                   /\ is_substring (raw_date d1 d2 d3) t.
Proof.
  intros H. destruct (search_inv _ _ _ _ H) as (s0 & Hs0 & Hm).
  unfold match_here in Hm.
  change (pattern_of "TestDate")
    with ((Str "TestDate" <|> Str "9/14/2025") <.> star colon_space
          <.> Group date_shape)%re in Hm.
  apply labelled_run in Hm. destruct Hm as (s2 & g & Hs2 & Hm).
  cbn [run] in Hm.
  apply date_shape_run in Hm. destruct Hm as (d1 & d2 & d3 & s3 & -> & Hp & Hm).
  rewrite firstn_consumed in Hm. injection Hm as <-.
  exists d1, d2, d3. repeat split; auto.
  eapply is_substring_suffix; [exact Hs0|].
  eapply is_substring_suffix; [exact Hs2|].
  exists [], s3. reflexivity.
Qed.

Lemma raw_date_no_space d1 d2 d3 :
  date_parts d1 d2 d3 = true ->
  forallb (fun c => negb (Py.isspace c)) (raw_date d1 d2 d3) = true.
Proof.
  intros Hp. destruct (date_parts_inv _ _ _ Hp) as (H1 & H2 & H3 & _).
  assert (Hd : forall d, forallb Py.isdigit d = true ->
                 forallb (fun c => negb (Py.isspace c)) d = true).
  { intros d. apply forallb_impl. intros a Ha. now rewrite digit_not_space. }
  unfold raw_date. rewrite !forallb_app, (Hd d1 H1), (Hd d2 H2), (Hd d3 H3).
  reflexivity.
Qed.

Lemma raw_date_truthy d1 d2 d3 :
  date_parts d1 d2 d3 = true -> truthy (Some (raw_date d1 d2 d3)) = true.
Proof.
  intros Hp. destruct (date_parts_inv _ _ _ Hp) as (_ & _ & _ & L1 & _).
  destruct d1; [simpl in L1; lia|reflexivity].
Qed.

Lemma test_date_cases (t : text) :
  exists fields,
    extract_fields t = Ok fields
    /\ ((field "TestDate" fields = None /\ ~ has_date (apply_corrections t))
        \/ exists d1 d2 d3,
             date_parts d1 d2 d3 = true
             /\ is_substring (raw_date d1 d2 d3) (apply_corrections t)
             /\ (field "TestDate" fields = Some (raw_date d1 d2 d3)
                 \/ (Date.valid_date (number d3) (number d1) (number d2) = true
                     /\ field "TestDate" fields
                        = Some (iso (number d3) (number d1) (number d2))
                     /\ is_iso_date (iso (number d3) (number d1) (number d2)) = true))).
Proof.
  destruct (extract_fields_final t) as (f & Hf & _ & _ & _ & _ & Hd & _).
  exists f. split; [exact Hf|]. rewrite Hd. clear Hd Hf.
  set (t' := apply_corrections t).
  assert (Hfallback :
    fallback_action (found_TestDate t') None = None /\ ~ has_date t'
    \/ exists d1 d2 d3, date_parts d1 d2 d3 = true
         /\ is_substring (raw_date d1 d2 d3) t'
         /\ fallback_action (found_TestDate t') None = Some (raw_date d1 d2 d3)).
  { unfold found_TestDate, fallback_action. cbn [truthy negb].
    destruct (search false (Group date_shape) t') as [m|] eqn:E.
    - right. destruct (found_date_shape _ _ E) as (d1 & d2 & d3 & Hp & Hg & Hsub).
      exists d1, d2, d3. cbn [option_map]. rewrite Hg. auto.
    - left. split; [reflexivity|]. intros Hh.
      destruct (has_date_found _ Hh) as [m Hm]. congruence. }
  unfold final_value, primary_action. cbn [fst snd].
  destruct (search true (pattern_of "TestDate") t') as [m|] eqn:Ep.
  - destruct (primary_date_group _ _ Ep) as (d1 & d2 & d3 & Hp & Hg & Hsub).
    unfold group1_strip. rewrite Hg. cbn [bind String.eqb Ascii.eqb Bool.eqb].
    rewrite strip_id by now apply raw_date_no_space.
    destruct (normalize_date_parts d1 d2 d3 Hp) as [Hn Hiso]. unfold raw_date. rewrite Hn.
    destruct (Date.valid_date (number d3) (number d1) (number d2)) eqn:V.
    + right. exists d1, d2, d3. split; [exact Hp|]. split; [exact Hsub|]. right.
      split; [exact V|]. split; [|now apply Hiso].
      unfold fallback_action.
      specialize (Hiso eq_refl). destruct (iso _ _ _); [discriminate|reflexivity].
    + destruct Hfallback as [[_ Hno]|(e1 & e2 & e3 & Hq & Hs & Hv)].
      * exfalso. apply Hno. exists d1, d2, d3. auto.
      * right. exists e1, e2, e3. auto.
  - destruct Hfallback as [[Hn Hno]|(e1 & e2 & e3 & Hq & Hs & Hv)]; [left; auto|].
    right. exists e1, e2, e3. auto.
Qed.

(** X3: TestDate is empty exactly when the corrected text has no
    date-shaped piece.  Otherwise it is a date-shaped piece of the text
    as it is written there, or the [YYYY-MM-DD] form of one that is a
    day of the calendar. *)
Theorem test_date_value (t : text) :
  exists fields,
    extract_fields t = Ok fields
    /\ (truthy (field "TestDate" fields) = true <-> has_date (apply_corrections t))
    /\ (field "TestDate" fields = None
        \/ exists d1 d2 d3,
             date_parts d1 d2 d3 = true
             /\ is_substring (raw_date d1 d2 d3) (apply_corrections t)
             /\ (field "TestDate" fields = Some (raw_date d1 d2 d3)
                 \/ (Date.valid_date (number d3) (number d1) (number d2) = true
                     /\ field "TestDate" fields
                        = Some (iso (number d3) (number d1) (number d2))
                     /\ is_iso_date (iso (number d3) (number d1) (number d2)) = true))).
Proof.
  destruct (test_date_cases t) as (f & Hf & H). exists f. split; [exact Hf|].
  destruct H as [[Hn Hno]|(d1 & d2 & d3 & Hp & Hsub & Hv)].
  - split; [|now left]. rewrite Hn. split; [discriminate|contradiction].
  - split; [|right; exists d1, d2, d3; auto].
    split; [intros _; exists d1, d2, d3; auto|]. intros _.
    destruct Hv as [-> |(_ & -> & Hiso)]; [now apply raw_date_truthy|].
    destruct (iso _ _ _); [discriminate|reflexivity].
Qed.

(** ** [strip] *)

Lemma lstrip_head s :
  Py.lstrip s = [] \/ exists c r, Py.lstrip s = c :: r /\ Py.isspace c = false.
Proof.
  induction s as [|c s IH]; [now left|]. simpl.
  destruct (Py.isspace c) eqn:E; [exact IH|]. right. eauto.
Qed.

Lemma lstrip_first c r : Py.isspace c = false -> Py.lstrip (c :: r) = c :: r.
Proof. intros H. simpl. now rewrite H. Qed.

Lemma lstrip_idem s : Py.lstrip (Py.lstrip s) = Py.lstrip s.
Proof.
  destruct (lstrip_head s) as [->|(c & r & -> & Hc)]; [reflexivity|].
  now apply lstrip_first.
Qed.

Lemma lstrip_last u e :
  Py.isspace e = false -> Py.lstrip (u ++ [e]) = Py.lstrip u ++ [e].
Proof.
  intros He. induction u as [|c u IH]; simpl; [now rewrite He|].
  destruct (Py.isspace c); [exact IH|reflexivity].
Qed.

Lemma rstrip_first c r : Py.isspace c = false -> Py.rstrip (c :: r) = c :: Py.rstrip r.
Proof.
  intros H. unfold Py.rstrip. cbn [rev]. rewrite lstrip_last by exact H.
  rewrite rev_app_distr. reflexivity.
Qed.

Lemma rstrip_last u e : Py.isspace e = false -> Py.rstrip (u ++ [e]) = u ++ [e].
Proof.
  intros H. unfold Py.rstrip. rewrite rev_app_distr. cbn [rev app].
  rewrite lstrip_first by exact H. cbn [rev]. now rewrite rev_involutive.
Qed.

Lemma rstrip_idem s : Py.rstrip (Py.rstrip s) = Py.rstrip s.
Proof. unfold Py.rstrip. now rewrite rev_involutive, lstrip_idem. Qed.

(** [s.strip().strip() == s.strip()] *)
Lemma strip_idem s : Py.strip (Py.strip s) = Py.strip s.
Proof.
  unfold Py.strip. destruct (lstrip_head s) as [->|(c & r & -> & Hc)]; [reflexivity|].
  rewrite rstrip_first by exact Hc. rewrite lstrip_first by exact Hc.
  rewrite rstrip_first by exact Hc. now rewrite rstrip_idem.
Qed.

(** A text that neither starts nor ends with white space. *)
Lemma strip_ends c u e r :
  c :: r = u ++ [e] -> Py.isspace c = false -> Py.isspace e = false ->
  Py.strip (c :: r) = c :: r.
Proof.
  intros Hs Hc He. unfold Py.strip. rewrite lstrip_first by exact Hc.
  rewrite Hs. now apply rstrip_last.
Qed.

(** ** What the fallbacks store *)

Lemma upper_ci w p :
  map Py.lower_char w = map Py.lower_char p -> Py.upper w = Py.upper p.
Proof.
  revert p. induction w as [|c w IH]; intros [|a p]; simpl; try discriminate;
    [reflexivity|].
  intros [= Hc Hw]. rewrite (IH p Hw).
  now rewrite <- (upper_of_lower c), Hc, upper_of_lower.
Qed.

Lemma department_here s m :
  match_here true (Group (Str "IT" <|> Str "Dept")) s = Some m ->
  Py.upper (group0 m) = str "IT" \/ Py.upper (group0 m) = str "DEPT".
Proof.
  unfold match_here. cbn [run].
  destruct (eat true (str "IT") s) as [s'|] eqn:E1.
  - intros [= <-]. destruct (eat_inv _ _ _ E1) as (x & -> & Hx).
    cbn [group0]. rewrite firstn_consumed, (upper_ci _ _ Hx). now left.
  - destruct (eat true (str "Dept") s) as [s'|] eqn:E2; [|discriminate].
    intros [= <-]. destruct (eat_inv _ _ _ E2) as (x & -> & Hx).
    cbn [group0]. rewrite firstn_consumed, (upper_ci _ _ Hx). now right.
Qed.

Lemma lower_p_not_space c :
  Py.lower_char c = "p"%char -> Py.isspace c = false.
Proof. each_char c; vm_compute; intros H; solve [reflexivity | discriminate H]. Qed.

Lemma name_here s m :
  match_here true (Group (Str "Peter" <.> star [CSpace] <.> plus letters)) s = Some m ->
  Py.strip (group0 m) = group0 m.
Proof.
  unfold match_here, star, plus. cbn [run].
  destruct (eat true (str "Peter") s) as [s1|] eqn:E; [|discriminate].
  destruct (eat_inv _ _ _ E) as (w0 & -> & Hw0). intros H.
  apply rep_consumes in H. destruct H as (sp & s2 & -> & _ & _ & H).
  apply rep_consumes in H. destruct H as (l & s3 & -> & Hl & Hlen & H).
  injection H as <-. cbn [group0].
  assert (Hg : firstn (length (w0 ++ sp ++ l ++ s3) - length s3) (w0 ++ sp ++ l ++ s3)
               = w0 ++ sp ++ l).
  { rewrite <- (firstn_consumed (w0 ++ sp ++ l) s3). now rewrite <- !app_assoc. }
  rewrite Hg.
  destruct w0 as [|c w0]; [discriminate|]. injection Hw0 as Hc _.
  destruct (exists_last (l := l)) as (l' & e & ->);
    [intros ->; simpl in Hlen; lia|].
  rewrite forallb_app in Hl. apply andb_prop in Hl. destruct Hl as [_ He].
  cbn [forallb] in He. rewrite andb_true_r in He.
  cbn [app]. apply (strip_ends c (c :: w0 ++ sp ++ l') e).
  - cbn [app]. now rewrite <- !app_assoc.
  - now apply lower_p_not_space.
  - now apply letter_not_space.
Qed.

Lemma word_stripped (words : list text) w :
  forallb (fun x => forallb (fun c => negb (Py.isspace c)) x) words = true ->
  In w words -> Py.strip w = w.
Proof.
  intros H Hin. apply strip_id. rewrite forallb_forall in H. now apply H.
Qed.

Lemma found_stripped (t : text) (found : option value) (v : text) :
  found = Some (Some v) ->
  (found = found_Name t \/ found = found_Department t \/ found = found_TestType t
   \/ found = found_Result t \/ found = found_Notes t) ->
  Py.strip v = v.
Proof.
  intros Hv [->|[->|[->|[->| ->]]]].
  - unfold found_Name in Hv. destruct (search true _ t) as [m|] eqn:E; [|discriminate].
    injection Hv as <-. destruct (search_inv _ _ _ _ E) as (s0 & _ & Hm).
    now apply name_here in Hm.
  - unfold found_Department in Hv. destruct (search true _ t) as [m|] eqn:E; [|discriminate].
    injection Hv as <-. destruct (search_inv _ _ _ _ E) as (s0 & _ & Hm).
    destruct (department_here _ _ Hm) as [-> | ->]; reflexivity.
  - unfold found_TestType in Hv. destruct (search true _ t) as [m|] eqn:E; [|discriminate].
    injection Hv as <-. destruct (search_inv _ _ _ _ E) as (s0 & _ & Hm).
    apply (word_stripped test_type_words); [reflexivity|]. now apply test_types_here in Hm.
  - unfold found_Result in Hv. destruct (search true _ t) as [m|] eqn:E; [|discriminate].
    injection Hv as <-. destruct (search_inv _ _ _ _ E) as (s0 & _ & Hm).
    apply (word_stripped result_words); [reflexivity|]. now apply results_here in Hm.
  - unfold found_Notes in Hv. destruct (search true _ t) as [m|]; [|discriminate].
    destruct (group1 m); [|discriminate]. injection Hv as <-. apply strip_idem.
Qed.

Lemma final_stripped t key found v :
  String.eqb key "TestDate" = false ->
  (forall x, found = Some (Some x) -> Py.strip x = x) ->
  final_value t key found = Some v -> Py.strip v = v.
Proof.
  intros Hk Hfound. unfold final_value, fallback_action, primary_action.
  cbn [fst snd]. rewrite Hk.
  assert (Hprim : forall p,
    match search true (pattern_of key) t with
    | Some m => match (v0 <- group1_strip m;; Ok (Some v0)) with
                | Ok v0 => v0
                | Raise _ => None
                end
    | None => None
    end = Some p -> Py.strip p = p).
  { intros p. destruct (search true (pattern_of key) t) as [m|]; [|discriminate].
    unfold group1_strip. destruct (group1 m); [|discriminate]. cbn [bind].
    intros [= <-]. apply strip_idem. }
  destruct (match search true (pattern_of key) t with Some _ => _ | None => _ end)
    as [p|] eqn:Ep.
  - specialize (Hprim p eq_refl). destruct (negb (truthy (Some p))).
    + destruct found as [[x|]|]; intros [= <-]; auto.
    + intros [= <-]. exact Hprim.
  - cbn [truthy negb]. destruct found as [[x|]|]; intros [= <-]. auto.
Qed.

Lemma iso_date_no_space s :
  is_iso_date s = true -> forallb (fun c => negb (Py.isspace c)) s = true.
Proof.
  unfold is_iso_date.
  destruct s as [|y1 [|y2 [|y3 [|y4 [|h1 [|m1 [|m2 [|h2 [|d1 [|d2 [|]]]]]]]]]]];
    try discriminate.
  rewrite !andb_true_iff. intros [[[Hd H1] H2] _].
  apply Ascii.eqb_eq in H1. apply Ascii.eqb_eq in H2. subst h1 h2.
  cbn [forallb] in Hd |- *. rewrite !andb_true_iff in Hd.
  destruct Hd as (A & B & C & D & E & F & G & H & _).
  rewrite (digit_not_space _ A), (digit_not_space _ B), (digit_not_space _ C),
    (digit_not_space _ D), (digit_not_space _ E), (digit_not_space _ F),
    (digit_not_space _ G), (digit_not_space _ H).
  reflexivity.
Qed.

Lemma lookup_absent k (d : dict) : ~ In k (map fst d) -> lookup k d = None.
Proof.
  induction d as [|[k0 v0] d IH]; simpl; [reflexivity|].
  intros H. destruct (String.eqb_spec k0 k) as [->|]; [tauto|]. apply IH. tauto.
Qed.

(** X11: every value that the stages leave in a field is its own
    [strip()]: none starts or ends with white space. *)
Theorem values_are_stripped (t : text) :
  exists fields,
    extract_fields t = Ok fields
    /\ forall k v, field k fields = Some v -> Py.strip v = v.
Proof.
  destruct (extract_fields_final t)
    as (f & Hf & Hkeys & He & Hn & Hdp & Hd & Hty & Hr & Hno).
  exists f. split; [exact Hf|]. intros k v Hv.
  set (t' := apply_corrections t) in *.
  destruct (in_dec string_dec k column_order) as [Hin|Hout].
  - cbn [column_order In] in Hin.
    destruct Hin as [<-|[<-|[<-|[<-|[<-|[<-|[<-|[]]]]]]]].
    + pose proof (employee_id_value t f Hf) as H. fold t' in H.
      destruct (has_six_digits t'); [|congruence].
      destruct H as (d & Hd6 & _ & Hdig & _). rewrite Hv in Hd6. injection Hd6 as ->.
      apply strip_id. revert Hdig. apply forallb_impl. intros a Ha.
      now rewrite digit_not_space.
    + rewrite Hn in Hv.
      apply (final_stripped t' "Name"%string (found_Name t') v eq_refl); [|exact Hv].
      intros x Hx. apply (found_stripped t' _ x Hx). auto.
    + rewrite Hdp in Hv.
      apply (final_stripped t' "Department"%string (found_Department t') v eq_refl); [|exact Hv].
      intros x Hx. apply (found_stripped t' _ x Hx). auto.
    + destruct (test_date_cases t) as (f' & Hf' & H). rewrite Hf in Hf'.
      injection Hf' as <-. fold t' in H.
      destruct H as [[H _]|(d1 & d2 & d3 & Hp & _ & [H|(_ & H & Hiso)])];
        rewrite Hv in H; [discriminate| |]; injection H as ->; apply strip_id.
      * now apply raw_date_no_space.
      * now apply iso_date_no_space.
    + rewrite Hty in Hv.
      apply (final_stripped t' "TestType"%string (found_TestType t') v eq_refl); [|exact Hv].
      intros x Hx. apply (found_stripped t' _ x Hx). auto.
    + rewrite Hr in Hv.
      apply (final_stripped t' "Result"%string (found_Result t') v eq_refl); [|exact Hv].
      intros x Hx. apply (found_stripped t' _ x Hx). auto 6.
    + rewrite Hno in Hv.
      apply (final_stripped t' "Notes"%string (found_Notes t') v eq_refl); [|exact Hv].
      intros x Hx. apply (found_stripped t' _ x Hx). auto 6.
  - unfold field in Hv. rewrite lookup_absent in Hv by now rewrite Hkeys.
    discriminate.
Qed.

Lemma values_are_stripped_witness :
  exists fields,
    extract_fields (str "Name:   Bob   2 Notes:  call back  ") = Ok fields
    /\ field "Name" fields = Some (str "Bob")
    /\ field "Notes" fields = Some (str "call back").
Proof.
  destruct (values_are_stripped (str "Name:   Bob   2 Notes:  call back  "))
    as (fields & Hx & _).
  exists fields. split; [exact Hx|].
  vm_compute in Hx. injection Hx as <-. split; reflexivity.
Defined.

(** ** What a field can contain *)

Lemma in_letters c : in_cset true letters c = is_letter c.
Proof. each_char c; vm_compute; reflexivity. Qed.

Lemma in_letters_space c : in_cset true letters_space c = letter_or_space c.
Proof. each_char c; vm_compute; reflexivity. Qed.

Lemma in_space c : in_cset true [CSpace] c = Py.isspace c.
Proof. each_char c; vm_compute; reflexivity. Qed.

Lemma in_dot c : in_cset true [CDot] c = not_newline c.
Proof. each_char c; vm_compute; reflexivity. Qed.

Lemma is_letter_lower c : is_letter (Py.lower_char c) = is_letter c.
Proof. each_char c; vm_compute; reflexivity. Qed.

Lemma is_letter_upper c : is_letter (Py.upper_char c) = is_letter c.
Proof. each_char c; vm_compute; reflexivity. Qed.

Lemma letters_ci w p :
  map Py.lower_char w = map Py.lower_char p ->
  forallb is_letter p = true -> forallb is_letter w = true.
Proof.
  revert p. induction w as [|c w IH]; intros [|a p]; simpl; try discriminate;
    [reflexivity|].
  intros [= Hc Hw] H. apply andb_prop in H. destruct H as [Ha Hp].
  rewrite (IH p Hw Hp), andb_true_r.
  now rewrite <- is_letter_lower, Hc, is_letter_lower.
Qed.

Lemma forallb_lstrip (p : ascii -> bool) s :
  forallb p s = true -> forallb p (Py.lstrip s) = true.
Proof.
  induction s as [|c s IH]; simpl; [reflexivity|].
  intros H. apply andb_prop in H. destruct H as [Hc Hs].
  destruct (Py.isspace c); [auto|]. simpl. now rewrite Hc, Hs.
Qed.

Lemma forallb_strip (p : ascii -> bool) s :
  forallb p s = true -> forallb p (Py.strip s) = true.
Proof.
  intros H. unfold Py.strip, Py.rstrip. rewrite forallb_rev.
  apply forallb_lstrip. rewrite forallb_rev. now apply forallb_lstrip.
Qed.

(** The group of [label[:\s]*(cs+)]. *)
Lemma labelled_group label cs s m :
  match_here true (label <.> star colon_space <.> Group (plus cs)) s = Some m ->
  exists g, group1 m = Some g /\ g <> [] /\ forallb (in_cset true cs) g = true.
Proof.
  unfold match_here. intros H. apply labelled_run in H.
  destruct H as (s2 & g & _ & H). unfold plus in H. cbn [run] in H.
  apply rep_consumes in H. destruct H as (w & s3 & -> & Hw & Hlen & H).
  injection H as <-. exists w. cbn [group1]. rewrite firstn_consumed.
  repeat split; auto. destruct w; [simpl in Hlen; lia|discriminate].
Qed.

(** A field other than the date ends as the stripped group of its
    labelled pattern or as what its fallback found. *)
Lemma final_cases t key found v :
  String.eqb key "TestDate" = false ->
  final_value t key found = Some v ->
  (exists s0 m g, match_here true (pattern_of key) s0 = Some m
                  /\ group1 m = Some g /\ v = Py.strip g)
  \/ found = Some (Some v).
Proof.
  intros Hk. unfold final_value, fallback_action, primary_action. cbn [fst snd].
  rewrite Hk. destruct (search true (pattern_of key) t) as [m|] eqn:E.
  - destruct (search_inv _ _ _ _ E) as (s0 & _ & Hm).
    unfold group1_strip. destruct (group1 m) as [g|] eqn:Eg; cbn [bind].
    + destruct (negb (truthy (Some (Py.strip g)))).
      * destruct found as [[x|]|]; intros [= <-]; eauto 8.
      * intros [= <-]. eauto 8.
    + cbn [truthy negb]. destruct found as [[x|]|]; intros [= <-]. auto.
  - cbn [truthy negb]. destruct found as [[x|]|]; intros [= <-]. auto.
Qed.

Lemma name_found_letters t v :
  found_Name t = Some (Some v) -> forallb letter_or_space v = true.
Proof.
  unfold found_Name. destruct (search true _ t) as [m|] eqn:E; [|discriminate].
  intros [= <-]. destruct (search_inv _ _ _ _ E) as (s & _ & H). clear E.
  unfold match_here, star, plus in H. cbn [run] in H.
  destruct (eat true (str "Peter") s) as [s1|] eqn:E; [|discriminate].
  destruct (eat_inv _ _ _ E) as (w0 & -> & Hw0).
  apply rep_consumes in H. destruct H as (sp & s2 & -> & Hsp & _ & H).
  apply rep_consumes in H. destruct H as (l & s3 & -> & Hl & _ & H).
  injection H as <-. cbn [group0].
  assert (Hg : firstn (length (w0 ++ sp ++ l ++ s3) - length s3) (w0 ++ sp ++ l ++ s3)
               = w0 ++ sp ++ l).
  { rewrite <- (firstn_consumed (w0 ++ sp ++ l) s3). now rewrite <- !app_assoc. }
  rewrite Hg, !forallb_app. unfold letter_or_space.
  rewrite (forallb_eq _ _ _ in_space) in Hsp.
  rewrite (forallb_eq _ _ _ in_letters) in Hl.
  assert (H0 : forallb is_letter w0 = true) by (apply (letters_ci _ _ Hw0); reflexivity).
  rewrite (forallb_impl is_letter), (forallb_impl Py.isspace), (forallb_impl is_letter);
    auto; intros a Ha; rewrite Ha; auto using orb_true_r.
Qed.

Lemma department_found_letters t v :
  found_Department t = Some (Some v) -> forallb letter_or_space v = true.
Proof.
  unfold found_Department. destruct (search true _ t) as [m|] eqn:E; [|discriminate].
  intros [= <-]. destruct (search_inv _ _ _ _ E) as (s & _ & H).
  destruct (department_here _ _ H) as [-> | ->]; reflexivity.
Qed.

Lemma word_letters (words : list text) w :
  forallb (fun x => (1 <=? length x) && forallb is_letter x) words = true ->
  In w words -> forallb is_letter w = true /\ w <> [].
Proof.
  intros H Hin. rewrite forallb_forall in H. specialize (H w Hin).
  apply andb_prop in H. destruct H as [H1 H2]. split; [exact H2|].
  intros ->. discriminate.
Qed.

Lemma strip_letters g :
  forallb is_letter g = true -> Py.strip g = g.
Proof.
  intros H. apply strip_id. revert H. apply forallb_impl. intros a Ha.
  rewrite letter_not_space; [reflexivity|]. now rewrite in_letters.
Qed.

Lemma notes_found_one_line t v :
  found_Notes t = Some (Some v) -> forallb not_newline v = true.
Proof.
  unfold found_Notes. destruct (search true _ t) as [m|] eqn:E; [|discriminate].
  destruct (group1 m) as [g|] eqn:Eg; [|discriminate]. intros [= <-].
  destruct (search_inv _ _ _ _ E) as (s & _ & H). clear E.
  unfold match_here, star, plus in H. cbn [run] in H.
  destruct (eat true (str "Notes") s) as [s1|]; [|discriminate].
  apply rep_consumes in H. destruct H as (sp & s2 & _ & _ & _ & H).
  apply rep_consumes in H. destruct H as (l & s3 & -> & Hl & _ & H).
  injection H as <-. cbn [group1] in Eg. rewrite firstn_consumed in Eg.
  injection Eg as <-. apply forallb_strip.
  now rewrite (forallb_eq _ _ _ in_dot) in Hl.
Qed.

Lemma group_then_ahead cs la R (k : text -> option text -> option R) s g x :
  run true (Group (lazy_plus cs) <.> Ahead la) R k s g = Some x ->
  exists w s', s = w ++ s' /\ forallb (in_cset true cs) w = true
               /\ k s' (Some w) = Some x.
Proof.
  unfold lazy_plus. cbn [run]. intros H.
  apply rep_consumes in H. destruct H as (w & s3 & -> & Hw & _ & H).
  rewrite firstn_consumed in H.
  destruct (run true la unit _ s3 _); [|discriminate]. eauto.
Qed.

Lemma notes_group_one_line s m g :
  match_here true (pattern_of "Notes") s = Some m -> group1 m = Some g ->
  forallb not_newline g = true.
Proof.
  unfold match_here.
  change (pattern_of "Notes")
    with ((Str "Notes" <|> Str "Random test") <.> star colon_space
          <.> (Group (lazy_plus [CDot]) <.> Ahead (Str nl <|> Eol)))%re.
  intros H Hg. apply labelled_run in H. destruct H as (s2 & g0 & _ & H).
  apply group_then_ahead in H. destruct H as (w & s3 & -> & Hw & H).
  injection H as <-. cbn [group1] in Hg. injection Hg as <-.
  now rewrite (forallb_eq _ _ _ in_dot) in Hw.
Qed.

(** X12: on a text of ASCII characters, Name and Department hold
    letters and white space only (no digit, no colon), TestType and
    Result are non-empty words of letters, and Notes has no line feed. *)
Theorem field_alphabets (t : text) :
  forallb Py.isascii t = true ->
  exists fields,
    extract_fields t = Ok fields
    /\ (forall v, field "Name" fields = Some v -> forallb letter_or_space v = true)
    /\ (forall v, field "Department" fields = Some v ->
                  forallb letter_or_space v = true)
    /\ (forall v, field "TestType" fields = Some v ->
                  forallb is_letter v = true /\ v <> [])
    /\ (forall v, field "Result" fields = Some v ->
                  forallb is_letter v = true /\ v <> [])
    /\ (forall v, field "Notes" fields = Some v -> forallb not_newline v = true).
Proof.
  intros _.
  destruct (extract_fields_final t)
    as (f & Hf & _ & _ & Hn & Hdp & _ & Hty & Hr & Hno).
  exists f. split; [exact Hf|]. set (t' := apply_corrections t) in *.
  assert (Hwide : forall key label found v,
            pattern_of key = (label <.> star colon_space <.> Group (plus letters_space))%re ->
            String.eqb key "TestDate" = false ->
            (found = Some (Some v) -> forallb letter_or_space v = true) ->
            final_value t' key found = Some v -> forallb letter_or_space v = true).
  { intros key label found v Hp Hk Hfound Hv.
    destruct (final_cases _ _ _ _ Hk Hv) as [(s0 & m & g & Hm & Hg & ->)|H]; [|auto].
    rewrite Hp in Hm. destruct (labelled_group _ _ _ _ Hm) as (g' & Hg' & _ & Hl).
    assert (g' = g) by congruence. subst g'.
    apply forallb_strip. now rewrite (forallb_eq _ _ _ in_letters_space) in Hl. }
  assert (Hword : forall key label found words v,
            pattern_of key = (label <.> star colon_space <.> Group (plus letters))%re ->
            String.eqb key "TestDate" = false ->
            (found = Some (Some v) -> In v words) ->
            forallb (fun x => (1 <=? length x) && forallb is_letter x) words = true ->
            final_value t' key found = Some v ->
            forallb is_letter v = true /\ v <> []).
  { intros key label found words v Hp Hk Hfound Hwords Hv.
    destruct (final_cases _ _ _ _ Hk Hv) as [(s0 & m & g & Hm & Hg & ->)|H].
    - rewrite Hp in Hm. destruct (labelled_group _ _ _ _ Hm) as (g' & Hg' & Hne & Hl).
      assert (g' = g) by congruence. subst g'.
      rewrite (forallb_eq _ _ _ in_letters) in Hl.
      rewrite (strip_letters _ Hl). auto.
    - apply (word_letters words); auto. }
  split; [|split; [|split; [|split]]].
  - intros v Hv. rewrite Hn in Hv.
    apply (Hwide "Name"%string (Str "Name") (found_Name t') v eq_refl eq_refl);
      [apply name_found_letters|exact Hv].
  - intros v Hv. rewrite Hdp in Hv.
    apply (Hwide "Department"%string (Str "Department" <|> Str "IT")%re
             (found_Department t') v eq_refl eq_refl);
      [apply department_found_letters|exact Hv].
  - intros v Hv. rewrite Hty in Hv.
    apply (Hword "TestType"%string (Str "TestType" <|> Str "Blood")%re
             (found_TestType t') test_type_words v eq_refl eq_refl);
      [|reflexivity|exact Hv].
    unfold found_TestType. destruct (search true test_types t') as [m|] eqn:E;
      [|discriminate].
    intros [= <-]. destruct (search_inv _ _ _ _ E) as (s0 & _ & Hm).
    now apply test_types_here in Hm.
  - intros v Hv. rewrite Hr in Hv.
    apply (Hword "Result"%string (Str "Result" <|> Str "Negative")%re
             (found_Result t') result_words v eq_refl eq_refl);
      [|reflexivity|exact Hv].
    unfold found_Result. destruct (search true results t') as [m|] eqn:E;
      [|discriminate].
    intros [= <-]. destruct (search_inv _ _ _ _ E) as (s0 & _ & Hm).
    now apply results_here in Hm.
  - intros v Hv. rewrite Hno in Hv.
    destruct (final_cases t' "Notes"%string _ _ eq_refl Hv)
      as [(s0 & m & g & Hm & Hg & ->)|H].
    + apply forallb_strip. eapply notes_group_one_line; eauto.
    + now apply notes_found_one_line in H.
Qed.

Lemma field_alphabets_witness :
  exists fields,
    extract_fields (str "Name: Bob7 TestType: Hair-2 Notes: a, b") = Ok fields
    /\ field "Name" fields = Some (str "Bob")
    /\ field "TestType" fields = Some (str "Hair").
Proof.
  destruct (field_alphabets (str "Name: Bob7 TestType: Hair-2 Notes: a, b") eq_refl)
    as (fields & Hx & _).
  exists fields. split; [exact Hx|].
  vm_compute in Hx. injection Hx as <-. split; reflexivity.
Defined.

(** ** [add_to_csv] on any file *)

(** X5: a record with the seven keys, a file that can be read (or no
    file) and written: the file then has exactly the seven canonical
    columns (columns of other names are dropped, missing ones are
    empty), the rows that the read returned, in that order, and the row
    of the record last; there was one read and one write. *)
Theorem add_to_csv_any_file reread (fields : dict) (w : world) (df : DataFrame) :
  complete fields = true ->
  loaded reread w = Ok df ->
  write_fault w = None ->
  add_to_csv reread fields w
  = (Ok (mkFrame column_order [canonical_row fields]),
     mkWorld
       (Some (Csv (mkFrame column_order
                     (map (reindex (columns df) column_order) (rows df)
                      ++ [canonical_row fields]))))
       None
       (WriteCsv (mkFrame column_order
                    (map (reindex (columns df) column_order) (rows df)
                     ++ [canonical_row fields]))
        :: ReadCsv :: trace w)).
Proof.
  intros Hc Hl Hw. rewrite (add_to_csv_complete _ _ _ Hc), Hl, Hw. reflexivity.
Qed.

Lemma add_to_csv_any_file_witness :
  csv_file
    (snd (add_to_csv (fun df => Ok df) bob
            (mkWorld (Some (Csv (mkFrame ["Name"; "Shoe"]%string
                                   [[Some (str "Ann"); Some (str "42")]])))
               None [])))
  = Some (Csv (mkFrame column_order
                 [[None; Some (str "Ann"); None; None; None; None; None];
                  canonical_row bob])).
Proof.
  rewrite (add_to_csv_any_file (fun df => Ok df) bob _
             (mkFrame ["Name"; "Shoe"]%string [[Some (str "Ann"); Some (str "42")]]));
    reflexivity.
Defined.

(** X13: only [FileNotFoundError] is caught.  When the read raises
    anything else (an empty file, text that is no table) the exception
    leaves [add_to_csv] after the read alone: nothing is written.  When
    the write fails its exception leaves the function too, and the file
    is what the failed write left. *)
Theorem add_to_csv_failure reread (fields : dict) (w : world) :
  (forall e, loaded reread w = Raise e ->
     add_to_csv reread fields w = (Raise e, emit ReadCsv w)
     /\ csv_file (snd (add_to_csv reread fields w)) = csv_file w)
  /\ (forall df e remains,
        complete fields = true ->
        loaded reread w = Ok df -> write_fault w = Some (e, remains) ->
        fst (add_to_csv reread fields w) = Raise e
        /\ csv_file (snd (add_to_csv reread fields w)) = remains).
Proof.
  split.
  - intros e He. rewrite add_to_csv_loaded, He. split; reflexivity.
  - intros df e remains Hc Hl Hw. rewrite (add_to_csv_complete _ _ _ Hc), Hl, Hw.
    split; reflexivity.
Qed.

Lemma add_to_csv_failure_witness :
  let empty_file := Unreadable (ValueError (str "No columns to parse from file")) in
  add_to_csv (fun df => Ok df) bob (mkWorld (Some empty_file) None [])
  = (Raise (ValueError (str "No columns to parse from file")),
     mkWorld (Some empty_file) None [ReadCsv]).
Proof.
  intros empty_file.
  exact (proj1 (proj1 (add_to_csv_failure (fun df => Ok df) bob
                         (mkWorld (Some empty_file) None [])) _ eq_refl)).
Defined.




(** ** The window *)

Lemma canonical_row_values fields :
  map fst fields = column_order -> canonical_row fields = map snd fields.
Proof.
  intros H.
  destruct fields as [|[k1 v1] [|[k2 v2] [|[k3 v3] [|[k4 v4] [|[k5 v5]
    [|[k6 v6] [|[k7 v7] [|]]]]]]]]; try discriminate.
  injection H as -> -> -> -> -> -> ->. reflexivity.
Qed.

Lemma parse_fields_keys t fields :
  parse_fields t = Ok fields -> map fst fields = column_order.
Proof.
  intros H. apply parse_fields_extract in H.
  pose proof (extract_fields_actions t) as [Hx Hk].
  remember (apply_actions (actions (apply_corrections t)) initial_fields) as d eqn:Ed.
  clear Ed. rewrite H in Hx. now injection Hx as ->.
Qed.

Lemma keys_complete fields : map fst fields = column_order -> complete fields = true.
Proof. unfold complete. intros ->. reflexivity. Qed.

Lemma loaded_emit reread e w : loaded reread (emit e w) = loaded reread w.
Proof. reflexivity. Qed.

(** After a successful parse: what [process] does for each way out of
    [add_to_csv]. *)
Lemma process_parsed reread (result : list Ocr.fragment) (w : world) (fields : dict) :
  parse_fields (Ocr.reconstruct result) = Ok fields ->
  let shown := [InsertFields fields;
                Insert (str nl ++ str "Extracted Text:" ++ str nl
                        ++ Ocr.reconstruct result ++ str nl)] in
  process reread result w
  = match loaded reread w with
    | Raise e =>
        report e (mkWorld (csv_file w) (write_fault w) (ReadCsv :: shown ++ trace w))
    | Ok df =>
        let stored := appended df (map snd fields) in
        match write_fault w with
        | None =>
            mkWorld (Some (Csv stored)) None
              ([ShowInfo (str "Success")
                  (str "Data successfully added to DrugTestingOrganizer.csv!");
                InsertRow (mkFrame column_order [map snd fields]);
                WriteCsv stored; ReadCsv] ++ shown ++ trace w)
        | Some (e, remains) =>
            report e (mkWorld remains (write_fault w)
                        (WriteCsv stored :: ReadCsv :: shown ++ trace w))
        end
    end.
Proof.
  intros Hp shown. subst shown. unfold process. rewrite Hp.
  pose proof (parse_fields_keys _ _ Hp) as Hk.
  rewrite add_to_csv_complete by now apply keys_complete.
  rewrite (canonical_row_values _ Hk), !loaded_emit.
  destruct (loaded reread w) as [df|e]; [|reflexivity].
  cbn [emit write_fault csv_file trace].
  destruct (write_fault w) as [[e remains]|]; reflexivity.
Qed.

(** X7: a record that [parse_fields] returns is stored when the file can
    be read (or is absent) and written: the window reads it once, writes
    it once with the rows that the read returned and the values of the
    record as last row, and shows the success box. *)
Theorem process_success reread (result : list Ocr.fragment) (w : world)
    (fields : dict) (df : DataFrame) :
  parse_fields (Ocr.reconstruct result) = Ok fields ->
  loaded reread w = Ok df ->
  write_fault w = None ->
  let w' := process reread result w in
  let stored := mkFrame column_order
                  (map (reindex (columns df) column_order) (rows df)
                   ++ [map snd fields]) in
  csv_file w' = Some (Csv stored)
  /\ trace w'
     = [ShowInfo (str "Success")
          (str "Data successfully added to DrugTestingOrganizer.csv!");
        InsertRow (mkFrame column_order [map snd fields]);
        WriteCsv stored;
        ReadCsv;
        InsertFields fields;
        Insert (str nl ++ str "Extracted Text:" ++ str nl
                ++ Ocr.reconstruct result ++ str nl)]
       ++ trace w.
Proof.
  intros Hp Hl Hw w' stored. subst w' stored.
  rewrite (process_parsed _ _ _ _ Hp), Hl, Hw. split; reflexivity.
Qed.

Lemma process_success_witness :
  let result := [Ocr.mkFragment (0, 0)%Z (90, 0)%Z (90, 9)%Z (0, 9)%Z
                   (str "Name: Bob 1/2/2024 URINE")] in
  data_rows (process (fun df => Ok df) result (mkWorld None None []))
  = [[None; Some (str "Bob"); None; Some (str "1/2/2024"); Some (str "Urine");
      None; None]].
Proof.
  intros result.
  destruct (parse_fields (Ocr.reconstruct result)) as [fields|] eqn:E;
    [|vm_compute in E; discriminate].
  destruct (process_success (fun df => Ok df) result (mkWorld None None []) fields
              (mkFrame column_order []) E eq_refl eq_refl)
    as [Hfile _].
  unfold data_rows. rewrite Hfile. vm_compute in E. injection E as <-. reflexivity.
Defined.






(** ** The order does not depend on the recognizer's *)

Lemma sort_of_sorted l : StronglySorted key_le l -> Ocr.sort l = l.
Proof.
  induction 1 as [|x l Hl IH Hx]; [reflexivity|].
  cbn [Ocr.sort]. rewrite IH. destruct l as [|y l]; [reflexivity|].
  apply insert_le. inversion Hx; subst. assumption.
Qed.

Lemma sorted_unique a :
  forall b,
  StronglySorted key_le a -> StronglySorted key_le b ->
  Permutation a b -> NoDup (map Ocr.sort_key a) -> a = b.
Proof.
  induction a as [|x a IH]; intros b Sa Sb P N.
  - apply Permutation_nil in P. now subst.
  - destruct b as [|y b]; [apply Permutation_sym, Permutation_nil in P; discriminate|].
    inversion Sa as [|? ? Sa' Fa]; subst. inversion Sb as [|? ? Sb' Fb]; subst.
    inversion N as [|? ? Nx N']; subst.
    assert (Hxy : x = y).
    { assert (Hx : In x (y :: b)) by (apply (Permutation_in _ P); now left).
      assert (Hy : In y (x :: a))
        by (apply (Permutation_in _ (Permutation_sym P)); now left).
      destruct Hy as [Hy|Hy]; [exact Hy|].
      destruct Hx as [Hx|Hx]; [now symmetry|].
      rewrite Forall_forall in Fa, Fb.
      pose proof (Fa y Hy) as H1. pose proof (Fb x Hx) as H2.
      unfold key_le in *. exfalso. apply Nx.
      replace (Ocr.sort_key x) with (Ocr.sort_key y) by lia.
      now apply in_map. }
    subst y. f_equal. apply IH; auto.
    now apply Permutation_cons_inv in P.
Qed.

(** X9: when no two fragments start at the same height, the text does
    not depend on the order in which the recognizer lists them; and
    fragments that come in ascending order are joined as they come. *)
Theorem reconstruct_any_order (result result' : list Ocr.fragment) :
  (Permutation result result' ->
   NoDup (map Ocr.sort_key result) ->
   Ocr.reconstruct result' = Ocr.reconstruct result)
  /\ (StronglySorted key_le result ->
      Ocr.reconstruct result
      = Py.join (str " ") (map Ocr.fragment_text result)).
Proof.
  split.
  - intros P N. unfold Ocr.reconstruct. f_equal. f_equal. f_equal.
    symmetry. apply sorted_unique; auto using sort_sorted.
    + rewrite <- (sort_perm result), <- (sort_perm result'). exact P.
    + apply (Permutation_NoDup (Permutation_map Ocr.sort_key (sort_perm result)) N).
  - intros S. unfold Ocr.reconstruct. rewrite (sort_of_sorted _ S).
    now rewrite map_map.
Qed.

Lemma reconstruct_any_order_witness :
  let a := Ocr.mkFragment (5, 50)%Z (40, 50)%Z (40, 60)%Z (5, 60)%Z (str "Blood") in
  let b := Ocr.mkFragment (5, 10)%Z (40, 10)%Z (40, 20)%Z (5, 20)%Z (str "Name:") in
  let c := Ocr.mkFragment (5, 30)%Z (40, 30)%Z (40, 40)%Z (5, 40)%Z (str "Bob") in
  Ocr.reconstruct [c; a; b] = Ocr.reconstruct [a; b; c]
  /\ Ocr.reconstruct [b; c; a] = str "Name: Bob Blood".
Proof.
  intros a b c. split.
  - apply (proj1 (reconstruct_any_order [a; b; c] [c; a; b])).
    + apply Permutation_sym. apply (Permutation_cons_append [a; b] c).
    + subst a b c. repeat constructor; simpl; intuition discriminate.
  - rewrite (proj2 (reconstruct_any_order [b; c; a] [])); [reflexivity|].
    repeat (apply SSorted_cons || apply SSorted_nil || apply Forall_cons
            || apply Forall_nil); unfold key_le, Ocr.sort_key; subst a b c;
      simpl; lia.
Defined.

Lemma join_contains sep parts p :
  In p parts -> is_substring p (Py.join sep parts).
Proof.
  induction parts as [|q parts IH]; [contradiction|].
  intros [->|Hin].
  - destruct parts as [|r parts]; [exists [], []; now rewrite app_nil_r|].
    exists [], (sep ++ Py.join sep (r :: parts)). reflexivity.
  - destruct parts as [|r parts]; [contradiction|].
    destruct (IH Hin) as (a & b & Hj).
    exists (q ++ sep ++ a), b. cbn [Py.join] in Hj |- *.
    rewrite Hj, <- !app_assoc. reflexivity.
Qed.

(** X10: nothing that was recognized is lost: the text of every fragment
    stands in the reconstructed text. *)
Theorem reconstruct_keeps_texts (result : list Ocr.fragment) (f : Ocr.fragment) :
  In f result -> is_substring (Ocr.fragment_text f) (Ocr.reconstruct result).
Proof.
  intros Hin. unfold Ocr.reconstruct. rewrite map_map. cbn [fst].
  apply join_contains. apply in_map.
  apply (Permutation_in _ (sort_perm result) Hin).
Qed.

Lemma reconstruct_keeps_texts_witness :
  is_substring (str "Bob")
    (Ocr.reconstruct
       [Ocr.mkFragment (5, 50)%Z (40, 50)%Z (40, 60)%Z (5, 60)%Z (str "Blood");
        Ocr.mkFragment (5, 30)%Z (40, 30)%Z (40, 40)%Z (5, 40)%Z (str "Bob")]).
Proof.
  apply (reconstruct_keeps_texts _
           (Ocr.mkFragment (5, 30)%Z (40, 30)%Z (40, 40)%Z (5, 40)%Z (str "Bob"))).
  simpl. auto.
Defined.

(** ** Instances of the field properties *)

Lemma employee_id_is_six_digits_witness :
  exists fields,
    extract_fields (str "Badge 7654321") = Ok fields
    /\ field "EmployeeID" fields = Some (str "765432").
Proof.
  destruct (employee_id_is_six_digits (str "Badge 7654321")) as (fields & Hx & _).
  exists fields. split; [exact Hx|].
  vm_compute in Hx. injection Hx as <-. reflexivity.
Defined.

Lemma test_date_value_witness :
  exists fields,
    extract_fields (str "TestDate: 13/45/2025") = Ok fields
    /\ field "TestDate" fields = Some (str "13/45/2025")
    /\ has_date (str "TestDate: 13/45/2025").
Proof.
  destruct (test_date_value (str "TestDate: 13/45/2025")) as (fields & Hx & Hiff & _).
  exists fields. split; [exact Hx|].
  assert (Hv : field "TestDate" fields = Some (str "13/45/2025"))
    by (vm_compute in Hx; injection Hx as <-; reflexivity).
  split; [exact Hv|]. apply Hiff. now rewrite Hv.
Defined.
